(** * AzureRM provider: client bootstrap and the MySQL Server adapter

    A shallow embedding of [azurerm/config.go] (the [ArmClient] registry,
    [withRequestLogging], [getArmClient], the storage-account key helpers)
    and of the MySQL Server resource (schema, create / read / update /
    delete, SKU expand and flatten), followed by the properties of the
    specification that concern them.

    Conventions of the embedding:
    - a Go [error] is [option string]: [None] is [nil], [Some msg] carries
      the message;
    - a Go pointer that the code tests or dereferences is an [option];
      dereferencing [None], indexing past the end of a slice and a failed
      type assertion are run-time panics, written [Panicked];
    - code that talks to the remote API or mutates the resource data is
      written in a state monad whose state also records every remote call
      and every [log.Printf] line, in order;
    - functions of the Azure SDK, of go-autorest and of the Terraform
      helper packages, and helpers of the provider that other files
      declare, are parameters, gathered in records. *)

From stdpp Require Import gmap strings list fin_maps pretty.
From Stdlib Require Import ZArith Ascii String Lia.

Local Open Scope Z_scope.

(** ** Go run-time notions *)

Module Go.

Definition error : Type := option string.

Inductive Res (A : Type) : Type :=
| Ok (a : A)
| Panicked (msg : string).
Arguments Ok {A} a.
Arguments Panicked {A} msg.

(** Dereference of a pointer: [*p]. *)
Definition deref {A : Type} (p : option A) : Res A :=
  match p with
  | Some a => Ok a
  | None => Panicked "invalid memory address or nil pointer dereference"
  end.

(** [s[i]] on a slice. *)
Definition index {A : Type} (s : list A) (i : nat) : Res A :=
  match s !! i with
  | Some a => Ok a
  | None => Panicked "index out of range"
  end.

(** The state-and-panic monad: a computation reads and writes a state
    [S] and either returns or panics. After a panic nothing runs. *)
Definition M (S A : Type) : Type := S -> Res A * S.

Definition ret {S A : Type} (a : A) : M S A := fun s => (Ok a, s).

Definition bind {S A B : Type} (m : M S A) (k : A -> M S B) : M S B :=
  fun s =>
    match m s with
    | (Ok a, s') => k a s'
    | (Panicked msg, s') => (Panicked msg, s')
    end.

Definition lift {S A : Type} (r : Res A) : M S A := fun s => (r, s).

Definition gets {S A : Type} (f : S -> A) : M S A := fun s => (Ok (f s), s).

Definition modify {S : Type} (f : S -> S) : M S unit := fun s => (Ok tt, f s).

(** Conversions between integer types; [int] and [int64] are 64 bits
    wide, [int32] wraps around. *)
Definition int32 (z : Z) : Z := (z + 2 ^ 31) mod 2 ^ 32 - 2 ^ 31.
Definition int64 (z : Z) : Z := (z + 2 ^ 63) mod 2 ^ 64 - 2 ^ 63.
Definition int (z : Z) : Z := int64 z.

Definition is_int (z : Z) : Prop := - 2 ^ 63 <= z < 2 ^ 63.
Definition is_int32 (z : Z) : Prop := - 2 ^ 31 <= z < 2 ^ 31.

(** [strconv.Itoa]. *)
Definition Itoa (z : Z) : string := pretty z.

(** [strings.ToLower], on the ASCII letters. *)
Definition lower_ascii (c : ascii) : ascii :=
  let n := nat_of_ascii c in
  if ((65 <=? n) && (n <=? 90))%nat then ascii_of_nat (n + 32) else c.

Fixpoint ToLower (s : string) : string :=
  match s with
  | EmptyString => EmptyString
  | String c s' => String (lower_ascii c) (ToLower s')
  end.

Definition upper_ascii (c : ascii) : ascii :=
  let n := nat_of_ascii c in
  if ((97 <=? n) && (n <=? 122))%nat then ascii_of_nat (n - 32) else c.

Fixpoint ToUpper (s : string) : string :=
  match s with
  | EmptyString => EmptyString
  | String c s' => String (upper_ascii c) (ToUpper s')
  end.

(** The verbs of [fmt]: [%s] and [%+v] of a string or an error print
    it, [%q] prints it between double quotes. *)
Definition dquote : string := String "034"%char EmptyString.
Definition newline : string := String "010"%char EmptyString.
Definition quoted (s : string) : string := dquote +:+ s +:+ dquote.

(** [sub] occurs in [s]. *)
Definition mentions (s sub : string) : Prop :=
  exists pre post : string, s = pre +:+ sub +:+ post.

End Go.

Import Go.

(** The monad is used through stdpp's notations [x ← m; k] and [m;; k]. *)
#[global] Instance M_ret {S : Type} : MRet (M S) := fun A a => ret a.
#[global] Instance M_bind {S : Type} : MBind (M S) := fun A B k m => bind m k.

(** ** [withRequestLogging] *)

Module RequestLogging.
Section Decorator.

(** [http.Request], [http.Response] and the state of what lies behind
    the sender (the network, the remote service). *)
Context {Request Response Net : Type}.

(** [httputil.DumpRequestOut] and [httputil.DumpResponse]. *)
Variable DumpRequestOut : Request -> bool -> string + string.
Variable DumpResponse : Response -> bool -> string + string.
Variable Method : Request -> string.
Variable URL : Request -> string.
Variable Status : Response -> string.

(** [autorest.Sender]: [Do] takes a request to a response and an error,
    either of which may be nil. *)
Definition Sender : Type := Request -> Net -> (option Response * error) * Net.

(** The state of a logged exchange: the network and the log. *)
Record Wire : Type := mkWire { net : Net; logged : list string }.

Definition log_Printf (line : string) (w : Wire) : Wire :=
  mkWire (net w) (logged w ++ [line]).

Definition requestLine (r : Request) : string :=
  match DumpRequestOut r true with
  | inl dump => "[DEBUG] AzureRM Request: " +:+ newline +:+ dump +:+ newline
  | inr _ => "[DEBUG] AzureRM Request: " +:+ Method r +:+ " to " +:+ URL r +:+ newline
  end.

Definition responseLine (r : Request) (resp : option Response) : string :=
  match resp with
  | Some resp =>
      match DumpResponse resp true with
      | inl dump =>
          "[DEBUG] AzureRM Response for " +:+ URL r +:+ ": " +:+ newline +:+ dump +:+ newline
      | inr _ =>
          "[DEBUG] AzureRM Response: " +:+ Status resp +:+ " for " +:+ URL r +:+ newline
      end
  | None => "[DEBUG] Request to " +:+ URL r +:+ " completed with no response"
  end.

(** The decorated sender, on the state that carries the log. *)
Definition withRequestLogging (s : Sender)
    (r : Request) (w : Wire) : (option Response * error) * Wire :=
  (* dump request to wire format, or fall back to the basic message *)
  let w :=
    match DumpRequestOut r true with
    | inl dump =>
        log_Printf ("[DEBUG] AzureRM Request: " +:+ newline +:+ dump +:+ newline) w
    | inr _ =>
        log_Printf ("[DEBUG] AzureRM Request: " +:+ Method r +:+ " to " +:+ URL r +:+ newline) w
    end in
  let '((resp, err), n) := s r (net w) in
  let w := mkWire n (logged w) in
  let w :=
    match resp with
    | Some resp' =>
        match DumpResponse resp' true with
        | inl dump =>
            log_Printf ("[DEBUG] AzureRM Response for " +:+ URL r +:+ ": "
                        +:+ newline +:+ dump +:+ newline) w
        | inr _ =>
            log_Printf ("[DEBUG] AzureRM Response: " +:+ Status resp'
                        +:+ " for " +:+ URL r +:+ newline) w
        end
    | None =>
        log_Printf ("[DEBUG] Request to " +:+ URL r +:+ " completed with no response") w
    end in
  ((resp, err), w).

End Decorator.
End RequestLogging.

(** ** [config.go]: the client registry and its construction *)

Module azure.

(** [azure.Environment], with the endpoints the provider reads. *)
Record Environment : Type := mkEnvironment {
  Name : string;
  ResourceManagerEndpoint : string;
  ActiveDirectoryEndpoint : string;
  GraphEndpoint : string;
  StorageEndpointSuffix : string
}.

End azure.

Module autorest.

(** [autorest.SendDecorator]s used by the provider, and the senders built
    from them with [autorest.CreateSender]. *)
Inductive SendDecorator : Type :=
| withRequestLogging.

Inductive Sender : Type :=
| DefaultSender
| CreateSender (decorators : list SendDecorator).

(** [autorest.Authorizer]: none, a bearer token, or a callback that is
    asked for a bearer token per tenant and resource. *)
Inductive Authorizer (Token : Type) : Type :=
| NullAuthorizer
| NewBearerAuthorizer (spt : Token)
| NewBearerAuthorizerCallback (sender : Sender)
    (callback : string -> string -> option Token * error).
Arguments NullAuthorizer {Token}.
Arguments NewBearerAuthorizer {Token} spt.
Arguments NewBearerAuthorizerCallback {Token} sender callback.

(** A generated service client: what [New...ClientWithBaseURI] records
    and the fields of its embedded [autorest.Client] that the provider
    sets. [Scope] is the subscription (or tenant) the client is bound to. *)
Record Client (Token : Type) : Type := mkClient {
  Kind : string;
  BaseURI : option string;
  Scope : option string;
  UserAgent : string;
  Authorizer_ : Authorizer Token;
  Sender_ : Sender
}.
Arguments mkClient {Token}.
Arguments Kind {Token}.
Arguments BaseURI {Token}.
Arguments Scope {Token}.
Arguments UserAgent {Token}.
Arguments Authorizer_ {Token}.
Arguments Sender_ {Token}.

End autorest.

Module http.

Definition StatusNotFound : Z := 404.

End http.

Module storage.

(** [storage.AccountKey] and [storage.AccountListKeysResult]. The status
    code is that of the HTTP response the result embeds. *)
Record AccountKey : Type := mkAccountKey {
  KeyName : option string;
  Value : option string
}.

Record AccountListKeysResult : Type := mkAccountListKeysResult {
  StatusCode : Z;
  Keys : option (list AccountKey)
}.

End storage.

Module Config.
Import azure autorest.

(** The provider's [Config]. *)
Record Config : Type := mkConfig {
  ClientID : string;
  ClientSecret : string;
  SubscriptionID : string;
  TenantID : string;
  Environment : string
}.

(** The calls [getArmClient] makes into go-autorest, recorded in order. *)
Inductive Call : Type :=
| CallEnvironmentFromName (name : string)
| CallNewOAuthConfig (activeDirectoryEndpoint tenantID : string)
| CallNewServicePrincipalToken (clientID secret resource : string).

Section Registry.

(** [adal.ServicePrincipalToken]. *)
Variable Token : Type.

(** [ArmClient]: the credentials, the environment, and the handles. The
    handle fields are a map from the field's name to its client; a field
    that was never assigned has no entry and reads as the zero value. *)
Record ArmClient : Type := mkArmClient {
  clientId : string;
  tenantId : string;
  subscriptionId : string;
  environment : azure.Environment;
  StopContext : option unit;
  handles : gmap string (Client Token)
}.

(** The handle fields the struct declares, in the order of the
    declaration. *)
Definition ArmClient_fields : list string :=
  [ "availSetClient";
    "usageOpsClient";
    "vmExtensionImageClient";
    "vmExtensionClient";
    "vmScaleSetClient";
    "vmImageClient";
    "vmClient";
    "imageClient";
    "diskClient";
    "cosmosDBClient";
    "appGatewayClient";
    "ifaceClient";
    "expressRouteCircuitClient";
    "loadBalancerClient";
    "localNetConnClient";
    "publicIPClient";
    "secGroupClient";
    "secRuleClient";
    "subnetClient";
    "netUsageClient";
    "vnetGatewayConnectionsClient";
    "vnetGatewayClient";
    "vnetClient";
    "vnetPeeringsClient";
    "routeTablesClient";
    "routesClient";
    "dnsClient";
    "zonesClient";
    "cdnProfilesClient";
    "cdnEndpointsClient";
    "containerRegistryClient";
    "containerServicesClient";
    "eventGridTopicsClient";
    "eventHubClient";
    "eventHubConsumerGroupClient";
    "eventHubNamespacesClient";
    "postgresqlConfigurationsClient";
    "postgresqlDatabasesClient";
    "postgresqlFirewallRulesClient";
    "postgresqlServersClient";
    "providers";
    "resourceGroupClient";
    "tagsClient";
    "resourceFindClient";
    "subscriptionsGroupClient";
    "jobsClient";
    "jobsCollectionsClient";
    "storageServiceClient";
    "storageUsageClient";
    "deploymentsClient";
    "redisClient";
    "trafficManagerProfilesClient";
    "trafficManagerEndpointsClient";
    "searchServicesClient";
    "serviceBusNamespacesClient";
    "serviceBusQueuesClient";
    "serviceBusTopicsClient";
    "serviceBusSubscriptionsClient";
    "keyVaultClient";
    "keyVaultManagementClient";
    "sqlDatabasesClient";
    "sqlElasticPoolsClient";
    "sqlFirewallRulesClient";
    "sqlServersClient";
    "appServicePlansClient";
    "appInsightsClient";
    "servicePrincipalsClient";
    "appsClient" ].

(** [client.field = h]. *)
Definition assign (field : string) (h : Client Token) (client : ArmClient) : ArmClient :=
  mkArmClient (clientId client) (tenantId client) (subscriptionId client)
    (environment client) (StopContext client) (<[field := h]> (handles client)).

(** The zero value of a client struct. *)
Definition zeroClient : Client Token :=
  mkClient EmptyString None None EmptyString NullAuthorizer DefaultSender.

(** [client.field]. *)
Definition field (client : ArmClient) (name : string) : Client Token :=
  default zeroClient (handles client !! name).

Definition NewClientWithBaseURI (kind baseURI : string) (scope : option string) : Client Token :=
  mkClient kind (Some baseURI) scope EmptyString NullAuthorizer DefaultSender.

(** [keyVault.New()]: the data-plane client takes no base URI. *)
Definition keyVault_New : Client Token :=
  mkClient "keyVault.ManagementClient" None None EmptyString NullAuthorizer DefaultSender.

Definition with_UserAgent (h : Client Token) (ua : string) : Client Token :=
  mkClient (Kind h) (BaseURI h) (Scope h) ua (Authorizer_ h) (Sender_ h).

Definition with_Authorizer (h : Client Token) (a : Authorizer Token) : Client Token :=
  mkClient (Kind h) (BaseURI h) (Scope h) (UserAgent h) a (Sender_ h).

Definition with_Sender (h : Client Token) (s : Sender) : Client Token :=
  mkClient (Kind h) (BaseURI h) (Scope h) (UserAgent h) (Authorizer_ h) s.

End Registry.

Arguments mkArmClient {Token}.
Arguments clientId {Token}.
Arguments tenantId {Token}.
Arguments subscriptionId {Token}.
Arguments environment {Token}.
Arguments StopContext {Token}.
Arguments handles {Token}.
Arguments assign {Token}.
Arguments zeroClient {Token}.
Arguments field {Token}.
Arguments NewClientWithBaseURI {Token}.
Arguments keyVault_New {Token}.
Arguments with_UserAgent {Token}.
Arguments with_Authorizer {Token}.
Arguments with_Sender {Token}.

Section Bootstrap.

(** [adal.OAuthConfig] and [adal.ServicePrincipalToken]. *)
Variables OAuthConfig Token : Type.

(** What [getArmClient] uses of go-autorest and of Terraform. A pair
    (value, error) that the code only tests for its error is a sum;
    [NewOAuthConfig] may also return a nil configuration without an
    error, which the code tests. *)
Record SDK : Type := mkSDK {
  EnvironmentFromName : string -> azure.Environment + string;
  NewOAuthConfig : string -> string -> option OAuthConfig * error;
  NewServicePrincipalToken : OAuthConfig -> string -> string -> string -> Token + string;
  VersionString : string
}.

Definition setUserAgent (sdk : SDK) (client : Client Token) : Client Token :=
  let version := VersionString sdk in
  with_UserAgent client ("HashiCorp-Terraform-v" +:+ version).

(** The three library calls, each leaving its record in the trace. *)
Definition azure_EnvironmentFromName (sdk : SDK) (name : string)
    : M (list Call) (azure.Environment + string) :=
  fun tr => (Ok (EnvironmentFromName sdk name), tr ++ [CallEnvironmentFromName name]).

Definition adal_NewOAuthConfig (sdk : SDK) (activeDirectoryEndpoint tenantID : string)
    : M (list Call) (option OAuthConfig * error) :=
  fun tr => (Ok (NewOAuthConfig sdk activeDirectoryEndpoint tenantID),
             tr ++ [CallNewOAuthConfig activeDirectoryEndpoint tenantID]).

Definition adal_NewServicePrincipalToken (sdk : SDK) (oauthConfig : OAuthConfig)
    (clientID secret resource : string) : M (list Call) (Token + string) :=
  fun tr => (Ok (NewServicePrincipalToken sdk oauthConfig clientID secret resource),
             tr ++ [CallNewServicePrincipalToken clientID secret resource]).

(** [getArmClient]: a fully instantiated [ArmClient] from the [Config]'s
    settings, or an error. The result is the pair the Go function
    returns: the registry pointer and the error. *)
Definition getArmClient (sdk : SDK) (c : Config)
    : M (list Call) (option (ArmClient Token) * error) :=
  (* detect cloud from environment *)
  first ← azure_EnvironmentFromName sdk (Environment c);
  resolved ← match first with
             | inl env => mret (inl env)
             | inr envErr =>
                 (* try again with wrapped value to support readable values
                    like german instead of AZUREGERMANCLOUD *)
                 let wrapped := "AZURE" +:+ Environment c +:+ "CLOUD" in
                 second ← azure_EnvironmentFromName sdk wrapped;
                 match second with
                 | inl env => mret (inl env)
                 | inr innerErr => mret (inr envErr)
                 end
             end;
  match resolved with
  | inr envErr => mret (None, Some envErr)
  | inl env =>
  (* client declarations: *)
  let client := mkArmClient (ClientID c) (TenantID c) (SubscriptionID c) env None ∅ in

  '(oauthConfig, err) ← adal_NewOAuthConfig sdk (ActiveDirectoryEndpoint env) (TenantID c);
  match err with
  | Some err => mret (None, Some err)
  | None =>
  (* OAuthConfigForTenant returns a pointer, which can be nil. *)
  match oauthConfig with
  | None => mret (None, Some ("Unable to configure OAuthConfig for tenant " +:+ TenantID c))
  | Some oauthConfig =>

  (* Resource Manager endpoints *)
  let endpoint := ResourceManagerEndpoint env in
  spt ← adal_NewServicePrincipalToken sdk oauthConfig (ClientID c) (ClientSecret c) endpoint;
  match spt with
  | inr err => mret (None, Some err)
  | inl spt =>
  let auth := NewBearerAuthorizer spt in

  (* Graph Endpoints *)
  let graphEndpoint := GraphEndpoint env in
  graphSpt ← adal_NewServicePrincipalToken sdk oauthConfig (ClientID c) (ClientSecret c) graphEndpoint;
  match graphSpt with
  | inr err => mret (None, Some err)
  | inl graphSpt =>
  let graphAuth := NewBearerAuthorizer graphSpt in

  (* Key Vault Endpoints *)
  let sender := CreateSender [withRequestLogging] in
  let keyVaultAuth :=
    NewBearerAuthorizerCallback sender (fun tenantID resource =>
      match NewServicePrincipalToken sdk oauthConfig (ClientID c) (ClientSecret c) resource with
      | inr err => (None, Some err)
      | inl keyVaultSpt => (Some keyVaultSpt, None)
      end) in

  let asc := NewClientWithBaseURI "compute.AvailabilitySetsClient" endpoint (Some (SubscriptionID c)) in
  let asc := setUserAgent sdk asc in
  let asc := with_Authorizer asc auth in
  let asc := with_Sender asc (CreateSender [withRequestLogging]) in
  let client := assign "availSetClient" asc client in

  let uoc := NewClientWithBaseURI "compute.UsageClient" endpoint (Some (SubscriptionID c)) in
  let uoc := setUserAgent sdk uoc in
  let uoc := with_Authorizer uoc auth in
  let uoc := with_Sender uoc (CreateSender [withRequestLogging]) in
  let client := assign "usageOpsClient" uoc client in

  let vmeic := NewClientWithBaseURI "compute.VirtualMachineExtensionImagesClient" endpoint (Some (SubscriptionID c)) in
  let vmeic := setUserAgent sdk vmeic in
  let vmeic := with_Authorizer vmeic auth in
  let vmeic := with_Sender vmeic (CreateSender [withRequestLogging]) in
  let client := assign "vmExtensionImageClient" vmeic client in

  let vmec := NewClientWithBaseURI "compute.VirtualMachineExtensionsClient" endpoint (Some (SubscriptionID c)) in
  let vmec := setUserAgent sdk vmec in
  let vmec := with_Authorizer vmec auth in
  let vmec := with_Sender vmec (CreateSender [withRequestLogging]) in
  let client := assign "vmExtensionClient" vmec client in

  let vmic := NewClientWithBaseURI "compute.VirtualMachineImagesClient" endpoint (Some (SubscriptionID c)) in
  let vmic := setUserAgent sdk vmic in
  let vmic := with_Authorizer vmic auth in
  let vmic := with_Sender vmic (CreateSender [withRequestLogging]) in
  let client := assign "vmImageClient" vmic client in

  let vmssc := NewClientWithBaseURI "compute.VirtualMachineScaleSetsClient" endpoint (Some (SubscriptionID c)) in
  let vmssc := setUserAgent sdk vmssc in
  let vmssc := with_Authorizer vmssc auth in
  let vmssc := with_Sender vmssc (CreateSender [withRequestLogging]) in
  let client := assign "vmScaleSetClient" vmssc client in

  let vmc := NewClientWithBaseURI "compute.VirtualMachinesClient" endpoint (Some (SubscriptionID c)) in
  let vmc := setUserAgent sdk vmc in
  let vmc := with_Authorizer vmc auth in
  let vmc := with_Sender vmc (CreateSender [withRequestLogging]) in
  let client := assign "vmClient" vmc client in

  let agc := NewClientWithBaseURI "network.ApplicationGatewaysClient" endpoint (Some (SubscriptionID c)) in
  let agc := setUserAgent sdk agc in
  let agc := with_Authorizer agc auth in
  let agc := with_Sender agc (CreateSender [withRequestLogging]) in
  let client := assign "appGatewayClient" agc client in

  let crc := NewClientWithBaseURI "containerregistry.RegistriesClient" endpoint (Some (SubscriptionID c)) in
  let crc := setUserAgent sdk crc in
  let crc := with_Authorizer crc auth in
  let crc := with_Sender crc (CreateSender [withRequestLogging]) in
  let client := assign "containerRegistryClient" crc client in

  let csc := NewClientWithBaseURI "containerservice.ContainerServicesClient" endpoint (Some (SubscriptionID c)) in
  let csc := setUserAgent sdk csc in
  let csc := with_Authorizer csc auth in
  let csc := with_Sender csc (CreateSender [withRequestLogging]) in
  let client := assign "containerServicesClient" csc client in

  let cdb := NewClientWithBaseURI "cosmosdb.DatabaseAccountsClient" endpoint (Some (SubscriptionID c)) in
  let cdb := setUserAgent sdk cdb in
  let cdb := with_Authorizer cdb auth in
  let cdb := with_Sender cdb (CreateSender [withRequestLogging]) in
  let client := assign "cosmosDBClient" cdb client in

  let dkc := NewClientWithBaseURI "disk.DisksClient" endpoint (Some (SubscriptionID c)) in
  let dkc := setUserAgent sdk dkc in
  let dkc := with_Authorizer dkc auth in
  let dkc := with_Sender dkc (CreateSender [withRequestLogging]) in
  let client := assign "diskClient" dkc client in

  let img := NewClientWithBaseURI "compute.ImagesClient" endpoint (Some (SubscriptionID c)) in
  let img := setUserAgent sdk img in
  let img := with_Authorizer img auth in
  let img := with_Sender img (CreateSender [withRequestLogging]) in
  let client := assign "imageClient" img client in

  let egtc := NewClientWithBaseURI "eventgrid.TopicsClient" endpoint (Some (SubscriptionID c)) in
  let egtc := setUserAgent sdk egtc in
  let egtc := with_Authorizer egtc auth in
  let egtc := with_Sender egtc (CreateSender [withRequestLogging]) in
  let client := assign "eventGridTopicsClient" egtc client in

  let ehc := NewClientWithBaseURI "eventhub.EventHubsClient" endpoint (Some (SubscriptionID c)) in
  let ehc := setUserAgent sdk ehc in
  let ehc := with_Authorizer ehc auth in
  let ehc := with_Sender ehc (CreateSender [withRequestLogging]) in
  let client := assign "eventHubClient" ehc client in

  let chcgc := NewClientWithBaseURI "eventhub.ConsumerGroupsClient" endpoint (Some (SubscriptionID c)) in
  let chcgc := setUserAgent sdk chcgc in
  let chcgc := with_Authorizer chcgc auth in
  let chcgc := with_Sender chcgc (CreateSender [withRequestLogging]) in
  let client := assign "eventHubConsumerGroupClient" chcgc client in

  let ehnc := NewClientWithBaseURI "eventhub.NamespacesClient" endpoint (Some (SubscriptionID c)) in
  let ehnc := setUserAgent sdk ehnc in
  let ehnc := with_Authorizer ehnc auth in
  let ehnc := with_Sender ehnc (CreateSender [withRequestLogging]) in
  let client := assign "eventHubNamespacesClient" ehnc client in

  let ifc := NewClientWithBaseURI "network.InterfacesClient" endpoint (Some (SubscriptionID c)) in
  let ifc := setUserAgent sdk ifc in
  let ifc := with_Authorizer ifc auth in
  let ifc := with_Sender ifc (CreateSender [withRequestLogging]) in
  let client := assign "ifaceClient" ifc client in

  let erc := NewClientWithBaseURI "network.ExpressRouteCircuitsClient" endpoint (Some (SubscriptionID c)) in
  let erc := setUserAgent sdk erc in
  let erc := with_Authorizer erc auth in
  let erc := with_Sender erc (CreateSender [withRequestLogging]) in
  let client := assign "expressRouteCircuitClient" erc client in

  let lbc := NewClientWithBaseURI "network.LoadBalancersClient" endpoint (Some (SubscriptionID c)) in
  let lbc := setUserAgent sdk lbc in
  let lbc := with_Authorizer lbc auth in
  let lbc := with_Sender lbc (CreateSender [withRequestLogging]) in
  let client := assign "loadBalancerClient" lbc client in

  let lgc := NewClientWithBaseURI "network.LocalNetworkGatewaysClient" endpoint (Some (SubscriptionID c)) in
  let lgc := setUserAgent sdk lgc in
  let lgc := with_Authorizer lgc auth in
  let lgc := with_Sender lgc (CreateSender [withRequestLogging]) in
  let client := assign "localNetConnClient" lgc client in

  let pipc := NewClientWithBaseURI "network.PublicIPAddressesClient" endpoint (Some (SubscriptionID c)) in
  let pipc := setUserAgent sdk pipc in
  let pipc := with_Authorizer pipc auth in
  let pipc := with_Sender pipc (CreateSender [withRequestLogging]) in
  let client := assign "publicIPClient" pipc client in

  let sgc := NewClientWithBaseURI "network.SecurityGroupsClient" endpoint (Some (SubscriptionID c)) in
  let sgc := setUserAgent sdk sgc in
  let sgc := with_Authorizer sgc auth in
  let sgc := with_Sender sgc (CreateSender [withRequestLogging]) in
  let client := assign "secGroupClient" sgc client in

  let src := NewClientWithBaseURI "network.SecurityRulesClient" endpoint (Some (SubscriptionID c)) in
  let src := setUserAgent sdk src in
  let src := with_Authorizer src auth in
  let src := with_Sender src (CreateSender [withRequestLogging]) in
  let client := assign "secRuleClient" src client in

  let snc := NewClientWithBaseURI "network.SubnetsClient" endpoint (Some (SubscriptionID c)) in
  let snc := setUserAgent sdk snc in
  let snc := with_Authorizer snc auth in
  let snc := with_Sender snc (CreateSender [withRequestLogging]) in
  let client := assign "subnetClient" snc client in

  let vgcc := NewClientWithBaseURI "network.VirtualNetworkGatewayConnectionsClient" endpoint (Some (SubscriptionID c)) in
  let vgcc := setUserAgent sdk vgcc in
  let vgcc := with_Authorizer vgcc auth in
  let vgcc := with_Sender vgcc (CreateSender [withRequestLogging]) in
  let client := assign "vnetGatewayConnectionsClient" vgcc client in

  let vgc := NewClientWithBaseURI "network.VirtualNetworkGatewaysClient" endpoint (Some (SubscriptionID c)) in
  let vgc := setUserAgent sdk vgc in
  let vgc := with_Authorizer vgc auth in
  let vgc := with_Sender vgc (CreateSender [withRequestLogging]) in
  let client := assign "vnetGatewayClient" vgc client in

  let vnc := NewClientWithBaseURI "network.VirtualNetworksClient" endpoint (Some (SubscriptionID c)) in
  let vnc := setUserAgent sdk vnc in
  let vnc := with_Authorizer vnc auth in
  let vnc := with_Sender vnc (CreateSender [withRequestLogging]) in
  let client := assign "vnetClient" vnc client in

  let vnpc := NewClientWithBaseURI "network.VirtualNetworkPeeringsClient" endpoint (Some (SubscriptionID c)) in
  let vnpc := setUserAgent sdk vnpc in
  let vnpc := with_Authorizer vnpc auth in
  let vnpc := with_Sender vnpc (CreateSender [withRequestLogging]) in
  let client := assign "vnetPeeringsClient" vnpc client in

  let pcc := NewClientWithBaseURI "postgresql.ConfigurationsClient" endpoint (Some (SubscriptionID c)) in
  let pcc := setUserAgent sdk pcc in
  let pcc := with_Authorizer pcc auth in
  let pcc := with_Sender pcc (CreateSender [withRequestLogging]) in
  let client := assign "postgresqlConfigurationsClient" pcc client in

  let pdbc := NewClientWithBaseURI "postgresql.DatabasesClient" endpoint (Some (SubscriptionID c)) in
  let pdbc := setUserAgent sdk pdbc in
  let pdbc := with_Authorizer pdbc auth in
  let pdbc := with_Sender pdbc (CreateSender [withRequestLogging]) in
  let client := assign "postgresqlDatabasesClient" pdbc client in

  let pfwc := NewClientWithBaseURI "postgresql.FirewallRulesClient" endpoint (Some (SubscriptionID c)) in
  let pfwc := setUserAgent sdk pfwc in
  let pfwc := with_Authorizer pfwc auth in
  let pfwc := with_Sender pfwc (CreateSender [withRequestLogging]) in
  let client := assign "postgresqlFirewallRulesClient" pfwc client in

  let psc := NewClientWithBaseURI "postgresql.ServersClient" endpoint (Some (SubscriptionID c)) in
  let psc := setUserAgent sdk psc in
  let psc := with_Authorizer psc auth in
  let psc := with_Sender psc (CreateSender [withRequestLogging]) in
  let client := assign "postgresqlServersClient" psc client in

  let rtc := NewClientWithBaseURI "network.RouteTablesClient" endpoint (Some (SubscriptionID c)) in
  let rtc := setUserAgent sdk rtc in
  let rtc := with_Authorizer rtc auth in
  let rtc := with_Sender rtc (CreateSender [withRequestLogging]) in
  let client := assign "routeTablesClient" rtc client in

  let rc := NewClientWithBaseURI "network.RoutesClient" endpoint (Some (SubscriptionID c)) in
  let rc := setUserAgent sdk rc in
  let rc := with_Authorizer rc auth in
  let rc := with_Sender rc (CreateSender [withRequestLogging]) in
  let client := assign "routesClient" rc client in

  let dn := NewClientWithBaseURI "dns.RecordSetsClient" endpoint (Some (SubscriptionID c)) in
  let dn := setUserAgent sdk dn in
  let dn := with_Authorizer dn auth in
  let dn := with_Sender dn (CreateSender [withRequestLogging]) in
  let client := assign "dnsClient" dn client in

  let zo := NewClientWithBaseURI "dns.ZonesClient" endpoint (Some (SubscriptionID c)) in
  let zo := setUserAgent sdk zo in
  let zo := with_Authorizer zo auth in
  let zo := with_Sender zo (CreateSender [withRequestLogging]) in
  let client := assign "zonesClient" zo client in

  let rgc := NewClientWithBaseURI "resources.GroupsClient" endpoint (Some (SubscriptionID c)) in
  let rgc := setUserAgent sdk rgc in
  let rgc := with_Authorizer rgc auth in
  let rgc := with_Sender rgc (CreateSender [withRequestLogging]) in
  let client := assign "resourceGroupClient" rgc client in

  let pc := NewClientWithBaseURI "resources.ProvidersClient" endpoint (Some (SubscriptionID c)) in
  let pc := setUserAgent sdk pc in
  let pc := with_Authorizer pc auth in
  let pc := with_Sender pc (CreateSender [withRequestLogging]) in
  let client := assign "providers" pc client in

  let tc := NewClientWithBaseURI "resources.TagsClient" endpoint (Some (SubscriptionID c)) in
  let tc := setUserAgent sdk tc in
  let tc := with_Authorizer tc auth in
  let tc := with_Sender tc (CreateSender [withRequestLogging]) in
  let client := assign "tagsClient" tc client in

  let rf := NewClientWithBaseURI "resources.GroupClient" endpoint (Some (SubscriptionID c)) in
  let rf := setUserAgent sdk rf in
  let rf := with_Authorizer rf auth in
  let rf := with_Sender rf (CreateSender [withRequestLogging]) in
  let client := assign "resourceFindClient" rf client in

  let subgc := NewClientWithBaseURI "subscriptions.GroupClient" endpoint None in
  let subgc := setUserAgent sdk subgc in
  let subgc := with_Authorizer subgc auth in
  let subgc := with_Sender subgc (CreateSender [withRequestLogging]) in
  let client := assign "subscriptionsGroupClient" subgc client in

  let jc := NewClientWithBaseURI "scheduler.JobsClient" endpoint (Some (SubscriptionID c)) in
  let jc := setUserAgent sdk jc in
  let jc := with_Authorizer jc auth in
  let jc := with_Sender jc (CreateSender [withRequestLogging]) in
  let client := assign "jobsClient" jc client in

  let jcc := NewClientWithBaseURI "scheduler.JobCollectionsClient" endpoint (Some (SubscriptionID c)) in
  let jcc := setUserAgent sdk jcc in
  let jcc := with_Authorizer jcc auth in
  let jcc := with_Sender jcc (CreateSender [withRequestLogging]) in
  let client := assign "jobsCollectionsClient" jcc client in

  let ssc := NewClientWithBaseURI "storage.AccountsClient" endpoint (Some (SubscriptionID c)) in
  let ssc := setUserAgent sdk ssc in
  let ssc := with_Authorizer ssc auth in
  let ssc := with_Sender ssc (CreateSender [withRequestLogging]) in
  let client := assign "storageServiceClient" ssc client in

  let suc := NewClientWithBaseURI "storage.UsageClient" endpoint (Some (SubscriptionID c)) in
  let suc := setUserAgent sdk suc in
  let suc := with_Authorizer suc auth in
  let suc := with_Sender suc (CreateSender [withRequestLogging]) in
  let client := assign "storageUsageClient" suc client in

  let cpc := NewClientWithBaseURI "cdn.ProfilesClient" endpoint (Some (SubscriptionID c)) in
  let cpc := setUserAgent sdk cpc in
  let cpc := with_Authorizer cpc auth in
  let cpc := with_Sender cpc (CreateSender [withRequestLogging]) in
  let client := assign "cdnProfilesClient" cpc client in

  let cec := NewClientWithBaseURI "cdn.EndpointsClient" endpoint (Some (SubscriptionID c)) in
  let cec := setUserAgent sdk cec in
  let cec := with_Authorizer cec auth in
  let cec := with_Sender cec (CreateSender [withRequestLogging]) in
  let client := assign "cdnEndpointsClient" cec client in

  let dc := NewClientWithBaseURI "resources.DeploymentsClient" endpoint (Some (SubscriptionID c)) in
  let dc := setUserAgent sdk dc in
  let dc := with_Authorizer dc auth in
  let dc := with_Sender dc (CreateSender [withRequestLogging]) in
  let client := assign "deploymentsClient" dc client in

  let tmpc := NewClientWithBaseURI "trafficmanager.ProfilesClient" endpoint (Some (SubscriptionID c)) in
  let tmpc := setUserAgent sdk tmpc in
  let tmpc := with_Authorizer tmpc auth in
  let tmpc := with_Sender tmpc (CreateSender [withRequestLogging]) in
  let client := assign "trafficManagerProfilesClient" tmpc client in

  let tmec := NewClientWithBaseURI "trafficmanager.EndpointsClient" endpoint (Some (SubscriptionID c)) in
  let tmec := setUserAgent sdk tmec in
  let tmec := with_Authorizer tmec auth in
  let tmec := with_Sender tmec (CreateSender [withRequestLogging]) in
  let client := assign "trafficManagerEndpointsClient" tmec client in

  let rdc := NewClientWithBaseURI "redis.GroupClient" endpoint (Some (SubscriptionID c)) in
  let rdc := setUserAgent sdk rdc in
  let rdc := with_Authorizer rdc auth in
  let rdc := with_Sender rdc (CreateSender [withRequestLogging]) in
  let client := assign "redisClient" rdc client in

  let sesc := NewClientWithBaseURI "search.ServicesClient" endpoint (Some (SubscriptionID c)) in
  let sesc := setUserAgent sdk sesc in
  let sesc := with_Authorizer sesc auth in
  let sesc := with_Sender sesc (CreateSender [withRequestLogging]) in
  let client := assign "searchServicesClient" sesc client in

  let sbnc := NewClientWithBaseURI "servicebus.NamespacesClient" endpoint (Some (SubscriptionID c)) in
  let sbnc := setUserAgent sdk sbnc in
  let sbnc := with_Authorizer sbnc auth in
  let sbnc := with_Sender sbnc (CreateSender [withRequestLogging]) in
  let client := assign "serviceBusNamespacesClient" sbnc client in

  let sbqc := NewClientWithBaseURI "servicebus.QueuesClient" endpoint (Some (SubscriptionID c)) in
  let sbqc := setUserAgent sdk sbqc in
  let sbqc := with_Authorizer sbqc auth in
  let sbqc := with_Sender sbqc (CreateSender [withRequestLogging]) in
  let client := assign "serviceBusQueuesClient" sbqc client in

  let sbtc := NewClientWithBaseURI "servicebus.TopicsClient" endpoint (Some (SubscriptionID c)) in
  let sbtc := setUserAgent sdk sbtc in
  let sbtc := with_Authorizer sbtc auth in
  let sbtc := with_Sender sbtc (CreateSender [withRequestLogging]) in
  let client := assign "serviceBusTopicsClient" sbtc client in

  let sbsc := NewClientWithBaseURI "servicebus.SubscriptionsClient" endpoint (Some (SubscriptionID c)) in
  let sbsc := setUserAgent sdk sbsc in
  let sbsc := with_Authorizer sbsc auth in
  let sbsc := with_Sender sbsc (CreateSender [withRequestLogging]) in
  let client := assign "serviceBusSubscriptionsClient" sbsc client in

  let sqldc := NewClientWithBaseURI "sql.DatabasesClient" endpoint (Some (SubscriptionID c)) in
  let sqldc := setUserAgent sdk sqldc in
  let sqldc := with_Authorizer sqldc auth in
  let sqldc := with_Sender sqldc (CreateSender [withRequestLogging]) in
  let client := assign "sqlDatabasesClient" sqldc client in

  let sqlfrc := NewClientWithBaseURI "sql.FirewallRulesClient" endpoint (Some (SubscriptionID c)) in
  let sqlfrc := setUserAgent sdk sqlfrc in
  let sqlfrc := with_Authorizer sqlfrc auth in
  let sqlfrc := with_Sender sqlfrc (CreateSender [withRequestLogging]) in
  let client := assign "sqlFirewallRulesClient" sqlfrc client in

  let sqlepc := NewClientWithBaseURI "sql.ElasticPoolsClient" endpoint (Some (SubscriptionID c)) in
  let sqlepc := setUserAgent sdk sqlepc in
  let sqlepc := with_Authorizer sqlepc auth in
  let sqlepc := with_Sender sqlepc (CreateSender [withRequestLogging]) in
  let client := assign "sqlElasticPoolsClient" sqlepc client in

  let sqlsrv := NewClientWithBaseURI "sql.ServersClient" endpoint (Some (SubscriptionID c)) in
  let sqlsrv := setUserAgent sdk sqlsrv in
  let sqlsrv := with_Authorizer sqlsrv auth in
  let sqlsrv := with_Sender sqlsrv (CreateSender [withRequestLogging]) in
  let client := assign "sqlServersClient" sqlsrv client in

  let aspc := NewClientWithBaseURI "web.AppServicePlansClient" endpoint (Some (SubscriptionID c)) in
  let aspc := setUserAgent sdk aspc in
  let aspc := with_Authorizer aspc auth in
  let aspc := with_Sender aspc (CreateSender [withRequestLogging]) in
  let client := assign "appServicePlansClient" aspc client in

  let ai := NewClientWithBaseURI "appinsights.ComponentsClient" endpoint (Some (SubscriptionID c)) in
  let ai := setUserAgent sdk ai in
  let ai := with_Authorizer ai auth in
  let ai := with_Sender ai (CreateSender [withRequestLogging]) in
  let client := assign "appInsightsClient" ai client in

  let spc := NewClientWithBaseURI "graphrbac.ServicePrincipalsClient" graphEndpoint (Some (TenantID c)) in
  let spc := setUserAgent sdk spc in
  let spc := with_Authorizer spc graphAuth in
  let spc := with_Sender spc (CreateSender [withRequestLogging]) in
  let client := assign "servicePrincipalsClient" spc client in

  let ac := NewClientWithBaseURI "web.AppsClient" endpoint (Some (SubscriptionID c)) in
  let ac := setUserAgent sdk ac in
  let ac := with_Authorizer ac auth in
  let ac := with_Sender ac (CreateSender [withRequestLogging]) in
  let client := assign "appsClient" ac client in

  let kvc := NewClientWithBaseURI "keyvault.VaultsClient" endpoint (Some (SubscriptionID c)) in
  let kvc := setUserAgent sdk kvc in
  let kvc := with_Authorizer kvc auth in
  let kvc := with_Sender kvc (CreateSender [withRequestLogging]) in
  let client := assign "keyVaultClient" kvc client in

  let kvmc := keyVault_New in
  let kvmc := setUserAgent sdk kvmc in
  let kvmc := with_Authorizer kvmc keyVaultAuth in
  let kvmc := with_Sender kvmc sender in
  let client := assign "keyVaultManagementClient" kvmc client in
  mret (Some client, None)
  end end end end end.

End Bootstrap.

Arguments mkSDK {OAuthConfig Token}.
Arguments EnvironmentFromName {OAuthConfig Token}.
Arguments NewOAuthConfig {OAuthConfig Token}.
Arguments NewServicePrincipalToken {OAuthConfig Token}.
Arguments VersionString {OAuthConfig Token}.
Arguments setUserAgent {OAuthConfig Token}.
Arguments getArmClient {OAuthConfig Token}.

Section StorageAccounts.

(** The remote service, the token type, and the storage data-plane
    client with its four service clients. *)
Variables R Token StorageClient : Type.
Variables BlobStorageClient FileServiceClient TableServiceClient QueueServiceClient : Type.

(** What the helpers use of the storage SDKs: [ListKeys] of the
    management client, and [NewClient] and the service getters of the
    data-plane package. *)
Record StorageSDK : Type := mkStorageSDK {
  ListKeys : Client Token -> string -> string -> R ->
             (storage.AccountListKeysResult * error) * R;
  NewClient : string -> string -> string -> string -> bool -> StorageClient + string;
  DefaultAPIVersion : string;
  GetBlobService : StorageClient -> BlobStorageClient;
  GetFileService : StorageClient -> FileServiceClient;
  GetTableService : StorageClient -> TableServiceClient;
  GetQueueService : StorageClient -> QueueServiceClient
}.

(** The remote service and the [ListKeys] calls made so far. *)
Record Cloud : Type := mkCloud {
  cloud : R;
  listKeysCalls : list (string * string)
}.

Definition storageServiceClient_ListKeys (sdk : StorageSDK) (armClient : ArmClient Token)
    (resourceGroupName accountName : string)
    : M Cloud (storage.AccountListKeysResult * error) :=
  fun w =>
    let '(res, r) :=
      ListKeys sdk (field armClient "storageServiceClient") resourceGroupName accountName (cloud w) in
    (Ok res, mkCloud r (listKeysCalls w ++ [(resourceGroupName, accountName)])).

Definition getKeyForStorageAccount (sdk : StorageSDK) (armClient : ArmClient Token)
    (resourceGroupName storageAccountName : string) : M Cloud (string * bool * error) :=
  '(accountKeys, err) ← storageServiceClient_ListKeys sdk armClient resourceGroupName storageAccountName;
  if storage.StatusCode accountKeys =? http.StatusNotFound then
    mret (EmptyString, false, None)
  else
  match err with
  | Some err =>
      (* We assume this is a transient error rather than a 404 (which is
         caught above), so assume the account still exists. *)
      mret (EmptyString, true,
            Some ("Error retrieving keys for storage account "
                  +:+ quoted storageAccountName +:+ ": " +:+ err))
  | None =>
  match storage.Keys accountKeys with
  | None =>
      mret (EmptyString, false,
            Some ("Nil key returned for storage account " +:+ quoted storageAccountName))
  | Some keys =>
      key0 ← lift (index keys 0);
      value ← lift (deref (storage.Value key0));
      mret (value, true, None)
  end
  end.

Definition getBlobStorageClientForStorageAccount (sdk : StorageSDK) (armClient : ArmClient Token)
    (resourceGroupName storageAccountName : string)
    : M Cloud (option BlobStorageClient * bool * error) :=
  '(key, accountExists, err) ← getKeyForStorageAccount sdk armClient resourceGroupName storageAccountName;
  match err with
  | Some err => mret (None, accountExists, Some err)
  | None =>
  if negb accountExists then mret (None, false, None) else
  match NewClient sdk storageAccountName key (StorageEndpointSuffix (environment armClient))
          (DefaultAPIVersion sdk) true with
  | inr err =>
      mret (None, true,
            Some ("Error creating storage client for storage account "
                  +:+ quoted storageAccountName +:+ ": " +:+ err))
  | inl storageClient =>
      let blobClient := GetBlobService sdk storageClient in
      mret (Some blobClient, true, None)
  end
  end.

Definition getFileServiceClientForStorageAccount (sdk : StorageSDK) (armClient : ArmClient Token)
    (resourceGroupName storageAccountName : string)
    : M Cloud (option FileServiceClient * bool * error) :=
  '(key, accountExists, err) ← getKeyForStorageAccount sdk armClient resourceGroupName storageAccountName;
  match err with
  | Some err => mret (None, accountExists, Some err)
  | None =>
  if negb accountExists then mret (None, false, None) else
  match NewClient sdk storageAccountName key (StorageEndpointSuffix (environment armClient))
          (DefaultAPIVersion sdk) true with
  | inr err =>
      mret (None, true,
            Some ("Error creating storage client for storage account "
                  +:+ quoted storageAccountName +:+ ": " +:+ err))
  | inl storageClient =>
      let fileClient := GetFileService sdk storageClient in
      mret (Some fileClient, true, None)
  end
  end.

Definition getTableServiceClientForStorageAccount (sdk : StorageSDK) (armClient : ArmClient Token)
    (resourceGroupName storageAccountName : string)
    : M Cloud (option TableServiceClient * bool * error) :=
  '(key, accountExists, err) ← getKeyForStorageAccount sdk armClient resourceGroupName storageAccountName;
  match err with
  | Some err => mret (None, accountExists, Some err)
  | None =>
  if negb accountExists then mret (None, false, None) else
  match NewClient sdk storageAccountName key (StorageEndpointSuffix (environment armClient))
          (DefaultAPIVersion sdk) true with
  | inr err =>
      mret (None, true,
            Some ("Error creating storage client for storage account "
                  +:+ quoted storageAccountName +:+ ": " +:+ err))
  | inl storageClient =>
      let tableClient := GetTableService sdk storageClient in
      mret (Some tableClient, true, None)
  end
  end.

Definition getQueueServiceClientForStorageAccount (sdk : StorageSDK) (armClient : ArmClient Token)
    (resourceGroupName storageAccountName : string)
    : M Cloud (option QueueServiceClient * bool * error) :=
  '(key, accountExists, err) ← getKeyForStorageAccount sdk armClient resourceGroupName storageAccountName;
  match err with
  | Some err => mret (None, accountExists, Some err)
  | None =>
  if negb accountExists then mret (None, false, None) else
  match NewClient sdk storageAccountName key (StorageEndpointSuffix (environment armClient))
          (DefaultAPIVersion sdk) true with
  | inr err =>
      mret (None, true,
            Some ("Error creating storage client for storage account "
                  +:+ quoted storageAccountName +:+ ": " +:+ err))
  | inl storageClient =>
      let queueClient := GetQueueService sdk storageClient in
      mret (Some queueClient, true, None)
  end
  end.

End StorageAccounts.

Arguments mkStorageSDK {R Token StorageClient BlobStorageClient FileServiceClient
  TableServiceClient QueueServiceClient}.
Arguments ListKeys {R Token StorageClient BlobStorageClient FileServiceClient
  TableServiceClient QueueServiceClient}.
Arguments NewClient {R Token StorageClient BlobStorageClient FileServiceClient
  TableServiceClient QueueServiceClient}.
Arguments mkCloud {R}.
Arguments cloud {R}.
Arguments listKeysCalls {R}.
Arguments getKeyForStorageAccount {R Token StorageClient BlobStorageClient FileServiceClient
  TableServiceClient QueueServiceClient}.
Arguments getBlobStorageClientForStorageAccount {R Token StorageClient BlobStorageClient
  FileServiceClient TableServiceClient QueueServiceClient}.
Arguments getFileServiceClientForStorageAccount {R Token StorageClient BlobStorageClient
  FileServiceClient TableServiceClient QueueServiceClient}.
Arguments getTableServiceClientForStorageAccount {R Token StorageClient BlobStorageClient
  FileServiceClient TableServiceClient QueueServiceClient}.
Arguments getQueueServiceClientForStorageAccount {R Token StorageClient BlobStorageClient
  FileServiceClient TableServiceClient QueueServiceClient}.

End Config.

(** ** The MySQL SDK types that the adapter reads and writes *)

Module mysql.

(** Modelled from the spec: the values of the SDK's enumeration constants
    [mysql.Basic], [mysql.FiveFullStopSix], [mysql.FiveFullStopSeven],
    [mysql.SslEnforcementEnumDisabled] and [mysql.SslEnforcementEnumEnabled],
    whose declarations are not in the sources; the specification's
    allow-lists name them. *)
Definition Basic : string := "Basic".
Definition FiveFullStopSix : string := "5.6".
Definition FiveFullStopSeven : string := "5.7".
Definition SslEnforcementEnumDisabled : string := "Disabled".
Definition SslEnforcementEnumEnabled : string := "Enabled".

Module Sku.
Record t : Type := mk {
  Name : option string;
  Capacity : option Z;
  Tier : string;
  Size : option string
}.
End Sku.

(** The two administrator fields are the ones whose assignment the
    create path leaves commented out; a field that is not assigned is
    nil. *)
Module ServerPropertiesForCreate.
Record t : Type := mk {
  Version : string;
  StorageMB : option Z;
  SslEnforcement : string;
  AdministratorLogin : option string;
  AdministratorLoginPassword : option string
}.
End ServerPropertiesForCreate.

Module ServerForCreate.
Record t : Type := mk {
  Location : option string;
  Sku : option Sku.t;
  Properties : option ServerPropertiesForCreate.t;
  Tags : option (gmap string string)
}.
End ServerForCreate.

Module ServerUpdateParametersProperties.
Record t : Type := mk {
  SslEnforcement : string;
  StorageMB : option Z;
  Version : string;
  AdministratorLoginPassword : option string
}.
End ServerUpdateParametersProperties.

Module ServerUpdateParameters.
Record t : Type := mk {
  Sku : option Sku.t;
  ServerUpdateParametersProperties : option ServerUpdateParametersProperties.t;
  Tags : option (gmap string string)
}.
End ServerUpdateParameters.

(** [mysql.Server] as [Get] returns it: the status code of the embedded
    HTTP response and the fields the adapter reads. *)
Module Server.
Record t : Type := mk {
  StatusCode : Z;
  ID : option string;
  Name : option string;
  Location : option string;
  Tags : option (gmap string string);
  Sku : option Sku.t;
  AdministratorLogin : option string;
  Version : string;
  StorageMB : option Z;
  SslEnforcement : string;
  FullyQualifiedDomainName : option string
}.
End Server.

End mysql.

(** ** The Terraform helper types: resource data and schemas *)

Module schema.

(** A value of type [interface{}] inside a nested block. *)
Inductive Prim : Type :=
| PString (s : string)
| PInt (n : Z).

(** The value of an attribute. *)
Inductive Attr : Type :=
| AString (s : string)
| AInt (n : Z)
| ASet (elems : list (gmap string Prim))
| AMap (m : gmap string Prim).

(** [schema.ResourceData]: the identifier and the attributes. *)
Record ResourceData : Type := mkResourceData {
  id : string;
  attrs : gmap string Attr
}.

Definition Id (d : ResourceData) : string := id d.

Definition SetId (d : ResourceData) (v : string) : ResourceData :=
  mkResourceData v (attrs d).

(** [d.Set(key, value)]; a nil pointer as the value leaves the attribute
    unset. *)
Definition Set_ (d : ResourceData) (key : string) (value : option Attr) : ResourceData :=
  match value with
  | Some v => mkResourceData (id d) (<[key := v]> (attrs d))
  | None => mkResourceData (id d) (delete key (attrs d))
  end.

(** [d.Get(key).(T)]: the attribute at the asserted type; an attribute
    that is not set reads as the zero value of the type, and an attribute
    of another type fails the assertion. *)
Definition Get_string (d : ResourceData) (key : string) : Res string :=
  match attrs d !! key with
  | Some (AString s) => Ok s
  | None => Ok EmptyString
  | Some _ => Panicked "interface conversion: interface {} is not string"
  end.

Definition Get_int (d : ResourceData) (key : string) : Res Z :=
  match attrs d !! key with
  | Some (AInt n) => Ok n
  | None => Ok 0
  | Some _ => Panicked "interface conversion: interface {} is not int"
  end.

Definition Get_map (d : ResourceData) (key : string) : Res (gmap string Prim) :=
  match attrs d !! key with
  | Some (AMap m) => Ok m
  | None => Ok ∅
  | Some _ => Panicked "interface conversion: interface {} is not map[string]interface {}"
  end.

(** [d.Get(key)] asserted to be a pointer to a [schema.Set], then [List()]. *)
Definition Get_set_List (d : ResourceData) (key : string) : Res (list (gmap string Prim)) :=
  match attrs d !! key with
  | Some (ASet l) => Ok l
  | None => Ok []
  | Some _ => Panicked "interface conversion: interface {} is not *schema.Set"
  end.

(** [v.(string)] and [v.(int)] on an entry of a [map[string]interface{}]. *)
Definition as_string (v : option Prim) : Res string :=
  match v with
  | Some (PString s) => Ok s
  | _ => Panicked "interface conversion: interface {} is not string"
  end.

Definition as_int (v : option Prim) : Res Z :=
  match v with
  | Some (PInt n) => Ok n
  | _ => Panicked "interface conversion: interface {} is not int"
  end.

Inductive ValueType : Type := TypeString | TypeInt | TypeSet | TypeMap.

(** [schema.SchemaValidateFunc]: from the value and its key to warnings
    and errors. *)
Definition SchemaValidateFunc : Type := Prim -> string -> list string * list string.

(** [schema.SchemaDiffSuppressFunc], on the key and the old and new values. *)
Definition SchemaDiffSuppressFunc : Type := string -> string -> string -> bool.

(** [schema.Schema], with the fields the provider's schemas set. *)
#[local] Unset Elimination Schemes.
Inductive Schema : Type := mkSchema {
  Type_ : ValueType;
  Required : bool;
  Optional : bool;
  Computed : bool;
  ForceNew : bool;
  Sensitive : bool;
  MaxItems : nat;
  ValidateFunc : option SchemaValidateFunc;
  DiffSuppressFunc : option SchemaDiffSuppressFunc;
  Elem : option (list (string * Schema))
}.
#[local] Set Elimination Schemes.

(** [schema.Resource]: the four operations, of type [F], and the schema. *)
Record Resource (F : Type) : Type := mkResource {
  Create : F;
  Read : F;
  Update : F;
  Delete : F;
  Importer : option unit;
  Schema_ : list (string * Schema)
}.
Arguments mkResource {F}.
Arguments Create {F}.
Arguments Read {F}.
Arguments Update {F}.
Arguments Delete {F}.
Arguments Importer {F}.
Arguments Schema_ {F}.

(** The entry of a schema map at a key. *)
Fixpoint lookupSchema (m : list (string * Schema)) (key : string) : option Schema :=
  match m with
  | [] => None
  | (k, s) :: m' => if String.eqb k key then Some s else lookupSchema m' key
  end.

End schema.

Module validation.

(** Modelled from the spec: [validation.StringInSlice] of the Terraform
    helper package, which is not in the sources. It accepts a string that
    equals an entry of [valid], or equals one when both are lower-cased and
    [ignoreCase] is set, and reports a single error otherwise ("validated
    against a fixed allow-list ... case-insensitively"). *)
Definition StringInSlice (valid : list string) (ignoreCase : bool) : schema.SchemaValidateFunc :=
  fun i k =>
    match i with
    | schema.PString v =>
        if existsb (fun str => String.eqb v str
                               || (ignoreCase && String.eqb (ToLower v) (ToLower str))) valid
        then ([], [])
        else ([], ["expected " +:+ k +:+ " to be one of the allowed values, got " +:+ v])
    | _ => ([], ["expected type of " +:+ k +:+ " to be string"])
    end.

End validation.

(** ** The MySQL Server resource *)

Module MySqlServer.
Import schema.

(** Modelled from the spec: [validateIntInSlice], a validator of this
    provider that is not in the sources. It accepts an integer that is an
    entry of [valid] and reports a single error otherwise ("validated
    against a fixed allow-list"). *)
Definition validateIntInSlice (valid : list Z) : SchemaValidateFunc :=
  fun i k =>
    match i with
    | PInt v =>
        if existsb (fun n => v =? n) valid
        then ([], [])
        else ([], ["expected " +:+ quoted k +:+ " to be one of the allowed values, got " +:+ Itoa v])
    | _ => ([], ["expected type of " +:+ k +:+ " to be int"])
    end.

(** The parsed form of a resource identifier, as the adapter reads it. *)
Record ResourceID : Type := mkResourceID {
  ResourceGroup : string;
  Path : gmap string string
}.

(** Functions and schemas of this provider that the resource uses and
    that are declared in other files. *)
Record Helpers : Type := mkHelpers {
  parseAzureResourceID : string -> ResourceID + string;
  azureRMNormalizeLocation : string -> string;
  expandTags : gmap string Prim -> option (gmap string string);
  flattenAndSetTags : ResourceData -> option (gmap string string) -> ResourceData;
  ignoreCaseDiffSuppressFunc : SchemaDiffSuppressFunc;
  locationSchema : Schema;
  tagsSchema : Schema
}.

(** The remote calls of the adapter, with their arguments. *)
Inductive Call : Type :=
| CallCreateOrUpdate (resourceGroupName serverName : string) (parameters : mysql.ServerForCreate.t)
| CallUpdate (resourceGroupName serverName : string) (parameters : mysql.ServerUpdateParameters.t)
| CallGet (resourceGroupName serverName : string)
| CallDelete (resourceGroupName serverName : string).

Section Adapter.

(** The state of the remote service and the token type of the clients. *)
Variables R Token : Type.

(** [mysql.ServersClient]. A long-running operation is taken to its end:
    the error is the one received from the operation's error channel. *)
Record ServersClient : Type := mkServersClient {
  CreateOrUpdate : autorest.Client Token -> string -> string -> mysql.ServerForCreate.t ->
                   R -> error * R;
  Update : autorest.Client Token -> string -> string -> mysql.ServerUpdateParameters.t ->
           R -> error * R;
  Get : autorest.Client Token -> string -> string -> R -> (mysql.Server.t * error) * R;
  Delete : autorest.Client Token -> string -> string -> R -> error * R
}.

(** What an operation of the adapter acts on: the resource data [d], the
    remote service, the remote calls made and the lines logged. *)
Record World : Type := mkWorld {
  resource : ResourceData;
  remote : R;
  calls : list Call;
  logs : list string
}.

Definition log_Printf (line : string) : M World unit :=
  modify (fun w => mkWorld (resource w) (remote w) (calls w) (logs w ++ [line])).

Definition d_Id : M World string := gets (fun w => Id (resource w)).

Definition d_SetId (v : string) : M World unit :=
  modify (fun w => mkWorld (SetId (resource w) v) (remote w) (calls w) (logs w)).

Definition d_Set (key : string) (value : option Attr) : M World unit :=
  modify (fun w => mkWorld (Set_ (resource w) key value) (remote w) (calls w) (logs w)).

Definition d_Get_string (key : string) : M World string :=
  fun w => (Get_string (resource w) key, w).

Definition d_Get_int (key : string) : M World Z :=
  fun w => (Get_int (resource w) key, w).

Definition d_Get_map (key : string) : M World (gmap string Prim) :=
  fun w => (Get_map (resource w) key, w).

Definition client_CreateOrUpdate (api : ServersClient) (client : autorest.Client Token)
    (resGroup name : string) (properties : mysql.ServerForCreate.t) : M World error :=
  fun w =>
    let '(err, r) := CreateOrUpdate api client resGroup name properties (remote w) in
    (Ok err, mkWorld (resource w) r (calls w ++ [CallCreateOrUpdate resGroup name properties]) (logs w)).

Definition client_Update (api : ServersClient) (client : autorest.Client Token)
    (resGroup name : string) (properties : mysql.ServerUpdateParameters.t) : M World error :=
  fun w =>
    let '(err, r) := Update api client resGroup name properties (remote w) in
    (Ok err, mkWorld (resource w) r (calls w ++ [CallUpdate resGroup name properties]) (logs w)).

Definition client_Get (api : ServersClient) (client : autorest.Client Token)
    (resGroup name : string) : M World (mysql.Server.t * error) :=
  fun w =>
    let '(res, r) := Get api client resGroup name (remote w) in
    (Ok res, mkWorld (resource w) r (calls w ++ [CallGet resGroup name]) (logs w)).

Definition client_Delete (api : ServersClient) (client : autorest.Client Token)
    (resGroup name : string) : M World error :=
  fun w =>
    let '(err, r) := Delete api client resGroup name (remote w) in
    (Ok err, mkWorld (resource w) r (calls w ++ [CallDelete resGroup name]) (logs w)).

Definition expandMySQLServerSku (d : ResourceData) (storageMB : Z) : Res (option mysql.Sku.t) :=
  match Get_set_List d "sku" with
  | Panicked msg => Panicked msg
  | Ok skus =>
  match index skus 0 with
  | Panicked msg => Panicked msg
  | Ok sku =>
  match as_string (sku !! "name") with
  | Panicked msg => Panicked msg
  | Ok name =>
  match as_int (sku !! "capacity") with
  | Panicked msg => Panicked msg
  | Ok capacity =>
  match as_string (sku !! "tier") with
  | Panicked msg => Panicked msg
  | Ok tier =>
      Ok (Some {| mysql.Sku.Name := Some name;
                  mysql.Sku.Capacity := Some (int32 capacity);
                  mysql.Sku.Tier := tier;
                  mysql.Sku.Size := Some (Itoa storageMB) |})
  end end end end end.

Definition flattenAndSetMySQLServerSku (d : ResourceData) (resp : option mysql.Sku.t)
    : Res ResourceData :=
  let values : gmap string Prim := ∅ in
  match deref resp with
  | Panicked msg => Panicked msg
  | Ok resp =>
  match deref (mysql.Sku.Name resp) with
  | Panicked msg => Panicked msg
  | Ok name =>
  let values := <["name" := PString name]> values in
  match deref (mysql.Sku.Capacity resp) with
  | Panicked msg => Panicked msg
  | Ok capacity =>
  let values := <["capacity" := PInt (int capacity)]> values in
  let values := <["tier" := PString (mysql.Sku.Tier resp)]> values in
  let sku := [values] in
  Ok (Set_ d "sku" (Some (ASet sku)))
  end end end.

(** The two functions above on the resource data of the state. *)
Definition d_expandMySQLServerSku (storageMB : Z) : M World (option mysql.Sku.t) :=
  fun w => (expandMySQLServerSku (resource w) storageMB, w).

Definition d_flattenAndSetMySQLServerSku (resp : option mysql.Sku.t) : M World unit :=
  fun w =>
    match flattenAndSetMySQLServerSku (resource w) resp with
    | Ok d => (Ok tt, mkWorld d (remote w) (calls w) (logs w))
    | Panicked msg => (Panicked msg, w)
    end.

Definition d_flattenAndSetTags (h : Helpers) (tags : option (gmap string string)) : M World unit :=
  modify (fun w => mkWorld (flattenAndSetTags h (resource w) tags) (remote w) (calls w) (logs w)).

Definition resourceArmMySqlServerRead (h : Helpers) (api : ServersClient)
    (meta : Config.ArmClient Token) : M World error :=
  let client := Config.field meta "mysqlServersClient" in

  d_id ← d_Id;
  match parseAzureResourceID h d_id with
  | inr err => mret (Some err)
  | inl id =>
  let resGroup := ResourceGroup id in
  let name := default EmptyString (Path id !! "servers") in

  '(resp, err) ← client_Get api client resGroup name;
  match err with
  | Some err =>
      if mysql.Server.StatusCode resp =? http.StatusNotFound then
        d_SetId EmptyString;;
        mret None
      else
        mret (Some ("Error making Read request on Azure MySQL Server " +:+ name +:+ ": " +:+ err))
  | None =>

  d_Set "name" (AString <$> mysql.Server.Name resp);;
  d_Set "resource_group_name" (Some (AString resGroup));;
  location ← lift (deref (mysql.Server.Location resp));
  d_Set "location" (Some (AString (azureRMNormalizeLocation h location)));;

  d_Set "administrator_login" (AString <$> mysql.Server.AdministratorLogin resp);;
  d_Set "version" (Some (AString (mysql.Server.Version resp)));;
  storageMB ← lift (deref (mysql.Server.StorageMB resp));
  d_Set "storage_mb" (Some (AInt (int storageMB)));;
  d_Set "ssl_enforcement" (Some (AString (mysql.Server.SslEnforcement resp)));;

  d_flattenAndSetMySQLServerSku (mysql.Server.Sku resp);;
  d_flattenAndSetTags h (mysql.Server.Tags resp);;

  (* Computed *)
  d_Set "fqdn" (AString <$> mysql.Server.FullyQualifiedDomainName resp);;

  mret None
  end
  end.

Definition resourceArmMySqlServerCreate (h : Helpers) (api : ServersClient)
    (meta : Config.ArmClient Token) : M World error :=
  let client := Config.field meta "mysqlServersClient" in

  log_Printf "[INFO] preparing arguments for AzureRM MySQL Server creation.";;

  name ← d_Get_string "name";
  location ← d_Get_string "location";
  resGroup ← d_Get_string "resource_group_name";

  (* TODO: fix me: the administrator login and its password are not read *)
  sslEnforcement ← d_Get_string "ssl_enforcement";
  version ← d_Get_string "version";
  storageMB ← d_Get_int "storage_mb";

  tags ← d_Get_map "tags";

  sku ← d_expandMySQLServerSku storageMB;

  let properties :=
    {| mysql.ServerForCreate.Location := Some location;
       mysql.ServerForCreate.Sku := sku;
       mysql.ServerForCreate.Properties :=
         Some {| mysql.ServerPropertiesForCreate.Version := version;
                 mysql.ServerPropertiesForCreate.StorageMB := Some (int64 storageMB);
                 mysql.ServerPropertiesForCreate.SslEnforcement := sslEnforcement;
                 (* TODO: fix the generator: neither administrator field is assigned *)
                 mysql.ServerPropertiesForCreate.AdministratorLogin := None;
                 mysql.ServerPropertiesForCreate.AdministratorLoginPassword := None |};
       mysql.ServerForCreate.Tags := expandTags h tags |} in

  err ← client_CreateOrUpdate api client resGroup name properties;
  match err with
  | Some err => mret (Some err)
  | None =>

  '(read, err) ← client_Get api client resGroup name;
  match err with
  | Some err => mret (Some err)
  | None =>
  match mysql.Server.ID read with
  | None =>
      mret (Some ("Cannot read MySQL Server " +:+ name
                  +:+ " (resource group " +:+ resGroup +:+ ") ID"))
  | Some read_ID =>

  d_SetId read_ID;;

  resourceArmMySqlServerRead h api meta
  end
  end
  end.

Definition resourceArmMySqlServerUpdate (h : Helpers) (api : ServersClient)
    (meta : Config.ArmClient Token) : M World error :=
  let client := Config.field meta "mysqlServersClient" in

  log_Printf "[INFO] preparing arguments for AzureRM MySQL Server update.";;

  name ← d_Get_string "name";
  resGroup ← d_Get_string "resource_group_name";

  adminLoginPassword ← d_Get_string "administrator_login_password";
  sslEnforcement ← d_Get_string "ssl_enforcement";
  version ← d_Get_string "version";
  storageMB ← d_Get_int "storage_mb";
  sku ← d_expandMySQLServerSku storageMB;

  tags ← d_Get_map "tags";

  let properties :=
    {| mysql.ServerUpdateParameters.Sku := sku;
       mysql.ServerUpdateParameters.ServerUpdateParametersProperties :=
         Some {| mysql.ServerUpdateParametersProperties.SslEnforcement := sslEnforcement;
                 mysql.ServerUpdateParametersProperties.StorageMB := Some (int64 storageMB);
                 mysql.ServerUpdateParametersProperties.Version := version;
                 mysql.ServerUpdateParametersProperties.AdministratorLoginPassword :=
                   Some adminLoginPassword |};
       mysql.ServerUpdateParameters.Tags := expandTags h tags |} in

  err ← client_Update api client resGroup name properties;
  match err with
  | Some err => mret (Some err)
  | None =>

  '(read, err) ← client_Get api client resGroup name;
  match err with
  | Some err => mret (Some err)
  | None =>
  match mysql.Server.ID read with
  | None =>
      mret (Some ("Cannot read MySQL Server " +:+ name
                  +:+ " (resource group " +:+ resGroup +:+ ") ID"))
  | Some read_ID =>

  d_SetId read_ID;;

  resourceArmMySqlServerRead h api meta
  end
  end
  end.

Definition resourceArmMySqlServerDelete (h : Helpers) (api : ServersClient)
    (meta : Config.ArmClient Token) : M World error :=
  let client := Config.field meta "mysqlServersClient" in

  d_id ← d_Id;
  match parseAzureResourceID h d_id with
  | inr err => mret (Some err)
  | inl id =>
  let resGroup := ResourceGroup id in
  let name := default EmptyString (Path id !! "servers") in

  err ← client_Delete api client resGroup name;

  mret err
  end.

(** The arguments of the remote call that create prepares: the name,
    the resource group and the payload, as the reads of [d] and the
    struct literal compute them, without the state. It is related to
    [resourceArmMySqlServerCreate] by the lemma [create_prepared]. *)
Definition createArguments (h : Helpers) (d : ResourceData)
    : Res (string * string * mysql.ServerForCreate.t) :=
  match Get_string d "name", Get_string d "location", Get_string d "resource_group_name",
        Get_string d "ssl_enforcement", Get_string d "version", Get_int d "storage_mb",
        Get_map d "tags" with
  | Ok name, Ok location, Ok resGroup, Ok sslEnforcement, Ok version, Ok storageMB, Ok tags =>
      match expandMySQLServerSku d storageMB with
      | Ok sku =>
          Ok (name, resGroup,
              mysql.ServerForCreate.mk (Some location) sku
                (Some (mysql.ServerPropertiesForCreate.mk version (Some (int64 storageMB))
                         sslEnforcement None None))
                (expandTags h tags))
      | Panicked msg => Panicked msg
      end
  | _, _, _, _, _, _, _ => Panicked "interface conversion"
  end.

(** The same for update; it is related to [resourceArmMySqlServerUpdate]
    by the lemma [update_prepared]. *)
Definition updateArguments (h : Helpers) (d : ResourceData)
    : Res (string * string * mysql.ServerUpdateParameters.t) :=
  match Get_string d "name", Get_string d "resource_group_name",
        Get_string d "administrator_login_password",
        Get_string d "ssl_enforcement", Get_string d "version", Get_int d "storage_mb" with
  | Ok name, Ok resGroup, Ok adminLoginPassword, Ok sslEnforcement, Ok version, Ok storageMB =>
      match expandMySQLServerSku d storageMB, Get_map d "tags" with
      | Ok sku, Ok tags =>
          Ok (name, resGroup,
              mysql.ServerUpdateParameters.mk sku
                (Some (mysql.ServerUpdateParametersProperties.mk sslEnforcement
                         (Some (int64 storageMB)) version (Some adminLoginPassword)))
                (expandTags h tags))
      | _, _ => Panicked "interface conversion"
      end
  | _, _, _, _, _, _ => Panicked "interface conversion"
  end.

(** The resource: its operations and its schema. *)
Definition resourceArmMySqlServer (h : Helpers) (api : ServersClient)
    : Resource (Config.ArmClient Token -> M World error) :=
  {| schema.Create := resourceArmMySqlServerCreate h api;
     schema.Read := resourceArmMySqlServerRead h api;
     schema.Update := resourceArmMySqlServerUpdate h api;
     schema.Delete := resourceArmMySqlServerDelete h api;
     schema.Importer := Some tt;

     schema.Schema_ :=
       [ ("name",
          {| Type_ := TypeString; Required := true; Optional := false; Computed := false;
             ForceNew := true; Sensitive := false; MaxItems := 0;
             ValidateFunc := None; DiffSuppressFunc := None; Elem := None |});

         ("location", locationSchema h);

         ("resource_group_name",
          {| Type_ := TypeString; Required := true; Optional := false; Computed := false;
             ForceNew := true; Sensitive := false; MaxItems := 0;
             ValidateFunc := None; DiffSuppressFunc := None; Elem := None |});

         ("sku",
          {| Type_ := TypeSet; Required := true; Optional := false; Computed := false;
             ForceNew := false; Sensitive := false; MaxItems := 1;
             ValidateFunc := None; DiffSuppressFunc := None;
             Elem := Some
               [ ("name",
                  {| Type_ := TypeString; Required := true; Optional := false;
                     Computed := false; ForceNew := false; Sensitive := false; MaxItems := 0;
                     ValidateFunc := Some (validation.StringInSlice
                       [ "MYSQLB50";
                         "MYSQLB100" ] true);
                     DiffSuppressFunc := Some (ignoreCaseDiffSuppressFunc h);
                     Elem := None |});

                 ("capacity",
                  {| Type_ := TypeInt; Required := true; Optional := false;
                     Computed := false; ForceNew := false; Sensitive := false; MaxItems := 0;
                     ValidateFunc := Some (validateIntInSlice
                       [ 50;
                         100 ]);
                     DiffSuppressFunc := None;
                     Elem := None |});

                 ("tier",
                  {| Type_ := TypeString; Required := true; Optional := false;
                     Computed := false; ForceNew := false; Sensitive := false; MaxItems := 0;
                     ValidateFunc := Some (validation.StringInSlice
                       [ mysql.Basic ] true);
                     DiffSuppressFunc := Some (ignoreCaseDiffSuppressFunc h);
                     Elem := None |}) ] |});

         ("administrator_login",
          {| Type_ := TypeString; Required := true; Optional := false; Computed := false;
             ForceNew := true; Sensitive := false; MaxItems := 0;
             ValidateFunc := None; DiffSuppressFunc := None; Elem := None |});

         ("administrator_login_password",
          {| Type_ := TypeString; Required := true; Optional := false; Computed := false;
             ForceNew := false; Sensitive := true; MaxItems := 0;
             ValidateFunc := None; DiffSuppressFunc := None; Elem := None |});

         ("version",
          {| Type_ := TypeString; Required := true; Optional := false; Computed := false;
             ForceNew := true; Sensitive := false; MaxItems := 0;
             ValidateFunc := Some (validation.StringInSlice
               [ mysql.FiveFullStopSix;
                 mysql.FiveFullStopSeven ] true);
             DiffSuppressFunc := Some (ignoreCaseDiffSuppressFunc h);
             Elem := None |});

         ("storage_mb",
          {| Type_ := TypeInt; Required := true; Optional := false; Computed := false;
             ForceNew := true; Sensitive := false; MaxItems := 0;
             ValidateFunc := Some (validateIntInSlice
               [ 51200;
                 102400 ]);
             DiffSuppressFunc := None;
             Elem := None |});

         ("ssl_enforcement",
          {| Type_ := TypeString; Required := true; Optional := false; Computed := false;
             ForceNew := false; Sensitive := false; MaxItems := 0;
             ValidateFunc := Some (validation.StringInSlice
               [ mysql.SslEnforcementEnumDisabled;
                 mysql.SslEnforcementEnumEnabled ] true);
             DiffSuppressFunc := Some (ignoreCaseDiffSuppressFunc h);
             Elem := None |});

         ("fqdn",
          {| Type_ := TypeString; Required := false; Optional := false; Computed := true;
             ForceNew := false; Sensitive := false; MaxItems := 0;
             ValidateFunc := None; DiffSuppressFunc := None; Elem := None |});

         ("tags", tagsSchema h) ] |}.

End Adapter.

Arguments mkServersClient {R Token}.
Arguments CreateOrUpdate {R Token}.
Arguments Update {R Token}.
Arguments Get {R Token}.
Arguments Delete {R Token}.
Arguments mkWorld {R}.
Arguments resource {R}.
Arguments remote {R}.
Arguments calls {R}.
Arguments logs {R}.
Arguments resourceArmMySqlServerRead {R Token}.
Arguments resourceArmMySqlServerCreate {R Token}.
Arguments resourceArmMySqlServerUpdate {R Token}.
Arguments resourceArmMySqlServerDelete {R Token}.
Arguments resourceArmMySqlServer {R Token}.
Arguments log_Printf {R}.
Arguments d_SetId {R}.
Arguments d_Set {R}.

End MySqlServer.

(** ** The host's side of the declarative boundary *)

Module Host.
Import schema.

(** Modelled from the spec: the validation the host runs on a declarative
    configuration before it calls an operation of the resource. The host
    is outside the sources; the specification says that a value outside
    an allow-list is "rejected before any network call is attempted". A
    value is checked by the [ValidateFunc] of its schema entry, a nested
    block by the entries of [Elem]. *)
Definition validateValue (s : Schema) (key : string) (v : Prim) : list string :=
  match ValidateFunc s with
  | Some f => snd (f v key)
  | None => []
  end.

Definition validateBlock (fields : list (string * Schema)) (block : gmap string Prim)
    : list string :=
  flat_map (fun '(key, s) =>
              match block !! key with
              | Some v => validateValue s key v
              | None => []
              end) fields.

Definition validateAttr (key : string) (s : Schema) (d : ResourceData) : list string :=
  match attrs d !! key with
  | Some (AString v) => validateValue s key (PString v)
  | Some (AInt n) => validateValue s key (PInt n)
  | Some (ASet elems) =>
      match Elem s with
      | Some fields => flat_map (validateBlock fields) elems
      | None => []
      end
  | _ => []
  end.

Definition validateResource (sch : list (string * Schema)) (d : ResourceData) : list string :=
  flat_map (fun '(key, s) => validateAttr key s d) sch.

(** Modelled from the spec: the host validates, and calls the resource's
    create only when the validation reported no error. The result is the
    list of validation errors, or what create returned. *)
Definition applyCreate {R Token : Type}
    (r : Resource (Config.ArmClient Token -> M (MySqlServer.World R) error))
    (meta : Config.ArmClient Token)
    : M (MySqlServer.World R) (list string + error) :=
  fun w =>
    match validateResource (Schema_ r) (MySqlServer.resource w) with
    | [] =>
        match Create r meta w with
        | (Ok err, w') => (Ok (inr err), w')
        | (Panicked msg, w') => (Panicked msg, w')
        end
    | errs => (Ok (inl errs), w)
    end.

End Host.

(** ** Test doubles

    Stand-ins for the libraries and for the remote service, used to run
    the embedding on concrete inputs. *)

Module Fake.
Import schema.

(** The cloud environments, looked up by upper-cased name. *)
Definition publicCloud : azure.Environment :=
  azure.mkEnvironment "AzurePublicCloud" "https://management.azure.com/"
    "https://login.microsoftonline.com/" "https://graph.windows.net/" "core.windows.net".

Definition germanCloud : azure.Environment :=
  azure.mkEnvironment "AzureGermanCloud" "https://management.microsoftazure.de/"
    "https://login.microsoftonline.de/" "https://graph.cloudapi.de/" "core.cloudapi.de".

Definition environments (name : string) : azure.Environment + string :=
  let name := ToUpper name in
  if String.eqb name "AZUREPUBLICCLOUD" then inl publicCloud
  else if String.eqb name "AZUREGERMANCLOUD" then inl germanCloud
  else inr ("autorest/azure: There is no cloud environment matching the name " +:+ quoted name).

(** An OAuth configuration is the tenant; a token is the audience it was
    issued for. A tenant or an audience listed in [rejected] is refused. *)
Definition sdk (rejected : list string) : @Config.SDK string string :=
  Config.mkSDK environments
    (fun endpoint tenant =>
       if existsb (String.eqb tenant) rejected
       then (None, Some ("tenant refused: " +:+ tenant))
       else (Some tenant, None))
    (fun oauth clientID secret resource =>
       if existsb (String.eqb resource) rejected
       then inr ("token refused for " +:+ resource)
       else inl resource)
    "0.10.8".

Definition credentials (environment : string) : Config.Config :=
  Config.mkConfig "client" "secret" "subscription" "tenant" environment.

(** The helpers of the provider: one identifier parses, to the group [G]
    and the server [N]. *)
Definition serverId : string :=
  "/subscriptions/S/resourceGroups/G/providers/P/servers/N".

Definition blankSchema : Schema :=
  mkSchema TypeString false true false false false 0 None None None.

Definition helpers : MySqlServer.Helpers :=
  MySqlServer.mkHelpers
    (fun s => if String.eqb s serverId
              then inl (MySqlServer.mkResourceID "G" {[ "servers" := "N" ]})
              else inr ("Cannot parse Azure Id: " +:+ s))
    ToLower
    (fun tags => Some ((fun v => match v with PString s => s | PInt n => Itoa n end) <$> tags))
    (fun d tags => Set_ d "tags" (AMap <$> (fmap PString <$> tags)))
    (fun k old new => String.eqb (ToLower old) (ToLower new))
    blankSchema
    blankSchema.

(** A scripted remote service: the replies that the next [Get] calls
    receive, in order, and the error that the long-running operations
    end with. When the script is used up, [Get] reports a 404. *)
Record Script : Type := mkScript {
  getReplies : list (mysql.Server.t * error);
  completion : error
}.

Definition notFound : mysql.Server.t :=
  mysql.Server.mk 404 None None None None None None EmptyString None EmptyString None.

Definition servers : @MySqlServer.ServersClient Script string :=
  MySqlServer.mkServersClient
    (fun client rg name properties r => (completion r, r))
    (fun client rg name properties r => (completion r, r))
    (fun client rg name r =>
       match getReplies r with
       | reply :: rest => (reply, mkScript rest (completion r))
       | [] => ((notFound, Some "StatusCode=404"), r)
       end)
    (fun client rg name r => (completion r, r)).

(** A declarative configuration: tier "Basic", capacity 50, storage
    51200, as in the end-to-end scenario of the specification. *)
Definition skuBlock : gmap string Prim :=
  {[ "name" := PString "MYSQLB50"; "capacity" := PInt 50; "tier" := PString "Basic" ]}.

Definition declared : ResourceData :=
  mkResourceData EmptyString
    {[ "name" := AString "N";
       "location" := AString "westeurope";
       "resource_group_name" := AString "G";
       "sku" := ASet [skuBlock];
       "administrator_login" := AString "root";
       "administrator_login_password" := AString "hunter2";
       "version" := AString "5.7";
       "storage_mb" := AInt 51200;
       "ssl_enforcement" := AString "Enabled" ]}.

(** The server as the remote service reports it. *)
Definition serverN : mysql.Server.t :=
  mysql.Server.mk 200 (Some serverId) (Some "N") (Some "West Europe") None
    (Some (mysql.Sku.mk (Some "MYSQLB50") (Some 50) "Basic" (Some "51200")))
    (Some "root") "5.7" (Some 51200) "Enabled" (Some "n.mysql.database.azure.com").

Definition world (d : ResourceData) (r : Script) : MySqlServer.World Script :=
  MySqlServer.mkWorld d r [] [].

(** A registry, as [getArmClient] builds it for the public cloud. *)
Definition registry : Config.ArmClient string :=
  match fst (Config.getArmClient (sdk []) (credentials "public") []) with
  | Ok (Some client, _) => client
  | _ => Config.mkArmClient EmptyString EmptyString EmptyString publicCloud None ∅
  end.

(** A scripted storage service: the reply of [ListKeys]. *)
Definition storageSDK (reply : storage.AccountListKeysResult * error)
    : @Config.StorageSDK unit string string string string string string :=
  Config.mkStorageSDK
    (fun client rg name r => (reply, r))
    (fun name key suffix version https =>
       if String.eqb key EmptyString then inr "empty key" else inl (name +:+ "." +:+ suffix))
    "2016-05-31"
    (fun c => "blob." +:+ c)
    (fun c => "file." +:+ c)
    (fun c => "table." +:+ c)
    (fun c => "queue." +:+ c).

End Fake.

(** ** Statements

    Predicates in which the properties below are stated. *)

Module Contract.

Section Storage.

Context {R Token StorageClient C : Type}.

(** The shape that the four storage service helpers share: the result of
    [getKeyForStorageAccount], passed through or turned into a service
    client by [NewClient] and the service getter [get]. *)
Definition helperResult
    (newClient : string -> StorageClient + string) (get : StorageClient -> C)
    (storageAccountName : string)
    (key : Res (string * bool * error)) : Res (option C * bool * error) :=
  match key with
  | Panicked msg => Panicked msg
  | Ok (_, accountExists, Some err) => Ok (None, accountExists, Some err)
  | Ok (_, false, None) => Ok (None, false, None)
  | Ok (key, true, None) =>
      match newClient key with
      | inr err =>
          Ok (None, true,
              Some ("Error creating storage client for storage account "
                    +:+ quoted storageAccountName +:+ ": " +:+ err))
      | inl storageClient => Ok (Some (get storageClient), true, None)
      end
  end.


End Storage.

Section Bootstrap.

Context {OAuthConfig Token : Type}.

(** The names that were passed to [EnvironmentFromName], in order. *)
Definition lookups (tr : list Config.Call) : list string :=
  flat_map (fun call => match call with
                        | Config.CallEnvironmentFromName name => [name]
                        | _ => []
                        end) tr.

(** The environment name resolves to [env]: by the name itself or, when
    that lookup fails, by the name wrapped in AZURE and CLOUD. *)
Definition resolves (sdk : @Config.SDK OAuthConfig Token) (c : Config.Config)
    (env : azure.Environment) : Prop :=
  Config.EnvironmentFromName sdk (Config.Environment c) = inl env
  \/ ((exists envErr, Config.EnvironmentFromName sdk (Config.Environment c) = inr envErr)
      /\ Config.EnvironmentFromName sdk ("AZURE" +:+ Config.Environment c +:+ "CLOUD") = inl env).

(** The retry as the specification words it: when the lookup of the name
    fails, the one further lookup is of the upper-cased name between
    AZURE and CLOUD. *)
Definition retriesUppercased (sdk : @Config.SDK OAuthConfig Token) (c : Config.Config) : Prop :=
  forall envErr,
    Config.EnvironmentFromName sdk (Config.Environment c) = inr envErr ->
    lookups (snd (Config.getArmClient sdk c []))
    = [Config.Environment c; "AZURE" +:+ ToUpper (Config.Environment c) +:+ "CLOUD"].

(** The handle [h] in the field [name] is configured: the user agent, the
    logging sender, and the endpoint and authorizer of its family (the
    directory for the service principals, none for the data-plane key
    vault client, the management endpoint for all others). *)
Definition configured (userAgent endpoint graphEndpoint subscriptionID tenantID : string)
    (auth graphAuth : autorest.Authorizer Token)
    (name : string) (h : autorest.Client Token) : Prop :=
  autorest.UserAgent h = userAgent
  /\ autorest.Sender_ h = autorest.CreateSender [autorest.withRequestLogging]
  /\ if String.eqb name "servicePrincipalsClient" then
       autorest.BaseURI h = Some graphEndpoint
       /\ autorest.Scope h = Some tenantID
       /\ autorest.Authorizer_ h = graphAuth
     else if String.eqb name "keyVaultManagementClient" then
       autorest.BaseURI h = None
       /\ autorest.Scope h = None
       /\ exists callback,
            autorest.Authorizer_ h
            = autorest.NewBearerAuthorizerCallback
                (autorest.CreateSender [autorest.withRequestLogging]) callback
     else
       autorest.BaseURI h = Some endpoint
       /\ autorest.Scope h = (if String.eqb name "subscriptionsGroupClient"
                              then None else Some subscriptionID)
       /\ autorest.Authorizer_ h = auth.

(** The registry [client] is the complete one for the configuration [c],
    the environment [env] and the two tokens: it carries the credentials
    and the environment, a configured handle in every declared field but
    [netUsageClient], which the construction never assigns, and nothing
    else. *)
Definition complete (sdk : @Config.SDK OAuthConfig Token) (c : Config.Config)
    (env : azure.Environment) (spt graphSpt : Token) (client : Config.ArmClient Token) : Prop :=
  Config.clientId client = Config.ClientID c
  /\ Config.tenantId client = Config.TenantID c
  /\ Config.subscriptionId client = Config.SubscriptionID c
  /\ Config.environment client = env
  /\ (forall name, name ∈ Config.ArmClient_fields -> name <> "netUsageClient" ->
        is_Some (Config.handles client !! name))
  /\ (forall name, is_Some (Config.handles client !! name) ->
        name ∈ Config.ArmClient_fields /\ name <> "netUsageClient")
  /\ map_Forall
       (configured ("HashiCorp-Terraform-v" +:+ Config.VersionString sdk)
          (azure.ResourceManagerEndpoint env) (azure.GraphEndpoint env)
          (Config.SubscriptionID c) (Config.TenantID c)
          (autorest.NewBearerAuthorizer spt) (autorest.NewBearerAuthorizer graphSpt))
       (Config.handles client).

(** From the resolved environment [env] on, after the lookups [pre]:
    what [getArmClient] returns and the calls it has made, by the results
    of the library calls. *)
Definition bootstrapFrom (sdk : @Config.SDK OAuthConfig Token) (c : Config.Config)
    (tr pre : list Config.Call) (env : azure.Environment)
    (out : Res (option (Config.ArmClient Token) * error) * list Config.Call) : Prop :=
  let oauthCall :=
    Config.CallNewOAuthConfig (azure.ActiveDirectoryEndpoint env) (Config.TenantID c) in
  let tokenCall resource :=
    Config.CallNewServicePrincipalToken (Config.ClientID c) (Config.ClientSecret c) resource in
  let endpoint := azure.ResourceManagerEndpoint env in
  let graphEndpoint := azure.GraphEndpoint env in
  match Config.NewOAuthConfig sdk (azure.ActiveDirectoryEndpoint env) (Config.TenantID c) with
  | (_, Some err) => out = (Ok (None, Some err), tr ++ pre ++ [oauthCall])
  | (None, None) =>
      out = (Ok (None, Some ("Unable to configure OAuthConfig for tenant "
                             +:+ Config.TenantID c)),
             tr ++ pre ++ [oauthCall])
  | (Some oauthConfig, None) =>
      match Config.NewServicePrincipalToken sdk oauthConfig (Config.ClientID c)
              (Config.ClientSecret c) endpoint with
      | inr err => out = (Ok (None, Some err), tr ++ pre ++ [oauthCall; tokenCall endpoint])
      | inl spt =>
          match Config.NewServicePrincipalToken sdk oauthConfig (Config.ClientID c)
                  (Config.ClientSecret c) graphEndpoint with
          | inr err =>
              out = (Ok (None, Some err),
                     tr ++ pre ++ [oauthCall; tokenCall endpoint; tokenCall graphEndpoint])
          | inl graphSpt =>
              exists client,
                out = (Ok (Some client, None),
                       tr ++ pre ++ [oauthCall; tokenCall endpoint; tokenCall graphEndpoint])
                /\ complete sdk c env spt graphSpt client
          end
      end
  end.

(** The whole of [getArmClient], by the results of the library calls. *)
Definition bootstrap (sdk : @Config.SDK OAuthConfig Token) (c : Config.Config)
    (tr : list Config.Call)
    (out : Res (option (Config.ArmClient Token) * error) * list Config.Call) : Prop :=
  let name := Config.Environment c in
  let wrapped := "AZURE" +:+ name +:+ "CLOUD" in
  match Config.EnvironmentFromName sdk name with
  | inl env => bootstrapFrom sdk c tr [Config.CallEnvironmentFromName name] env out
  | inr envErr =>
      match Config.EnvironmentFromName sdk wrapped with
      | inl env =>
          bootstrapFrom sdk c tr
            [Config.CallEnvironmentFromName name; Config.CallEnvironmentFromName wrapped] env out
      | inr _ =>
          out = (Ok (None, Some envErr),
                 tr ++ [Config.CallEnvironmentFromName name;
                        Config.CallEnvironmentFromName wrapped])
      end
  end.

End Bootstrap.

Section Resource.

Import schema.
Context {R Token : Type}.

(** A string is in an allow-list when case is ignored. *)
Definition inListFold (v : string) (allowed : list string) : Prop :=
  exists a, a ∈ allowed /\ ToLower v = ToLower a.

(** A validator accepts a value at a key: it reports no error. *)
Definition accepts (f : SchemaValidateFunc) (v : Prim) (key : string) : Prop :=
  snd (f v key) = [].

(** The validator of the schema entry at a path: a key of the resource,
    or a key of a nested block and a key inside it. *)
Definition validatorAt (sch : list (string * Schema)) (path : list string)
    : option SchemaValidateFunc :=
  match path with
  | [key] => s ← lookupSchema sch key; ValidateFunc s
  | [block; key] =>
      b ← lookupSchema sch block;
      fields ← Elem b;
      s ← lookupSchema fields key;
      ValidateFunc s
  | _ => None
  end.

(** What create and update do after their remote operation completed
    without an error, where the follow-up [Get] at the remote state [r1]
    replies [(read, getErr)] and leaves the remote state [r2]: [result] is
    what the operation returns at [w], [line] the line it logged and
    [call] its own remote call. *)
Definition followsUp (h : MySqlServer.Helpers)
    (api : @MySqlServer.ServersClient R Token) (meta : Config.ArmClient Token)
    (result : Res error * MySqlServer.World R) (w : MySqlServer.World R)
    (line : string) (call : MySqlServer.Call) (name resGroup : string)
    (read : mysql.Server.t) (getErr : error) (r2 : R) : Prop :=
  let called := MySqlServer.calls w ++ [call; MySqlServer.CallGet resGroup name] in
  let logged := MySqlServer.logs w ++ [line] in
  let w2 := MySqlServer.mkWorld (MySqlServer.resource w) r2 called logged in
  match getErr, mysql.Server.ID read with
  | Some err, _ => result = (Ok (Some err), w2)
  | None, None =>
      exists msg, result = (Ok (Some msg), w2)
                  /\ mentions msg name /\ mentions msg resGroup
  | None, Some id =>
      result = MySqlServer.resourceArmMySqlServerRead h api meta
                 (MySqlServer.mkWorld (SetId (MySqlServer.resource w) id) r2 called logged)
  end.

(** The credentials as the specification words them: the payload of
    create carries the administrator login and its password, and the
    payload of update carries no password. *)
Definition credentialsOnCreateOnly (h : MySqlServer.Helpers)
    (api : @MySqlServer.ServersClient R Token) (meta : Config.ArmClient Token)
    (w : MySqlServer.World R) : Prop :=
  (exists rg name parameters properties login password,
      MySqlServer.CallCreateOrUpdate rg name parameters
      ∈ MySqlServer.calls (snd (MySqlServer.resourceArmMySqlServerCreate h api meta w))
      /\ mysql.ServerForCreate.Properties parameters = Some properties
      /\ mysql.ServerPropertiesForCreate.AdministratorLogin properties = Some login
      /\ mysql.ServerPropertiesForCreate.AdministratorLoginPassword properties = Some password)
  /\ (forall rg name parameters properties,
        MySqlServer.CallUpdate rg name parameters
        ∈ MySqlServer.calls (snd (MySqlServer.resourceArmMySqlServerUpdate h api meta w)) ->
        mysql.ServerUpdateParameters.ServerUpdateParametersProperties parameters
        = Some properties ->
        mysql.ServerUpdateParametersProperties.AdministratorLoginPassword properties = None).

(** The value of a string or integer attribute, as a validator takes it. *)
Definition primAttr (d : ResourceData) (key : string) : option Prim :=
  match attrs d !! key with
  | Some (AString v) => Some (PString v)
  | Some (AInt n) => Some (PInt n)
  | _ => None
  end.

(** A SKU block that create accepts: it has the three required fields
    and the validators of the schema report no error on it. *)
Definition skuAccepted (sch : list (string * Schema)) (block : gmap string Prim) : Prop :=
  is_Some (block !! "name") /\ is_Some (block !! "capacity") /\ is_Some (block !! "tier")
  /\ exists fields,
       (s ← lookupSchema sch "sku"; Elem s) = Some fields
       /\ Host.validateBlock fields block = [].

End Resource.

End Contract.

(** * Properties *)

(** ** Strings *)

Lemma append_assoc (a b c : string) : (a +:+ b) +:+ c = a +:+ (b +:+ c).
Proof.
  induction a as [|x a IH]; [reflexivity|].
  change (String x ((a +:+ b) +:+ c) = String x (a +:+ (b +:+ c))).
  now rewrite IH.
Qed.

Lemma append_empty_r (a : string) : a +:+ EmptyString = a.
Proof.
  induction a as [|x a IH]; [reflexivity|].
  change (String x (a +:+ EmptyString) = String x a).
  now rewrite IH.
Qed.

Lemma mentions_refl (s : string) : mentions s s.
Proof.
  exists EmptyString, EmptyString.
  change (s = s +:+ EmptyString). now rewrite append_empty_r.
Qed.

Lemma mentions_append_l (a s sub : string) : mentions s sub -> mentions (a +:+ s) sub.
Proof.
  intros (pre & post & ->). exists (a +:+ pre), post. now rewrite append_assoc.
Qed.

Lemma mentions_append_r (s b sub : string) : mentions s sub -> mentions (s +:+ b) sub.
Proof.
  intros (pre & post & ->). exists pre, (post +:+ b). now rewrite !append_assoc.
Qed.

Lemma mentions_here (sub b : string) : mentions (sub +:+ b) sub.
Proof. apply mentions_append_r, mentions_refl. Qed.

Lemma mentions_quoted (s : string) : mentions (quoted s) s.
Proof. unfold quoted. apply mentions_append_l, mentions_here. Qed.

Create HintDb mention.
#[local] Hint Resolve mentions_refl mentions_here mentions_append_l mentions_append_r
  mentions_quoted : mention.

(** ** The request-logging decorator *)

Section RequestLoggingProperties.

Context {Request Response Net : Type}.
Variable DumpRequestOut : Request -> bool -> string + string.
Variable DumpResponse : Response -> bool -> string + string.
Variable Method : Request -> string.
Variable URL : Request -> string.
Variable Status : Response -> string.

#[local] Abbreviation decorated :=
  (RequestLogging.withRequestLogging DumpRequestOut DumpResponse Method URL Status).
#[local] Abbreviation requestLine := (RequestLogging.requestLine DumpRequestOut Method URL).
#[local] Abbreviation responseLine := (RequestLogging.responseLine DumpResponse URL Status).

(** C9. The decorated sender returns exactly the response and the error
    of the underlying sender and leaves the network as the underlying
    sender left it; all it adds is two log lines, one for the request and
    one for the response. When a dump fails, the line is the one-line
    summary; no outcome of a dump reaches the returned pair. *)
Theorem withRequestLogging_transparent
    (s : @RequestLogging.Sender Request Response Net) (r : Request)
    (w : @RequestLogging.Wire Net) :
  let out := decorated s r w in
  let under := s r (RequestLogging.net w) in
  fst out = fst under
  /\ RequestLogging.net (snd out) = snd under
  /\ RequestLogging.logged (snd out)
     = RequestLogging.logged w ++ [requestLine r; responseLine r (fst (fst under))]
  /\ (forall e, DumpRequestOut r true = inr e ->
        requestLine r = "[DEBUG] AzureRM Request: " +:+ Method r +:+ " to " +:+ URL r +:+ newline)
  /\ (forall resp e, DumpResponse resp true = inr e ->
        responseLine r (Some resp)
        = "[DEBUG] AzureRM Response: " +:+ Status resp +:+ " for " +:+ URL r +:+ newline).
Proof.
  cbv zeta. unfold RequestLogging.withRequestLogging, RequestLogging.requestLine,
    RequestLogging.responseLine, RequestLogging.log_Printf.
  repeat split.
  - destruct (DumpRequestOut r true); simpl;
      destruct (s r (RequestLogging.net w)) as [[resp err] n]; reflexivity.
  - destruct (DumpRequestOut r true); simpl;
      destruct (s r (RequestLogging.net w)) as [[[resp|] err] n]; simpl;
      try destruct (DumpResponse resp true); reflexivity.
  - destruct (DumpRequestOut r true); simpl;
      destruct (s r (RequestLogging.net w)) as [[[resp|] err] n]; simpl;
      try destruct (DumpResponse resp true); simpl;
      rewrite <- app_assoc; reflexivity.
  - intros e ->. reflexivity.
  - intros resp e ->. reflexivity.
Qed.

End RequestLoggingProperties.

(** ** The storage-account helpers *)

Section StorageProperties.

Context {R Token StorageClient : Type}.
Context {BlobStorageClient FileServiceClient TableServiceClient QueueServiceClient : Type}.
Variable sdk : @Config.StorageSDK R Token StorageClient BlobStorageClient FileServiceClient
                 TableServiceClient QueueServiceClient.
Variable armClient : Config.ArmClient Token.
Variables resourceGroupName storageAccountName : string.

#[local] Abbreviation listKeys :=
  (Config.ListKeys sdk (Config.field armClient "storageServiceClient")
     resourceGroupName storageAccountName).
#[local] Abbreviation getKey :=
  (Config.getKeyForStorageAccount sdk armClient resourceGroupName storageAccountName).
#[local] Abbreviation newClient :=
  (fun key => Config.NewClient sdk storageAccountName key
                (azure.StorageEndpointSuffix (Config.environment armClient))
                (Config.DefaultAPIVersion _ _ _ _ _ _ _ sdk) true).
#[local] Abbreviation listed w :=
  (Config.mkCloud (snd (listKeys (Config.cloud w)))
     (Config.listKeysCalls w ++ [(resourceGroupName, storageAccountName)])).

(** What [getKeyForStorageAccount] does, by the reply of [ListKeys]. *)
Lemma getKey_cases (w : Config.Cloud R) :
  let reply := fst (listKeys (Config.cloud w)) in
  let status := storage.StatusCode (fst reply) in
  getKey w =
  ( if status =? 404 then Ok (EmptyString, false, None)
    else match snd reply with
         | Some err =>
             Ok (EmptyString, true,
                 Some ("Error retrieving keys for storage account "
                       +:+ quoted storageAccountName +:+ ": " +:+ err))
         | None =>
             match storage.Keys (fst reply) with
             | None =>
                 Ok (EmptyString, false,
                     Some ("Nil key returned for storage account "
                           +:+ quoted storageAccountName))
             | Some [] => Panicked "index out of range"
             | Some (key0 :: _) =>
                 match storage.Value key0 with
                 | Some v => Ok (v, true, None)
                 | None => Panicked "invalid memory address or nil pointer dereference"
                 end
             end
         end,
    listed w ).
Proof.
  cbv zeta. unfold Config.getKeyForStorageAccount, Config.storageServiceClient_ListKeys.
  unfold mbind, M_bind, bind, mret, M_ret, ret, lift, index, deref, http.StatusNotFound.
  destruct (listKeys (Config.cloud w)) as [[accountKeys err] r]. simpl.
  destruct (storage.StatusCode accountKeys =? 404); [reflexivity|].
  destruct err as [err|]; [reflexivity|].
  destruct (storage.Keys accountKeys) as [[|key0 keys]|]; try reflexivity.
  simpl. destruct (storage.Value key0); reflexivity.
Qed.

(** Each of the four helpers is the key lookup followed by the shared
    shape. *)
Lemma helpers_shape (w : Config.Cloud R) :
  Config.getBlobStorageClientForStorageAccount sdk armClient resourceGroupName
    storageAccountName w
  = (Contract.helperResult newClient (Config.GetBlobService _ _ _ _ _ _ _ sdk)
       storageAccountName (fst (getKey w)), snd (getKey w))
  /\ Config.getFileServiceClientForStorageAccount sdk armClient resourceGroupName
       storageAccountName w
     = (Contract.helperResult newClient (Config.GetFileService _ _ _ _ _ _ _ sdk)
          storageAccountName (fst (getKey w)), snd (getKey w))
  /\ Config.getTableServiceClientForStorageAccount sdk armClient resourceGroupName
       storageAccountName w
     = (Contract.helperResult newClient (Config.GetTableService _ _ _ _ _ _ _ sdk)
          storageAccountName (fst (getKey w)), snd (getKey w))
  /\ Config.getQueueServiceClientForStorageAccount sdk armClient resourceGroupName
       storageAccountName w
     = (Contract.helperResult newClient (Config.GetQueueService _ _ _ _ _ _ _ sdk)
          storageAccountName (fst (getKey w)), snd (getKey w)).
Proof.
  unfold Config.getBlobStorageClientForStorageAccount,
    Config.getFileServiceClientForStorageAccount,
    Config.getTableServiceClientForStorageAccount,
    Config.getQueueServiceClientForStorageAccount, Contract.helperResult.
  unfold mbind, M_bind, bind, mret, M_ret, ret.
  destruct (getKey w) as [[[[key [|]] [err|]]|msg] w']; simpl;
    repeat split; try reflexivity;
    destruct (Config.NewClient sdk _ _ _ _ _); reflexivity.
Qed.



(** *** Further properties of the storage helpers *)

(** X15. When the key lookup returns a key for an existing account, each
    of the four helpers creates one storage client for the account name,
    that key, the storage endpoint suffix of the registry's environment
    and the default API version, over HTTPS, and returns the service of
    its kind with exists = true and no error; when the client cannot be
    created they return no client, exists = true and an error that names
    the account and carries the cause. *)
Theorem helpers_build_service_clients (w w' : Config.Cloud R) (key : string) :
  getKey w = (Ok (key, true, None), w') ->
  match Config.NewClient sdk storageAccountName key
          (azure.StorageEndpointSuffix (Config.environment armClient))
          (Config.DefaultAPIVersion _ _ _ _ _ _ _ sdk) true with
  | inl storageClient =>
      Config.getBlobStorageClientForStorageAccount sdk armClient resourceGroupName
        storageAccountName w
      = (Ok (Some (Config.GetBlobService _ _ _ _ _ _ _ sdk storageClient), true, None), w')
      /\ Config.getFileServiceClientForStorageAccount sdk armClient resourceGroupName
           storageAccountName w
         = (Ok (Some (Config.GetFileService _ _ _ _ _ _ _ sdk storageClient), true, None), w')
      /\ Config.getTableServiceClientForStorageAccount sdk armClient resourceGroupName
           storageAccountName w
         = (Ok (Some (Config.GetTableService _ _ _ _ _ _ _ sdk storageClient), true, None), w')
      /\ Config.getQueueServiceClientForStorageAccount sdk armClient resourceGroupName
           storageAccountName w
         = (Ok (Some (Config.GetQueueService _ _ _ _ _ _ _ sdk storageClient), true, None), w')
  | inr err =>
      exists msg,
        mentions msg storageAccountName /\ mentions msg err
        /\ Config.getBlobStorageClientForStorageAccount sdk armClient resourceGroupName
             storageAccountName w = (Ok (None, true, Some msg), w')
        /\ Config.getFileServiceClientForStorageAccount sdk armClient resourceGroupName
             storageAccountName w = (Ok (None, true, Some msg), w')
        /\ Config.getTableServiceClientForStorageAccount sdk armClient resourceGroupName
             storageAccountName w = (Ok (None, true, Some msg), w')
        /\ Config.getQueueServiceClientForStorageAccount sdk armClient resourceGroupName
             storageAccountName w = (Ok (None, true, Some msg), w')
  end.
Proof.
  intros Hk. destruct (helpers_shape w) as (Hb & Hf & Ht & Hq).
  rewrite Hb, Hf, Ht, Hq, Hk. unfold Contract.helperResult. cbn [fst snd].
  destruct (Config.NewClient sdk _ _ _ _ _) as [storageClient|err].
  - repeat split.
  - eexists. split; [|split; [|repeat split]].
    + apply mentions_append_l, mentions_append_r, mentions_quoted.
    + apply mentions_append_l, mentions_append_l, mentions_append_l, mentions_refl.
Qed.

(** X16. Only the first key of the listing is read. When it has no
    value, the key lookup and the four helpers panic on the nil pointer,
    whatever the other keys hold; when it has one, the other keys do not
    change the result. In every case exactly one [ListKeys] call is
    made. *)
Theorem only_the_first_key_is_read (w : Config.Cloud R)
    (status : Z) (key0 : storage.AccountKey) (keys : list storage.AccountKey) (r : R) :
  listKeys (Config.cloud w)
  = ((storage.mkAccountListKeysResult status (Some (key0 :: keys)), None), r) ->
  status <> 404 ->
  let w' := Config.mkCloud r
              (Config.listKeysCalls w ++ [(resourceGroupName, storageAccountName)]) in
  match storage.Value key0 with
  | Some value => getKey w = (Ok (value, true, None), w')
  | None =>
      exists msg,
        getKey w = (Panicked msg, w')
        /\ Config.getBlobStorageClientForStorageAccount sdk armClient resourceGroupName
             storageAccountName w = (Panicked msg, w')
        /\ Config.getFileServiceClientForStorageAccount sdk armClient resourceGroupName
             storageAccountName w = (Panicked msg, w')
        /\ Config.getTableServiceClientForStorageAccount sdk armClient resourceGroupName
             storageAccountName w = (Panicked msg, w')
        /\ Config.getQueueServiceClientForStorageAccount sdk armClient resourceGroupName
             storageAccountName w = (Panicked msg, w')
  end.
Proof.
  intros Hl Hs. cbv zeta.
  pose proof (getKey_cases w) as Hk. cbv zeta in Hk. rewrite Hl in Hk.
  cbn [fst snd storage.StatusCode storage.Keys] in Hk.
  destruct (Z.eqb_spec status 404) as [|_]; [contradiction|].
  destruct (helpers_shape w) as (Hb & Hf & Ht & Hq).
  rewrite Hb, Hf, Ht, Hq, Hk. cbn [fst snd Contract.helperResult].
  destruct (storage.Value key0) as [value|]; [reflexivity|].
  eexists. repeat split.
Qed.

End StorageProperties.

(** ** The client factory *)

Lemma lookups_app (tr tr' : list Config.Call) :
  Contract.lookups (tr ++ tr') = Contract.lookups tr ++ Contract.lookups tr'.
Proof. unfold Contract.lookups. apply flat_map_app. Qed.

Lemma upper_ascii_idem (a : ascii) : upper_ascii (upper_ascii a) = upper_ascii a.
Proof. destruct a as [[] [] [] [] [] [] [] []]; reflexivity. Qed.

Lemma ToUpper_idem (s : string) : ToUpper (ToUpper s) = ToUpper s.
Proof.
  induction s as [|a s IH]; [reflexivity|].
  change (String (upper_ascii (upper_ascii a)) (ToUpper (ToUpper s))
          = String (upper_ascii a) (ToUpper s)).
  now rewrite upper_ascii_idem, IH.
Qed.

Lemma ToUpper_app (a b : string) : ToUpper (a +:+ b) = ToUpper a +:+ ToUpper b.
Proof.
  induction a as [|x a IH]; [reflexivity|].
  change (String (upper_ascii x) (ToUpper (a +:+ b))
          = String (upper_ascii x) (ToUpper a +:+ ToUpper b)).
  now rewrite IH.
Qed.

Lemma mysqlServersClient_not_declared :
  "mysqlServersClient" ∉ @Config.ArmClient_fields.
Proof.
  intros H. apply list_elem_of_In in H.
  assert (Hb : existsb (String.eqb "mysqlServersClient") Config.ArmClient_fields = false)
    by (vm_compute; reflexivity).
  apply not_true_iff_false in Hb. apply Hb, existsb_exists.
  exists "mysqlServersClient". split; [exact H | apply String.eqb_refl].
Qed.

(** The registry at the end of the straight-line construction is
    complete. The facts that need the construction to be run are
    computed first; the registry is opaque from then on. *)
Ltac registry_is_complete :=
  match goal with
  | |- Contract.complete _ ?c ?env _ _ ?g =>
      set (client := g);
      assert (Hb1 : forallb (fun f => String.eqb f "netUsageClient"
                                      || bool_decide (is_Some (Config.handles client !! f)))
                      Config.ArmClient_fields = true) by (vm_compute; reflexivity);
      assert (Hb2 : forallb (fun k => bool_decide (k ∈ Config.ArmClient_fields)
                                      && negb (String.eqb k "netUsageClient"))
                      (map_to_list (Config.handles client)).*1 = true)
        by (vm_compute; reflexivity);
      let l := eval vm_compute in (map_to_list (Config.handles client)) in
      assert (Hl : map_to_list (Config.handles client) = l) by (vm_compute; reflexivity);
      assert (H5 : Config.clientId client = Config.ClientID c) by reflexivity;
      assert (H6 : Config.tenantId client = Config.TenantID c) by reflexivity;
      assert (H7 : Config.subscriptionId client = Config.SubscriptionID c) by reflexivity;
      assert (H8 : Config.environment client = env) by reflexivity;
      clearbody client;
      unfold Contract.complete;
      repeat match goal with |- _ /\ _ => split end; try assumption;
      [ intros name Hin Hne; rewrite forallb_forall in Hb1; apply list_elem_of_In in Hin;
        specialize (Hb1 _ Hin); apply orb_true_iff in Hb1 as [Hb|Hb];
        [ apply String.eqb_eq in Hb; contradiction
        | apply bool_decide_eq_true in Hb; exact Hb ]
      | intros name [h Hh]; apply elem_of_map_to_list in Hh;
        rewrite forallb_forall in Hb2;
        assert (In name (map_to_list (Config.handles client)).*1) as Hin
          by (apply list_elem_of_In, list_elem_of_fmap; exists (name, h);
              split; [reflexivity | exact Hh]);
        specialize (Hb2 _ Hin); apply andb_true_iff in Hb2 as [Ha Hn];
        apply bool_decide_eq_true in Ha; split; [exact Ha|];
        intros ->; vm_compute in Hn; discriminate Hn
      | apply map_Forall_to_list; rewrite Hl; clear;
        repeat (apply Forall_cons; split;
                [ unfold Contract.configured;
                  cbn [uncurry fst snd String.eqb Ascii.eqb Bool.eqb autorest.UserAgent
                       autorest.Sender_ autorest.BaseURI autorest.Scope autorest.Authorizer_];
                  repeat split; try reflexivity; eexists; reflexivity
                | ]);
        constructor ]
  end.

Section BootstrapProperties.

Context {OAuthConfig Token : Type}.
Variable sdk : @Config.SDK OAuthConfig Token.
Variable c : Config.Config.
Variable tr : list Config.Call.

(** [getArmClient] from the resolved environment on. *)
Lemma getArmClient_bootstrap :
  Contract.bootstrap sdk c tr (Config.getArmClient sdk c tr).
Proof.
  unfold Contract.bootstrap, Contract.bootstrapFrom, Config.getArmClient.
  cbv beta iota zeta delta [mbind M_bind bind mret M_ret ret Config.azure_EnvironmentFromName
    Config.adal_NewOAuthConfig Config.adal_NewServicePrincipalToken].
  destruct (Config.EnvironmentFromName sdk (Config.Environment c)) as [env|envErr].
  - destruct (Config.NewOAuthConfig sdk (azure.ActiveDirectoryEndpoint env) (Config.TenantID c))
      as [[oc|] [e1|]];
      try (rewrite <- ?app_assoc; reflexivity).
    destruct (Config.NewServicePrincipalToken sdk oc (Config.ClientID c) (Config.ClientSecret c)
                (azure.ResourceManagerEndpoint env)) as [spt|e2];
      [|rewrite <- ?app_assoc; reflexivity].
    destruct (Config.NewServicePrincipalToken sdk oc (Config.ClientID c) (Config.ClientSecret c)
                (azure.GraphEndpoint env)) as [graphSpt|e3];
      [|rewrite <- ?app_assoc; reflexivity].
    refine (ex_intro _ _ (conj _ _));
      [ apply (f_equal (pair _)); rewrite <- ?app_assoc; reflexivity | ].
    registry_is_complete.
  - destruct (Config.EnvironmentFromName sdk ("AZURE" +:+ Config.Environment c +:+ "CLOUD"))
      as [env|innerErr]; [|rewrite <- ?app_assoc; reflexivity].
    destruct (Config.NewOAuthConfig sdk (azure.ActiveDirectoryEndpoint env) (Config.TenantID c))
      as [[oc|] [e1|]];
      try (rewrite <- ?app_assoc; reflexivity).
    destruct (Config.NewServicePrincipalToken sdk oc (Config.ClientID c) (Config.ClientSecret c)
                (azure.ResourceManagerEndpoint env)) as [spt|e2];
      [|rewrite <- ?app_assoc; reflexivity].
    destruct (Config.NewServicePrincipalToken sdk oc (Config.ClientID c) (Config.ClientSecret c)
                (azure.GraphEndpoint env)) as [graphSpt|e3];
      [|rewrite <- ?app_assoc; reflexivity].
    refine (ex_intro _ _ (conj _ _));
      [ apply (f_equal (pair _)); rewrite <- ?app_assoc; reflexivity | ].
    registry_is_complete.
Qed.

#[local] Abbreviation name := (Config.Environment c).
#[local] Abbreviation wrapped := ("AZURE" +:+ Config.Environment c +:+ "CLOUD").
#[local] Abbreviation lookup := (Config.EnvironmentFromName sdk).
#[local] Abbreviation out := (Config.getArmClient sdk c tr).

(** Case analysis on the library calls, with [getArmClient_bootstrap]
    specialised to each case. *)
Ltac bootstrap_cases H :=
  pose proof getArmClient_bootstrap as H;
  unfold Contract.bootstrap, Contract.bootstrapFrom in H; cbv zeta in H;
  repeat match type of H with
         | context [match ?x with _ => _ end] =>
             first [ is_var x; destruct x | destruct x eqn:? ]
         end;
  try (let client := fresh "client" in
       let Hc := fresh "Hc" in
       destruct H as (client & H & Hc));
  rewrite H.

(** C5, as the code has it. The name is looked up as it is given; when
    that lookup succeeds it is the only one. When it fails there is
    exactly one more lookup, of the name as given (not upper-cased by
    [getArmClient]) between AZURE and CLOUD. Only when both fail does the
    resolution fail: [getArmClient] then returns no registry and the
    error of the first lookup, and makes no further call; when either
    succeeds, the build goes on to the OAuth configuration with that
    environment, which is the environment of any registry returned. When
    the lookup itself ignores case, the retry is the lookup of the
    upper-cased name between AZURE and CLOUD. *)
Theorem getArmClient_environment_lookup :
  match lookup name with
  | inl env =>
      Contract.lookups (snd out) = Contract.lookups tr ++ [name]
      /\ Config.CallNewOAuthConfig (azure.ActiveDirectoryEndpoint env) (Config.TenantID c)
         ∈ snd out
      /\ (forall client e, fst out = Ok (Some client, e) -> Config.environment client = env)
  | inr envErr =>
      Contract.lookups (snd out) = Contract.lookups tr ++ [name; wrapped]
      /\ match lookup wrapped with
         | inl env =>
             Config.CallNewOAuthConfig (azure.ActiveDirectoryEndpoint env) (Config.TenantID c)
             ∈ snd out
             /\ (forall client e, fst out = Ok (Some client, e) ->
                   Config.environment client = env)
         | inr _ =>
             out = (Ok (None, Some envErr),
                    tr ++ [Config.CallEnvironmentFromName name;
                           Config.CallEnvironmentFromName wrapped])
         end
  end
  /\ ((forall s, lookup (ToUpper s) = lookup s) ->
      lookup wrapped = lookup ("AZURE" +:+ ToUpper name +:+ "CLOUD")).
Proof.
  split.
  - bootstrap_cases H; cbn [fst snd];
      rewrite ?lookups_app; cbn [Contract.lookups flat_map app];
      rewrite ?app_nil_r;
      repeat match goal with |- _ /\ _ => split end;
      try reflexivity;
      try (rewrite !elem_of_app, !elem_of_cons; tauto);
      try (intros ? ? [= <- <-]; match goal with Hc : Contract.complete _ _ _ _ _ _ |- _ =>
                                   apply Hc end);
      try (intros ? ? [=]).
  - intros Hfold.
    rewrite <- (Hfold wrapped), <- (Hfold ("AZURE" +:+ ToUpper name +:+ "CLOUD")).
    rewrite !ToUpper_app, ToUpper_idem. reflexivity.
Qed.

(** C6. [getArmClient] returns either no registry and an error, or a
    registry and no error, and then the registry is the complete one. A
    failure of the environment resolution, of the OAuth configuration (an
    error, or a nil configuration) or of either token exchange gives the
    first outcome, with the error of the failed step; when every step
    succeeds the outcome is the second. *)
Theorem getArmClient_atomic :
  ((exists err, fst out = Ok (None, Some err))
   \/ (exists client env spt graphSpt,
         fst out = Ok (Some client, None)
         /\ Contract.resolves sdk c env
         /\ Contract.complete sdk c env spt graphSpt client))
  /\ (forall envErr innerErr,
        lookup name = inr envErr -> lookup wrapped = inr innerErr ->
        fst out = Ok (None, Some envErr))
  /\ (forall env, Contract.resolves sdk c env ->
        let oauth := Config.NewOAuthConfig sdk (azure.ActiveDirectoryEndpoint env)
                       (Config.TenantID c) in
        let token oauthConfig resource :=
          Config.NewServicePrincipalToken sdk oauthConfig (Config.ClientID c)
            (Config.ClientSecret c) resource in
        (forall oauthConfig err, oauth = (oauthConfig, Some err) ->
           fst out = Ok (None, Some err))
        /\ (oauth = (None, None) ->
            exists msg, fst out = Ok (None, Some msg) /\ mentions msg (Config.TenantID c))
        /\ (forall oauthConfig, oauth = (Some oauthConfig, None) ->
              (forall err, token oauthConfig (azure.ResourceManagerEndpoint env) = inr err ->
                 fst out = Ok (None, Some err))
              /\ (forall spt err,
                    token oauthConfig (azure.ResourceManagerEndpoint env) = inl spt ->
                    token oauthConfig (azure.GraphEndpoint env) = inr err ->
                    fst out = Ok (None, Some err))
              /\ (forall spt graphSpt,
                    token oauthConfig (azure.ResourceManagerEndpoint env) = inl spt ->
                    token oauthConfig (azure.GraphEndpoint env) = inl graphSpt ->
                    exists client,
                      fst out = Ok (Some client, None)
                      /\ Contract.complete sdk c env spt graphSpt client))).
Proof.
  bootstrap_cases H; cbn [fst snd]; cbv zeta.
  all: split; [ first [ left; eexists; reflexivity
                      | right; do 4 eexists;
                        split; [reflexivity|]; split; [|eassumption];
                        unfold Contract.resolves; eauto ] | ].
  all: split; [ intros; congruence | ].
  all: intros env' Hr; unfold Contract.resolves in Hr;
       destruct Hr as [Hr|[[? Hr0] Hr]]; try congruence.
  all: repeat (repeat match goal with |- _ /\ _ => split end; intros);
       try congruence.
  all: eexists; (split; [reflexivity|]);
       first [ apply mentions_append_l, mentions_refl | congruence ].
Qed.

(** No registry that [getArmClient] returns has a handle in a field
    named [mysqlServersClient]: the struct declares no such field and the
    construction assigns none. *)
Lemma getArmClient_no_mysqlServersClient (client : Config.ArmClient Token) (e : error) :
  fst out = Ok (Some client, e) ->
  Config.handles client !! "mysqlServersClient" = None
  /\ Config.field client "mysqlServersClient" = Config.zeroClient.
Proof.
  bootstrap_cases H; cbn [fst]; intros Hout; try discriminate Hout.
  all: injection Hout as <- <-.
  all: match goal with
       | Hc : Contract.complete _ _ _ _ _ ?cl |- _ =>
           destruct Hc as (_ & _ & _ & _ & _ & Hdom & _);
           assert (Hn : Config.handles cl !! "mysqlServersClient" = None)
       end.
  1,3: match goal with
       | |- ?m !! _ = None =>
           destruct (m !! "mysqlServersClient") as [x|] eqn:E; [|reflexivity];
           destruct (Hdom "mysqlServersClient") as [Hin _]; [rewrite E; eauto|];
           exfalso; exact (mysqlServersClient_not_declared Hin)
       end.
  all: split; [exact Hn|]; unfold Config.field; rewrite Hn; reflexivity.
Qed.

(** *** Further properties of the client factory *)

(** X10. Every handle of a registry that [getArmClient] returns is
    configured: it has the user agent HashiCorp-Terraform-v followed by
    the Terraform version and a sender decorated with the request
    logging; the service principals client points to the directory
    endpoint with the tenant and the directory token, the data-plane key
    vault client has no base URI and the callback authorizer, and every
    other client points to the management endpoint with the management
    token and the subscription (the subscriptions client without one).
    The two tokens are those exchanged for the two endpoints of the
    resolved environment. *)
Theorem getArmClient_handles_configured (client : Config.ArmClient Token) (e : error)
    (field : string) (handle : autorest.Client Token) :
  fst out = Ok (Some client, e) ->
  Config.handles client !! field = Some handle ->
  exists env oauthConfig spt graphSpt,
    Contract.resolves sdk c env
    /\ Config.NewOAuthConfig sdk (azure.ActiveDirectoryEndpoint env) (Config.TenantID c)
       = (Some oauthConfig, None)
    /\ Config.NewServicePrincipalToken sdk oauthConfig (Config.ClientID c)
         (Config.ClientSecret c) (azure.ResourceManagerEndpoint env) = inl spt
    /\ Config.NewServicePrincipalToken sdk oauthConfig (Config.ClientID c)
         (Config.ClientSecret c) (azure.GraphEndpoint env) = inl graphSpt
    /\ Contract.configured ("HashiCorp-Terraform-v" +:+ Config.VersionString sdk)
         (azure.ResourceManagerEndpoint env) (azure.GraphEndpoint env)
         (Config.SubscriptionID c) (Config.TenantID c)
         (autorest.NewBearerAuthorizer spt) (autorest.NewBearerAuthorizer graphSpt)
         field handle.
Proof.
  bootstrap_cases H; cbn [fst]; intros Hout Hh; try discriminate Hout.
  all: injection Hout as <- <-.
  all: do 4 eexists.
  all: split; [unfold Contract.resolves; eauto|].
  all: split; [eassumption|]. all: split; [eassumption|]. all: split; [eassumption|].
  all: match goal with
       | Hc : Contract.complete _ _ _ _ _ _ |- _ =>
           destruct Hc as (_ & _ & _ & _ & _ & _ & Hall); exact (Hall _ _ Hh)
       end.
Qed.

(** X11. The fields of a returned registry that hold a handle are
    exactly the handle fields that the struct declares, but for
    [netUsageClient]: that field is declared and never assigned. The
    registry also carries the client, tenant and subscription identifiers
    of the configuration. *)
Theorem getArmClient_assigned_fields (client : Config.ArmClient Token) (e : error) :
  fst out = Ok (Some client, e) ->
  (forall field,
      is_Some (Config.handles client !! field)
      <-> field ∈ Config.ArmClient_fields /\ field <> "netUsageClient")
  /\ Config.clientId client = Config.ClientID c
  /\ Config.tenantId client = Config.TenantID c
  /\ Config.subscriptionId client = Config.SubscriptionID c
  /\ Config.StopContext client = None.
Proof.
  intros Hout.
  assert (Hs : Config.StopContext client = None).
  { revert Hout. unfold Config.getArmClient.
    cbv beta iota zeta delta [mbind M_bind bind mret M_ret ret Config.azure_EnvironmentFromName
      Config.adal_NewOAuthConfig Config.adal_NewServicePrincipalToken].
    destruct (Config.EnvironmentFromName sdk (Config.Environment c)) as [env|envErr];
      [|destruct (Config.EnvironmentFromName sdk _) as [env|innerErr];
        [|intros Hout; discriminate Hout]].
    all: destruct (Config.NewOAuthConfig sdk (azure.ActiveDirectoryEndpoint env)
                     (Config.TenantID c)) as [[oc|] [e1|]];
         try (intros Hout; discriminate Hout).
    all: destruct (Config.NewServicePrincipalToken sdk oc (Config.ClientID c)
                     (Config.ClientSecret c) (azure.ResourceManagerEndpoint env))
           as [spt|e2]; [|intros Hout; discriminate Hout].
    all: destruct (Config.NewServicePrincipalToken sdk oc (Config.ClientID c)
                     (Config.ClientSecret c) (azure.GraphEndpoint env))
           as [graphSpt|e3]; [|intros Hout; discriminate Hout].
    all: cbn [fst]; intros [= <- _]; reflexivity. }
  revert Hout.
  bootstrap_cases H; cbn [fst]; intros Hout; try discriminate Hout.
  all: injection Hout as <- <-.
  all: match goal with
       | Hc : Contract.complete _ _ _ _ _ _ |- _ =>
           destruct Hc as (H1 & H2 & H3 & _ & Hin & Hdom & _)
       end.
  all: repeat match goal with |- _ /\ _ => split end; try assumption.
  all: intros field; split; [apply Hdom | intros [Ha Hb]; exact (Hin _ Ha Hb)].
Qed.

(** X12. A successful build makes, after the one or two environment
    lookups, exactly three library calls in this order: the OAuth
    configuration for the directory endpoint of the resolved environment
    and the tenant, the token exchange for the management endpoint, and
    the token exchange for the directory (graph) endpoint, both with the
    client identifier and secret. No token is exchanged for a key vault
    while the registry is built. *)
Theorem getArmClient_success_calls (client : Config.ArmClient Token) (e : error) :
  fst out = Ok (Some client, e) ->
  exists env lookups,
    Contract.resolves sdk c env
    /\ (lookups = [Config.CallEnvironmentFromName name]
        \/ lookups = [Config.CallEnvironmentFromName name;
                      Config.CallEnvironmentFromName wrapped])
    /\ snd out
       = tr ++ lookups
         ++ [ Config.CallNewOAuthConfig (azure.ActiveDirectoryEndpoint env) (Config.TenantID c);
              Config.CallNewServicePrincipalToken (Config.ClientID c) (Config.ClientSecret c)
                (azure.ResourceManagerEndpoint env);
              Config.CallNewServicePrincipalToken (Config.ClientID c) (Config.ClientSecret c)
                (azure.GraphEndpoint env) ].
Proof.
  bootstrap_cases H; cbn [fst snd]; intros Hout; try discriminate Hout.
  all: do 2 eexists.
  all: split; [unfold Contract.resolves; eauto|].
  all: split; [|reflexivity]; auto.
Qed.

(** X13. A failed build has stopped at its first failing step, and the
    error it returns is the error of that step: after a failed
    environment resolution nothing else was called; after a failed OAuth
    configuration no token was exchanged; after a failed exchange of the
    management token the directory token was not asked for. *)
Theorem getArmClient_stops_at_first_failure (err : string) :
  fst out = Ok (None, Some err) ->
  exists made,
    snd out = tr ++ made
    /\ ((made = [Config.CallEnvironmentFromName name; Config.CallEnvironmentFromName wrapped]
         /\ lookup name = inr err /\ exists innerErr, lookup wrapped = inr innerErr)
        \/ exists env lookups,
             Contract.resolves sdk c env
             /\ (lookups = [Config.CallEnvironmentFromName name]
                 \/ lookups = [Config.CallEnvironmentFromName name;
                               Config.CallEnvironmentFromName wrapped])
             /\ let oauth := Config.NewOAuthConfig sdk (azure.ActiveDirectoryEndpoint env)
                               (Config.TenantID c) in
                let token oauthConfig resource :=
                  Config.NewServicePrincipalToken sdk oauthConfig (Config.ClientID c)
                    (Config.ClientSecret c) resource in
                let oauthCall :=
                  Config.CallNewOAuthConfig (azure.ActiveDirectoryEndpoint env)
                    (Config.TenantID c) in
                let tokenCall resource :=
                  Config.CallNewServicePrincipalToken (Config.ClientID c)
                    (Config.ClientSecret c) resource in
                (made = lookups ++ [oauthCall]
                 /\ (snd oauth = Some err
                     \/ (oauth = (None, None)
                         /\ err = "Unable to configure OAuthConfig for tenant "
                                  +:+ Config.TenantID c)))
                \/ (exists oauthConfig,
                      made = lookups ++ [oauthCall; tokenCall (azure.ResourceManagerEndpoint env)]
                      /\ oauth = (Some oauthConfig, None)
                      /\ token oauthConfig (azure.ResourceManagerEndpoint env) = inr err)
                \/ (exists oauthConfig spt,
                      made = lookups ++ [oauthCall;
                                         tokenCall (azure.ResourceManagerEndpoint env);
                                         tokenCall (azure.GraphEndpoint env)]
                      /\ oauth = (Some oauthConfig, None)
                      /\ token oauthConfig (azure.ResourceManagerEndpoint env) = inl spt
                      /\ token oauthConfig (azure.GraphEndpoint env) = inr err)).
Proof.
  bootstrap_cases H; cbn [fst snd]; intros Hout; try discriminate Hout.
  all: injection Hout as <-.
  all: eexists; split; [reflexivity|].
  all: first
         [ left; split; [reflexivity|]; split; [reflexivity|]; eauto
         | right; do 2 eexists; split; [unfold Contract.resolves; eauto|];
           split;
           [ | cbv zeta;
               match goal with E : Config.NewOAuthConfig _ _ _ = _ |- _ => rewrite E end;
               first
                 [ left; split; [reflexivity|]; cbn [snd]; auto
                 | right; left; eexists; split; [reflexivity|]; split; [reflexivity|];
                   eassumption
                 | right; right; do 2 eexists; split; [reflexivity|];
                   split; [reflexivity|]; split; eassumption ] ];
           first [left; reflexivity | right; reflexivity] ].
Qed.

(** X14. The authorizer of the data-plane key vault client is a
    callback over the same logging sender as the client itself. Asked for
    a tenant and a resource, it exchanges a token for that resource with
    the client identifier and secret of the configuration, under the
    OAuth configuration of the build, and returns the bearer authorizer
    of the token, or the error of the exchange and no authorizer; the
    tenant it is given is not used. *)
Theorem keyVault_authorizer_exchanges_per_resource (client : Config.ArmClient Token)
    (e : error) :
  fst out = Ok (Some client, e) ->
  exists env oauthConfig callback,
    Contract.resolves sdk c env
    /\ Config.NewOAuthConfig sdk (azure.ActiveDirectoryEndpoint env) (Config.TenantID c)
       = (Some oauthConfig, None)
    /\ Config.handles client !! "keyVaultManagementClient"
       = Some (autorest.mkClient "keyVault.ManagementClient" None None
                 ("HashiCorp-Terraform-v" +:+ Config.VersionString sdk)
                 (autorest.NewBearerAuthorizerCallback
                    (autorest.CreateSender [autorest.withRequestLogging]) callback)
                 (autorest.CreateSender [autorest.withRequestLogging]))
    /\ forall tenantID resource,
         callback tenantID resource
         = match Config.NewServicePrincipalToken sdk oauthConfig (Config.ClientID c)
                   (Config.ClientSecret c) resource with
           | inl keyVaultSpt => (Some keyVaultSpt, None)
           | inr err => (None, Some err)
           end.
Proof.
  unfold Config.getArmClient.
  cbv beta iota zeta delta [mbind M_bind bind mret M_ret ret Config.azure_EnvironmentFromName
    Config.adal_NewOAuthConfig Config.adal_NewServicePrincipalToken].
  destruct (Config.EnvironmentFromName sdk (Config.Environment c)) as [env|envErr] eqn:E1;
    [|destruct (Config.EnvironmentFromName sdk ("AZURE" +:+ Config.Environment c +:+ "CLOUD"))
        as [env|innerErr] eqn:E2; [|intros Hout; discriminate Hout]].
  all: destruct (Config.NewOAuthConfig sdk (azure.ActiveDirectoryEndpoint env)
                   (Config.TenantID c)) as [[oc|] [e1|]] eqn:E3;
       try (intros Hout; discriminate Hout).
  all: destruct (Config.NewServicePrincipalToken sdk oc (Config.ClientID c)
                   (Config.ClientSecret c) (azure.ResourceManagerEndpoint env))
         as [spt|e2]; [|intros Hout; discriminate Hout].
  all: destruct (Config.NewServicePrincipalToken sdk oc (Config.ClientID c)
                   (Config.ClientSecret c) (azure.GraphEndpoint env))
         as [graphSpt|e3]; [|intros Hout; discriminate Hout].
  all: cbn [fst]; intros [= <- _].
  all: exists env, oc; eexists.
  all: split; [unfold Contract.resolves; eauto|].
  all: split; [exact E3|].
  all: split;
       [ match goal with
         | |- ?m !! ?k = _ =>
             let v := eval vm_compute in (m !! k) in
             transitivity v; [vm_compute; reflexivity | reflexivity]
         end
       | intros tenantID resource; reflexivity ].
Qed.

End BootstrapProperties.

(** C5, counterexample. For the environment name "german", which the
    first lookup does not know, the second lookup is of
    "AZUREgermanCLOUD": the name is not upper-cased before it is
    wrapped. *)
Lemma retry_is_not_uppercased :
  ~ Contract.retriesUppercased (Fake.sdk []) (Fake.credentials "german").
Proof.
  intros H.
  assert (E : exists e, Config.EnvironmentFromName (Fake.sdk [])
                          (Config.Environment (Fake.credentials "german")) = inr e)
    by (vm_compute; eexists; reflexivity).
  destruct E as [e E]. specialize (H e E).
  vm_compute in H. discriminate H.
Qed.

(** C7, at a credential set for which the build succeeds. The registry
    that [getArmClient] returns has no handle for the field
    [mysqlServersClient] that the MySQL adapter dereferences: the struct
    declares no such field, the adapter reads the zero value of a client.
    The PostgreSQL servers client next to it is built. *)
Theorem registry_lacks_mysqlServersClient :
  fst (Config.getArmClient (Fake.sdk []) (Fake.credentials "public") [])
  = Ok (Some Fake.registry, None)
  /\ Config.handles Fake.registry !! "mysqlServersClient" = None
  /\ Config.field Fake.registry "mysqlServersClient" = Config.zeroClient
  /\ ("mysqlServersClient" ∉ Config.ArmClient_fields)
  /\ is_Some (Config.handles Fake.registry !! "postgresqlServersClient").
Proof.
  split; [vm_compute; reflexivity|].
  split; [vm_compute; reflexivity|].
  split; [vm_compute; reflexivity|].
  split; [exact mysqlServersClient_not_declared|].
  vm_compute. eexists. reflexivity.
Qed.


(** ** The MySQL Server adapter *)

Section AdapterProperties.

Import schema.
Context {R Token : Type}.
Variable h : MySqlServer.Helpers.
Variable api : @MySqlServer.ServersClient R Token.
Variable meta : Config.ArmClient Token.

#[local] Abbreviation client := (Config.field meta "mysqlServersClient").
#[local] Abbreviation read := (MySqlServer.resourceArmMySqlServerRead h api meta).
#[local] Abbreviation create := (MySqlServer.resourceArmMySqlServerCreate h api meta).
#[local] Abbreviation update := (MySqlServer.resourceArmMySqlServerUpdate h api meta).
#[local] Abbreviation delete := (MySqlServer.resourceArmMySqlServerDelete h api meta).

Ltac run :=
  cbv beta iota zeta delta
    [mbind M_bind bind mret M_ret ret lift gets modify
     MySqlServer.d_Id MySqlServer.d_SetId MySqlServer.d_Set MySqlServer.log_Printf
     MySqlServer.d_Get_string MySqlServer.d_Get_int MySqlServer.d_Get_map
     MySqlServer.d_expandMySQLServerSku MySqlServer.d_flattenAndSetMySQLServerSku
     MySqlServer.d_flattenAndSetTags
     MySqlServer.client_Get MySqlServer.client_CreateOrUpdate MySqlServer.client_Update
     MySqlServer.client_Delete http.StatusNotFound];
  cbn [MySqlServer.resource MySqlServer.remote MySqlServer.calls MySqlServer.logs fst snd].



(** The reads of [d] that an operation starts with, replaced by their
    values. *)
Ltac prepared H :=
  repeat match type of H with
         | context [match ?x with _ => _ end] => destruct x eqn:?; try discriminate H
         end;
  injection H as <- <- <-;
  run;
  repeat (match goal with
          | E : ?x = Ok _ |- context [match ?x with _ => _ end] => rewrite E
          end; cbv beta iota);
  cbn [MySqlServer.resource MySqlServer.remote MySqlServer.calls MySqlServer.logs fst snd].

(** Create, once its arguments are read: the remote call with the
    prepared payload, then the follow-up. *)
Lemma create_prepared (w : MySqlServer.World R) (name resGroup : string)
    (properties : mysql.ServerForCreate.t) (e : error) (r1 : R) :
  MySqlServer.createArguments h (MySqlServer.resource w) = Ok (name, resGroup, properties) ->
  MySqlServer.CreateOrUpdate api client resGroup name properties (MySqlServer.remote w)
  = (e, r1) ->
  let call := MySqlServer.CallCreateOrUpdate resGroup name properties in
  let line := "[INFO] preparing arguments for AzureRM MySQL Server creation." in
  match e with
  | Some err =>
      create w = (Ok (Some err),
                  MySqlServer.mkWorld (MySqlServer.resource w) r1
                    (MySqlServer.calls w ++ [call]) (MySqlServer.logs w ++ [line]))
  | None =>
      forall read getErr r2,
        MySqlServer.Get api client resGroup name r1 = ((read, getErr), r2) ->
        Contract.followsUp h api meta (create w) w line call name resGroup read getErr r2
  end.
Proof.
  intros H Hop. cbv zeta. unfold Contract.followsUp.
  unfold MySqlServer.resourceArmMySqlServerCreate, MySqlServer.createArguments in *.
  prepared H. rewrite Hop. destruct e as [err|]; [reflexivity|].
  intros rd getErr r2 Hget. cbn [MySqlServer.remote]. rewrite Hget.
  cbn [MySqlServer.resource MySqlServer.remote MySqlServer.calls MySqlServer.logs fst snd].
  rewrite <- !app_assoc. cbn [app].
  destruct getErr as [err|]; [reflexivity|].
  destruct (mysql.Server.ID rd) as [id|]; [reflexivity|].
  eexists. split; [reflexivity|]. split.
  - apply mentions_append_l, mentions_here.
  - apply mentions_append_l, mentions_append_l, mentions_append_l, mentions_here.
Qed.

(** Update, once its arguments are read. *)
Lemma update_prepared (w : MySqlServer.World R) (name resGroup : string)
    (properties : mysql.ServerUpdateParameters.t) (e : error) (r1 : R) :
  MySqlServer.updateArguments h (MySqlServer.resource w) = Ok (name, resGroup, properties) ->
  MySqlServer.Update api client resGroup name properties (MySqlServer.remote w) = (e, r1) ->
  let call := MySqlServer.CallUpdate resGroup name properties in
  let line := "[INFO] preparing arguments for AzureRM MySQL Server update." in
  match e with
  | Some err =>
      update w = (Ok (Some err),
                  MySqlServer.mkWorld (MySqlServer.resource w) r1
                    (MySqlServer.calls w ++ [call]) (MySqlServer.logs w ++ [line]))
  | None =>
      forall read getErr r2,
        MySqlServer.Get api client resGroup name r1 = ((read, getErr), r2) ->
        Contract.followsUp h api meta (update w) w line call name resGroup read getErr r2
  end.
Proof.
  intros H Hop. cbv zeta. unfold Contract.followsUp.
  unfold MySqlServer.resourceArmMySqlServerUpdate, MySqlServer.updateArguments in *.
  prepared H. rewrite Hop. destruct e as [err|]; [reflexivity|].
  intros rd getErr r2 Hget. cbn [MySqlServer.remote]. rewrite Hget.
  cbn [MySqlServer.resource MySqlServer.remote MySqlServer.calls MySqlServer.logs fst snd].
  rewrite <- !app_assoc. cbn [app].
  destruct getErr as [err|]; [reflexivity|].
  destruct (mysql.Server.ID rd) as [id|]; [reflexivity|].
  eexists. split; [reflexivity|]. split.
  - apply mentions_append_l, mentions_here.
  - apply mentions_append_l, mentions_append_l, mentions_append_l, mentions_here.
Qed.


(** Read makes no remote call when the identifier does not parse, and
    one [Get] otherwise, whatever it goes on to do. *)
Lemma read_calls (w : MySqlServer.World R) :
  match MySqlServer.parseAzureResourceID h (Id (MySqlServer.resource w)) with
  | inr _ => MySqlServer.calls (snd (read w)) = MySqlServer.calls w
  | inl id =>
      MySqlServer.calls (snd (read w))
      = MySqlServer.calls w
        ++ [MySqlServer.CallGet (MySqlServer.ResourceGroup id)
              (default EmptyString (MySqlServer.Path id !! "servers"))]
  end.
Proof.
  unfold MySqlServer.resourceArmMySqlServerRead. run.
  destruct (MySqlServer.parseAzureResourceID h (Id (MySqlServer.resource w))) as [id|e];
    [|reflexivity].
  destruct (MySqlServer.Get api client _ _ _) as [[resp [err|]] r'];
    cbn [MySqlServer.resource MySqlServer.remote MySqlServer.calls MySqlServer.logs fst snd].
  - destruct (mysql.Server.StatusCode resp =? 404); reflexivity.
  - unfold deref.
    destruct (mysql.Server.Location resp); [|reflexivity].
    cbn [MySqlServer.resource MySqlServer.remote MySqlServer.calls MySqlServer.logs fst snd].
    destruct (mysql.Server.StorageMB resp); [|reflexivity].
    cbn [MySqlServer.resource MySqlServer.remote MySqlServer.calls MySqlServer.logs fst snd].
    destruct (MySqlServer.flattenAndSetMySQLServerSku _ _); reflexivity.
Qed.

(** C2. After the long-running operation of create, and of update, has
    completed without an error, a follow-up [Get] is issued for the same
    group and name. When that [Get] fails, its error is returned; when
    the server it returns has no identifier, the error names the server
    and the resource group; otherwise the identifier is set and the
    result is that of read on the state so reached. The operation
    reports success only when the follow-up [Get] returned an identifier
    and read reported success. *)
Theorem create_update_follow_up (w : MySqlServer.World R) :
  (forall name resGroup properties r1 rd getErr r2,
      MySqlServer.createArguments h (MySqlServer.resource w) = Ok (name, resGroup, properties) ->
      MySqlServer.CreateOrUpdate api client resGroup name properties (MySqlServer.remote w)
      = (None, r1) ->
      MySqlServer.Get api client resGroup name r1 = ((rd, getErr), r2) ->
      let call := MySqlServer.CallCreateOrUpdate resGroup name properties in
      let line := "[INFO] preparing arguments for AzureRM MySQL Server creation." in
      Contract.followsUp h api meta (create w) w line call name resGroup rd getErr r2
      /\ (fst (create w) = Ok None ->
          getErr = None
          /\ exists id,
               mysql.Server.ID rd = Some id
               /\ fst (read (MySqlServer.mkWorld (SetId (MySqlServer.resource w) id) r2
                               (MySqlServer.calls w ++ [call; MySqlServer.CallGet resGroup name])
                               (MySqlServer.logs w ++ [line]))) = Ok None))
  /\ (forall name resGroup properties r1 rd getErr r2,
        MySqlServer.updateArguments h (MySqlServer.resource w)
        = Ok (name, resGroup, properties) ->
        MySqlServer.Update api client resGroup name properties (MySqlServer.remote w)
        = (None, r1) ->
        MySqlServer.Get api client resGroup name r1 = ((rd, getErr), r2) ->
        let call := MySqlServer.CallUpdate resGroup name properties in
        let line := "[INFO] preparing arguments for AzureRM MySQL Server update." in
        Contract.followsUp h api meta (update w) w line call name resGroup rd getErr r2
        /\ (fst (update w) = Ok None ->
            getErr = None
            /\ exists id,
                 mysql.Server.ID rd = Some id
                 /\ fst (read (MySqlServer.mkWorld (SetId (MySqlServer.resource w) id) r2
                                 (MySqlServer.calls w
                                  ++ [call; MySqlServer.CallGet resGroup name])
                                 (MySqlServer.logs w ++ [line]))) = Ok None)).
Proof.
  split; intros name resGroup properties r1 rd getErr r2 Hargs Hop Hget; cbv zeta.
  - pose proof (create_prepared w name resGroup properties None r1 Hargs Hop) as H.
    cbv zeta in H. specialize (H rd getErr r2 Hget). split; [exact H|].
    unfold Contract.followsUp in H. cbv zeta in H.
    destruct getErr as [err|]; [rewrite H; discriminate|].
    destruct (mysql.Server.ID rd) as [id|].
    + rewrite H. intros Hr. split; [reflexivity|]. exists id. split; [reflexivity|exact Hr].
    + destruct H as (msg & H & _). rewrite H. discriminate.
  - pose proof (update_prepared w name resGroup properties None r1 Hargs Hop) as H.
    cbv zeta in H. specialize (H rd getErr r2 Hget). split; [exact H|].
    unfold Contract.followsUp in H. cbv zeta in H.
    destruct getErr as [err|]; [rewrite H; discriminate|].
    destruct (mysql.Server.ID rd) as [id|].
    + rewrite H. intros Hr. split; [reflexivity|]. exists id. split; [reflexivity|exact Hr].
    + destruct H as (msg & H & _). rewrite H. discriminate.
Qed.

(** C8, as the code has it. The payload that update sends carries the
    administrator login password of the declarative configuration: the
    first remote call of update is [Update] with the prepared payload,
    whose password field holds the value of
    [administrator_login_password]. *)
Theorem update_sends_password (w : MySqlServer.World R) (name resGroup : string)
    (parameters : mysql.ServerUpdateParameters.t) :
  MySqlServer.updateArguments h (MySqlServer.resource w) = Ok (name, resGroup, parameters) ->
  (exists rest,
      MySqlServer.calls (snd (update w))
      = MySqlServer.calls w ++ MySqlServer.CallUpdate resGroup name parameters :: rest)
  /\ exists properties password,
       mysql.ServerUpdateParameters.ServerUpdateParametersProperties parameters
       = Some properties
       /\ Get_string (MySqlServer.resource w) "administrator_login_password" = Ok password
       /\ mysql.ServerUpdateParametersProperties.AdministratorLoginPassword properties
          = Some password.
Proof.
  intros Hargs. split.
  - destruct (MySqlServer.Update api client resGroup name parameters (MySqlServer.remote w))
      as [e r1] eqn:Hop.
    pose proof (update_prepared w name resGroup parameters e r1 Hargs Hop) as H.
    cbv zeta in H. destruct e as [err|].
    + rewrite H. exists []. reflexivity.
    + destruct (MySqlServer.Get api client resGroup name r1) as [[rd getErr] r2] eqn:Hget.
      specialize (H rd getErr r2 eq_refl). unfold Contract.followsUp in H. cbv zeta in H.
      destruct getErr as [err|]; [rewrite H; eexists; reflexivity|].
      destruct (mysql.Server.ID rd) as [id|].
      * rewrite H.
        match goal with |- context [read ?w0] => pose proof (read_calls w0) as Hr end.
        destruct (MySqlServer.parseAzureResourceID h _); rewrite Hr;
          cbn [MySqlServer.calls]; rewrite <- ?app_assoc; eexists; reflexivity.
      * destruct H as (msg & H & _). rewrite H. eexists. reflexivity.
  - unfold MySqlServer.updateArguments in Hargs.
    repeat match type of Hargs with
           | context [match ?x with _ => _ end] => destruct x eqn:?; try discriminate Hargs
           end.
    injection Hargs as <- <- <-. eexists _, _. repeat split.
Qed.

(** *** Further properties of the adapter *)

(** X1. Delete parses the identifier, issues one [Delete] for the group
    and the server name of the identifier, and returns the error of the
    operation as it is, nil or not. It makes no other remote call and
    does not touch the resource data: it does not clear the identifier
    itself. *)
Theorem delete_reports_the_operation (w : MySqlServer.World R) (id : MySqlServer.ResourceID) :
  MySqlServer.parseAzureResourceID h (Id (MySqlServer.resource w)) = inl id ->
  let resGroup := MySqlServer.ResourceGroup id in
  let name := default EmptyString (MySqlServer.Path id !! "servers") in
  let done := MySqlServer.Delete api client resGroup name (MySqlServer.remote w) in
  delete w
  = (Ok (fst done),
     MySqlServer.mkWorld (MySqlServer.resource w) (snd done)
       (MySqlServer.calls w ++ [MySqlServer.CallDelete resGroup name]) (MySqlServer.logs w)).
Proof.
  intros Hparse. cbv zeta.
  unfold MySqlServer.resourceArmMySqlServerDelete. run. rewrite Hparse.
  destruct (MySqlServer.Delete api client _ _ _) as [e r']. reflexivity.
Qed.

(** X2. With an identifier that does not parse, read and delete return
    the error of the parser and do nothing else: no remote call, no
    change of the resource data. *)
Theorem unparsable_identifier (w : MySqlServer.World R) (err : string) :
  MySqlServer.parseAzureResourceID h (Id (MySqlServer.resource w)) = inr err ->
  read w = (Ok (Some err), w) /\ delete w = (Ok (Some err), w).
Proof.
  intros Hparse.
  unfold MySqlServer.resourceArmMySqlServerRead, MySqlServer.resourceArmMySqlServerDelete.
  run. rewrite Hparse. split; reflexivity.
Qed.

(** X3. When the long-running operation of create, or of update, ends
    with an error, that error is returned as it is; there is no follow-up
    [Get], the identifier is not set and the resource data is unchanged:
    the operation's own call is the only remote call. *)
Theorem failed_operation_is_returned (w : MySqlServer.World R) :
  (forall name resGroup properties err r1,
      MySqlServer.createArguments h (MySqlServer.resource w) = Ok (name, resGroup, properties) ->
      MySqlServer.CreateOrUpdate api client resGroup name properties (MySqlServer.remote w)
      = (Some err, r1) ->
      create w
      = (Ok (Some err),
         MySqlServer.mkWorld (MySqlServer.resource w) r1
           (MySqlServer.calls w ++ [MySqlServer.CallCreateOrUpdate resGroup name properties])
           (MySqlServer.logs w
            ++ ["[INFO] preparing arguments for AzureRM MySQL Server creation."])))
  /\ (forall name resGroup properties err r1,
        MySqlServer.updateArguments h (MySqlServer.resource w)
        = Ok (name, resGroup, properties) ->
        MySqlServer.Update api client resGroup name properties (MySqlServer.remote w)
        = (Some err, r1) ->
        update w
        = (Ok (Some err),
           MySqlServer.mkWorld (MySqlServer.resource w) r1
             (MySqlServer.calls w ++ [MySqlServer.CallUpdate resGroup name properties])
             (MySqlServer.logs w
              ++ ["[INFO] preparing arguments for AzureRM MySQL Server update."]))).
Proof.
  split; intros name resGroup properties err r1 Hargs Hop.
  - exact (create_prepared w name resGroup properties (Some err) r1 Hargs Hop).
  - exact (update_prepared w name resGroup properties (Some err) r1 Hargs Hop).
Qed.

(** X4. A successful [Get] whose server has no location, no storage
    size, or no SKU (or a SKU without name or capacity) makes read panic:
    each of these pointers is dereferenced without a nil check. *)
Theorem read_panics_on_missing_fields (w : MySqlServer.World R) (id : MySqlServer.ResourceID)
    (resp : mysql.Server.t) (r' : R) :
  MySqlServer.parseAzureResourceID h (Id (MySqlServer.resource w)) = inl id ->
  MySqlServer.Get api client (MySqlServer.ResourceGroup id)
    (default EmptyString (MySqlServer.Path id !! "servers")) (MySqlServer.remote w)
  = ((resp, None), r') ->
  mysql.Server.Location resp = None
  \/ mysql.Server.StorageMB resp = None
  \/ mysql.Server.Sku resp = None
  \/ (exists sku, mysql.Server.Sku resp = Some sku
                  /\ (mysql.Sku.Name sku = None \/ mysql.Sku.Capacity sku = None)) ->
  exists msg, fst (read w) = Panicked msg.
Proof.
  intros Hparse Hget Hnil.
  unfold MySqlServer.resourceArmMySqlServerRead. run. rewrite Hparse, Hget.
  unfold deref, MySqlServer.flattenAndSetMySQLServerSku.
  destruct (mysql.Server.Location resp) as [location|] eqn:E1; [|eexists; reflexivity].
  cbn [MySqlServer.resource MySqlServer.remote MySqlServer.calls MySqlServer.logs fst snd].
  destruct (mysql.Server.StorageMB resp) as [storageMB|] eqn:E2; [|eexists; reflexivity].
  cbn [MySqlServer.resource MySqlServer.remote MySqlServer.calls MySqlServer.logs fst snd].
  destruct (mysql.Server.Sku resp) as [sku|] eqn:E3; [|eexists; reflexivity].
  unfold deref.
  destruct (mysql.Sku.Name sku) as [name|] eqn:E4; [|eexists; reflexivity].
  destruct (mysql.Sku.Capacity sku) as [capacity|] eqn:E5; [|eexists; reflexivity].
  exfalso. destruct Hnil as [Hn|[Hn|[Hn|(sku' & Hs & [Hn|Hn])]]]; congruence.
Qed.

(** X5. A successful [Get] whose server carries a location, a storage
    size and a SKU with name and capacity makes read return nil after one
    remote call. When the tags helper writes nothing but the tags, the
    resource data then echoes the server: name, resource group, the
    normalised location, administrator login, version, storage, SSL
    enforcement, one SKU block with the server's name, capacity and tier,
    and the computed FQDN; the identifier is kept. *)
Theorem read_flattens_the_server (w : MySqlServer.World R) (id : MySqlServer.ResourceID)
    (resp : mysql.Server.t) (r' : R) (location : string) (storageMB : Z)
    (sku : mysql.Sku.t) (skuName : string) (capacity : Z) :
  MySqlServer.parseAzureResourceID h (Id (MySqlServer.resource w)) = inl id ->
  let resGroup := MySqlServer.ResourceGroup id in
  let name := default EmptyString (MySqlServer.Path id !! "servers") in
  MySqlServer.Get api client resGroup name (MySqlServer.remote w) = ((resp, None), r') ->
  mysql.Server.Location resp = Some location ->
  mysql.Server.StorageMB resp = Some storageMB ->
  mysql.Server.Sku resp = Some sku ->
  mysql.Sku.Name sku = Some skuName ->
  mysql.Sku.Capacity sku = Some capacity ->
  (forall d tags,
      Id (MySqlServer.flattenAndSetTags h d tags) = Id d
      /\ forall key, key <> "tags" ->
           attrs (MySqlServer.flattenAndSetTags h d tags) !! key = attrs d !! key) ->
  exists d',
    read w = (Ok None,
              MySqlServer.mkWorld d' r'
                (MySqlServer.calls w ++ [MySqlServer.CallGet resGroup name])
                (MySqlServer.logs w))
    /\ Id d' = Id (MySqlServer.resource w)
    /\ attrs d' !! "name" = AString <$> mysql.Server.Name resp
    /\ attrs d' !! "resource_group_name" = Some (AString resGroup)
    /\ attrs d' !! "location" = Some (AString (MySqlServer.azureRMNormalizeLocation h location))
    /\ attrs d' !! "administrator_login" = AString <$> mysql.Server.AdministratorLogin resp
    /\ attrs d' !! "version" = Some (AString (mysql.Server.Version resp))
    /\ attrs d' !! "storage_mb" = Some (AInt (int storageMB))
    /\ attrs d' !! "ssl_enforcement" = Some (AString (mysql.Server.SslEnforcement resp))
    /\ attrs d' !! "sku"
       = Some (ASet [ {[ "name" := PString skuName;
                         "capacity" := PInt (int capacity);
                         "tier" := PString (mysql.Sku.Tier sku) ]} ])
    /\ attrs d' !! "fqdn" = AString <$> mysql.Server.FullyQualifiedDomainName resp.
Proof.
  intros Hparse resGroup name Hget Hloc Hsto Hsku Hn Hc Htags.
  unfold MySqlServer.resourceArmMySqlServerRead. run. rewrite Hparse.
  fold resGroup name. rewrite Hget.
  unfold deref, MySqlServer.flattenAndSetMySQLServerSku.
  rewrite Hloc, Hsto, Hsku. unfold deref. rewrite Hn, Hc.
  cbn [MySqlServer.resource MySqlServer.remote MySqlServer.calls MySqlServer.logs fst snd].
  eexists. split; [reflexivity|].
  assert (Hset : forall d key v key',
             attrs (Set_ d key v) !! key'
             = if decide (key = key') then v else attrs d !! key').
  { intros d key [v|] key'; unfold Set_; cbn [attrs].
    - apply lookup_insert.
    - rewrite lookup_delete. reflexivity. }
  assert (Hid : forall d key v, Id (Set_ d key v) = Id d).
  { intros d key [v|]; reflexivity. }
  split.
  { rewrite Hid. destruct (Htags (Set_ (Set_ (Set_ (Set_ (Set_ (Set_ (Set_ (Set_
        (MySqlServer.resource w) "name" (AString <$> mysql.Server.Name resp))
        "resource_group_name" (Some (AString resGroup)))
        "location" (Some (AString (MySqlServer.azureRMNormalizeLocation h location))))
        "administrator_login" (AString <$> mysql.Server.AdministratorLogin resp))
        "version" (Some (AString (mysql.Server.Version resp))))
        "storage_mb" (Some (AInt (int storageMB))))
        "ssl_enforcement" (Some (AString (mysql.Server.SslEnforcement resp))))
        "sku" (Some (ASet [ <["tier" := PString (mysql.Sku.Tier sku)]>
                              (<["capacity" := PInt (int capacity)]>
                                 (<["name" := PString skuName]> ∅)) ])))
        (mysql.Server.Tags resp)) as [-> _].
    rewrite !Hid. reflexivity. }
  repeat match goal with |- _ /\ _ => split end.
  all: rewrite Hset; cbn [decide]; try reflexivity.
  all: match goal with
       | |- context [MySqlServer.flattenAndSetTags h ?d ?t] =>
           destruct (Htags d t) as [_ Hframe]
       end.
  all: rewrite ?Hframe by discriminate; rewrite ?Hset; try reflexivity.
Qed.

(** X6. Without a SKU block in the configuration, create and update
    panic on the unchecked [skus[0]] or earlier, before any remote call:
    the remote service and the record of calls are as they were. *)
Theorem no_sku_block_panics (w : MySqlServer.World R) :
  Get_set_List (MySqlServer.resource w) "sku" = Ok [] ->
  (exists msg, fst (create w) = Panicked msg)
  /\ MySqlServer.calls (snd (create w)) = MySqlServer.calls w
  /\ MySqlServer.remote (snd (create w)) = MySqlServer.remote w
  /\ (exists msg, fst (update w) = Panicked msg)
  /\ MySqlServer.calls (snd (update w)) = MySqlServer.calls w
  /\ MySqlServer.remote (snd (update w)) = MySqlServer.remote w.
Proof.
  intros Hsku.
  unfold MySqlServer.resourceArmMySqlServerCreate, MySqlServer.resourceArmMySqlServerUpdate.
  run. unfold MySqlServer.expandMySQLServerSku.
  repeat match goal with
         | |- context [match Get_string ?d ?k with _ => _ end] =>
             destruct (Get_string d k)
         | |- context [match Get_int ?d ?k with _ => _ end] =>
             destruct (Get_int d k)
         | |- context [match Get_map ?d ?k with _ => _ end] =>
             destruct (Get_map d k)
         end;
    rewrite ?Hsku; cbn [index lookup list_lookup fst snd MySqlServer.calls MySqlServer.remote];
    repeat split; eauto.
Qed.

End AdapterProperties.


(** C2, witness: create, with a follow-up [Get] that returns a server
    without an identifier. *)
Lemma create_update_follow_up_witness :
  exists msg,
    MySqlServer.resourceArmMySqlServerCreate Fake.helpers Fake.servers Fake.registry
      (Fake.world Fake.declared (Fake.mkScript [(Fake.notFound, None)] None))
    = (Ok (Some msg),
       MySqlServer.mkWorld Fake.declared (Fake.mkScript [] None)
         [ MySqlServer.CallCreateOrUpdate "G" "N"
             (mysql.ServerForCreate.mk (Some "westeurope")
                (Some (mysql.Sku.mk (Some "MYSQLB50") (Some 50) "Basic" (Some "51200")))
                (Some (mysql.ServerPropertiesForCreate.mk "5.7" (Some 51200) "Enabled"
                         None None))
                (Some ∅));
           MySqlServer.CallGet "G" "N" ]
         ["[INFO] preparing arguments for AzureRM MySQL Server creation."])
    /\ mentions msg "N" /\ mentions msg "G".
Proof.
  exact (proj1 (proj1 (create_update_follow_up Fake.helpers Fake.servers Fake.registry
                  (Fake.world Fake.declared (Fake.mkScript [(Fake.notFound, None)] None)))
                 "N" "G" _ (Fake.mkScript [(Fake.notFound, None)] None) Fake.notFound None
                 (Fake.mkScript [] None) eq_refl eq_refl eq_refl)).
Defined.

(** C8, counterexample: for the configuration of the test double, the
    payload that update sends carries the password "hunter2". *)
Lemma credentials_not_on_create_only :
  ~ Contract.credentialsOnCreateOnly Fake.helpers Fake.servers Fake.registry
      (Fake.world Fake.declared (Fake.mkScript [(Fake.serverN, None)] None)).
Proof.
  intros [_ Hu].
  specialize (Hu "G" "N"
    (mysql.ServerUpdateParameters.mk
       (Some (mysql.Sku.mk (Some "MYSQLB50") (Some 50) "Basic" (Some "51200")))
       (Some (mysql.ServerUpdateParametersProperties.mk "Enabled" (Some 51200) "5.7"
                (Some "hunter2")))
       (Some ∅))
    (mysql.ServerUpdateParametersProperties.mk "Enabled" (Some 51200) "5.7" (Some "hunter2"))).
  assert (Hp : Some "hunter2" = @None string); [|discriminate Hp].
  apply Hu; [|reflexivity].
  apply list_elem_of_In. vm_compute. left. reflexivity.
Qed.

(** C8, witness. *)
Lemma update_sends_password_witness :
  exists properties,
    mysql.ServerUpdateParameters.ServerUpdateParametersProperties
      (mysql.ServerUpdateParameters.mk
         (Some (mysql.Sku.mk (Some "MYSQLB50") (Some 50) "Basic" (Some "51200")))
         (Some (mysql.ServerUpdateParametersProperties.mk "Enabled" (Some 51200) "5.7"
                  (Some "hunter2")))
         (Some ∅))
    = Some properties
    /\ mysql.ServerUpdateParametersProperties.AdministratorLoginPassword properties
       = Some "hunter2".
Proof.
  destruct (proj2 (update_sends_password Fake.helpers Fake.servers Fake.registry
                     (Fake.world Fake.declared (Fake.mkScript [] None)) "N" "G" _ eq_refl))
    as (properties & password & Hp & Hg & Hpw).
  exists properties. split; [exact Hp|].
  rewrite Hpw. f_equal. vm_compute in Hg. congruence.
Defined.

(** ** The schema and the SKU *)

Section SchemaProperties.

Import schema.

(** [StringInSlice] with [ignoreCase] accepts exactly the strings that
    are in the list when case is ignored. *)
Lemma StringInSlice_accepts (valid : list string) (v : Prim) (key : string) :
  Contract.accepts (validation.StringInSlice valid true) v key
  <-> exists s, v = PString s /\ Contract.inListFold s valid.
Proof.
  unfold Contract.accepts, validation.StringInSlice, Contract.inListFold.
  destruct v as [s|n]; cbn [snd].
  - destruct (existsb _ valid) eqn:E; cbn [snd].
    + split; [intros _|reflexivity].
      apply existsb_exists in E as (a & Hin & Ha).
      exists s. split; [reflexivity|]. exists a. split; [apply list_elem_of_In, Hin|].
      apply orb_true_iff in Ha as [Ha|Ha].
      * apply String.eqb_eq in Ha. now subst.
      * cbn [andb] in Ha. now apply String.eqb_eq in Ha.
    + split; [discriminate|].
      intros (s' & [= <-] & a & Hin & Ha). exfalso.
      apply not_true_iff_false in E. apply E, existsb_exists.
      exists a. split; [apply list_elem_of_In, Hin|].
      apply orb_true_iff. right. cbn [andb]. rewrite Ha. apply String.eqb_refl.
  - split; [discriminate|]. intros (s & Hs & _). discriminate Hs.
Qed.

(** [validateIntInSlice] accepts exactly the integers of the list. *)
Lemma validateIntInSlice_accepts (valid : list Z) (v : Prim) (key : string) :
  Contract.accepts (MySqlServer.validateIntInSlice valid) v key
  <-> exists n, v = PInt n /\ n ∈ valid.
Proof.
  unfold Contract.accepts, MySqlServer.validateIntInSlice.
  destruct v as [s|n]; cbn [snd].
  - split; [discriminate|]. intros (n & Hn & _). discriminate Hn.
  - destruct (existsb _ valid) eqn:E; cbn [snd].
    + split; [intros _|reflexivity].
      apply existsb_exists in E as (a & Hin & Ha). apply Z.eqb_eq in Ha. subst a.
      exists n. split; [reflexivity|apply list_elem_of_In, Hin].
    + split; [discriminate|].
      intros (n' & [= <-] & Hin). exfalso.
      apply not_true_iff_false in E. apply E, existsb_exists.
      exists n. split; [apply list_elem_of_In, Hin|apply Z.eqb_refl].
Qed.

Lemma lookupSchema_elem (sch : list (string * Schema)) (key : string) (s : Schema) :
  lookupSchema sch key = Some s -> (key, s) ∈ sch.
Proof.
  induction sch as [|[k s'] sch IH]; cbn [lookupSchema]; [discriminate|].
  destruct (String.eqb_spec k key) as [->|_].
  - intros [= ->]. apply list_elem_of_here.
  - intros H. apply list_elem_of_further, IH, H.
Qed.

Lemma flat_map_nonempty {A B : Type} (f : A -> list B) (l : list A) (a : A) :
  a ∈ l -> f a <> [] -> flat_map f l <> [].
Proof.
  induction 1 as [a l|a b l Hin IH]; cbn [flat_map]; intros Hf E.
  - apply app_eq_nil in E as [E _]. contradiction.
  - apply app_eq_nil in E as [_ E]. exact (IH Hf E).
Qed.

(** A value that the validator of its key refuses makes the validation
    of the resource report an error. *)
Lemma validateResource_rejects (sch : list (string * Schema)) (d : ResourceData)
    (key : string) (f : SchemaValidateFunc) (v : Prim) :
  Contract.validatorAt sch [key] = Some f ->
  Contract.primAttr d key = Some v ->
  ~ Contract.accepts f v key ->
  Host.validateResource sch d <> [].
Proof.
  unfold Contract.validatorAt, Contract.primAttr, Contract.accepts.
  destruct (lookupSchema sch key) as [s|] eqn:Hs; cbn; [|discriminate].
  intros Hf Hv Hn. apply lookupSchema_elem in Hs.
  apply (flat_map_nonempty _ _ _ Hs).
  unfold Host.validateAttr, Host.validateValue.
  destruct (attrs d !! key) as [[s'|n|l|m]|]; try discriminate Hv;
    injection Hv as <-; rewrite Hf; exact Hn.
Qed.

(** The same for a value inside a nested block. *)
Lemma validateResource_rejects_nested (sch : list (string * Schema)) (d : ResourceData)
    (name key : string) (f : SchemaValidateFunc)
    (blocks : list (gmap string Prim)) (block : gmap string Prim) (v : Prim) :
  Contract.validatorAt sch [name; key] = Some f ->
  attrs d !! name = Some (ASet blocks) ->
  block ∈ blocks ->
  block !! key = Some v ->
  ~ Contract.accepts f v key ->
  Host.validateResource sch d <> [].
Proof.
  unfold Contract.validatorAt, Contract.accepts.
  destruct (lookupSchema sch name) as [b|] eqn:Hb; cbn; [|discriminate].
  destruct (Elem b) as [fields|] eqn:He; cbn; [|discriminate].
  destruct (lookupSchema fields key) as [s|] eqn:Hs; cbn; [|discriminate].
  intros Hf Hd Hin Hv Hn.
  apply lookupSchema_elem in Hb, Hs.
  apply (flat_map_nonempty _ _ _ Hb).
  unfold Host.validateAttr. rewrite Hd, He.
  apply (flat_map_nonempty _ _ _ Hin).
  unfold Host.validateBlock. apply (flat_map_nonempty _ _ _ Hs).
  rewrite Hv. unfold Host.validateValue. rewrite Hf. exact Hn.
Qed.

Context {R Token : Type}.
Variable h : MySqlServer.Helpers.
Variable api : @MySqlServer.ServersClient R Token.

#[local] Abbreviation sch := (Schema_ (MySqlServer.resourceArmMySqlServer h api)).

(** C4. The validators of the schema accept: the SKU name in MYSQLB50,
    MYSQLB100 ignoring case; the SKU capacity in 50, 100; the SKU tier in
    Basic ignoring case; the version in 5.6, 5.7 ignoring case; the
    storage in 51200, 102400; the SSL enforcement in Disabled, Enabled
    ignoring case; and nothing else. A configuration in which one of
    these values is refused by its validator does not pass the validation
    of the resource, and then the host does not call create: the state,
    with its record of remote calls, is unchanged. *)
Theorem schema_allow_lists :
  (exists f, Contract.validatorAt sch ["sku"; "name"] = Some f
             /\ forall v key, Contract.accepts f v key
                  <-> exists s, v = PString s
                                /\ Contract.inListFold s ["MYSQLB50"; "MYSQLB100"])
  /\ (exists f, Contract.validatorAt sch ["sku"; "capacity"] = Some f
                /\ forall v key, Contract.accepts f v key
                     <-> exists n, v = PInt n /\ (n = 50 \/ n = 100))
  /\ (exists f, Contract.validatorAt sch ["sku"; "tier"] = Some f
                /\ forall v key, Contract.accepts f v key
                     <-> exists s, v = PString s /\ Contract.inListFold s ["Basic"])
  /\ (exists f, Contract.validatorAt sch ["version"] = Some f
                /\ forall v key, Contract.accepts f v key
                     <-> exists s, v = PString s /\ Contract.inListFold s ["5.6"; "5.7"])
  /\ (exists f, Contract.validatorAt sch ["storage_mb"] = Some f
                /\ forall v key, Contract.accepts f v key
                     <-> exists n, v = PInt n /\ (n = 51200 \/ n = 102400))
  /\ (exists f, Contract.validatorAt sch ["ssl_enforcement"] = Some f
                /\ forall v key, Contract.accepts f v key
                     <-> exists s, v = PString s
                                   /\ Contract.inListFold s ["Disabled"; "Enabled"])
  /\ (forall d key f v,
        Contract.validatorAt sch [key] = Some f ->
        Contract.primAttr d key = Some v ->
        ~ Contract.accepts f v key ->
        Host.validateResource sch d <> [])
  /\ (forall d key f blocks block v,
        Contract.validatorAt sch ["sku"; key] = Some f ->
        attrs d !! "sku" = Some (ASet blocks) ->
        block ∈ blocks ->
        block !! key = Some v ->
        ~ Contract.accepts f v key ->
        Host.validateResource sch d <> [])
  /\ (forall (meta : Config.ArmClient Token) (w : MySqlServer.World R),
        Host.validateResource sch (MySqlServer.resource w) <> [] ->
        exists errs,
          errs <> []
          /\ Host.applyCreate (MySqlServer.resourceArmMySqlServer h api) meta w
             = (Ok (inl errs), w)).
Proof.
  assert (Hz : forall n a b : Z, n ∈ [a; b] <-> n = a \/ n = b).
  { intros n a b. rewrite !elem_of_cons, elem_of_nil. tauto. }
  repeat match goal with |- _ /\ _ => split end.
  - eexists. split; [reflexivity|]. intros v key. apply StringInSlice_accepts.
  - eexists. split; [reflexivity|]. intros v key.
    rewrite validateIntInSlice_accepts. now setoid_rewrite Hz.
  - eexists. split; [reflexivity|]. intros v key. apply StringInSlice_accepts.
  - eexists. split; [reflexivity|]. intros v key. apply StringInSlice_accepts.
  - eexists. split; [reflexivity|]. intros v key.
    rewrite validateIntInSlice_accepts. now setoid_rewrite Hz.
  - eexists. split; [reflexivity|]. intros v key. apply StringInSlice_accepts.
  - intros d key f v. apply validateResource_rejects.
  - intros d key f blocks block v. apply validateResource_rejects_nested.
  - intros meta w Hv. unfold Host.applyCreate.
    destruct (Host.validateResource sch (MySqlServer.resource w)) as [|e errs];
      [contradiction|].
    exists (e :: errs). split; [discriminate|reflexivity].
Qed.


(** C3. For a configuration whose first SKU block create accepts,
    expanding the block and flattening the wire SKU so obtained writes a
    single SKU block whose name, capacity and tier are those of the
    block; no other attribute and not the identifier is changed. *)
Theorem sku_round_trip (d : ResourceData) (storageMB : Z)
    (block : gmap string Prim) (blocks : list (gmap string Prim)) :
  attrs d !! "sku" = Some (ASet (block :: blocks)) ->
  Contract.skuAccepted sch block ->
  exists sku d' block',
    MySqlServer.expandMySQLServerSku d storageMB = Ok (Some sku)
    /\ MySqlServer.flattenAndSetMySQLServerSku d (Some sku) = Ok d'
    /\ attrs d' !! "sku" = Some (ASet [block'])
    /\ block' !! "name" = block !! "name"
    /\ block' !! "capacity" = block !! "capacity"
    /\ block' !! "tier" = block !! "tier"
    /\ (forall key, key <> "sku" -> attrs d' !! key = attrs d !! key)
    /\ Id d' = Id d.
Proof.
  intros Hsku ([vn Hn] & [vc Hc] & [vt Ht] & fields & Hf & Hv).
  injection Hf as <-.
  unfold Host.validateBlock in Hv. cbn [flat_map] in Hv.
  rewrite Hn, Hc, Ht in Hv.
  apply app_eq_nil in Hv as [Hvn Hv]. apply app_eq_nil in Hv as [Hvc Hv].
  apply app_eq_nil in Hv as [Hvt _].
  apply (StringInSlice_accepts ["MYSQLB50"; "MYSQLB100"] vn "name") in Hvn
    as (name & -> & _).
  apply (validateIntInSlice_accepts [50; 100] vc "capacity") in Hvc as (capacity & -> & Hcap).
  apply (StringInSlice_accepts [mysql.Basic] vt "tier") in Hvt as (tier & -> & _).
  assert (Hint : int (int32 capacity) = capacity).
  { rewrite !elem_of_cons, elem_of_nil in Hcap.
    destruct Hcap as [->|[->|[]]]; reflexivity. }
  unfold MySqlServer.expandMySQLServerSku, MySqlServer.flattenAndSetMySQLServerSku,
    Get_set_List, index, as_string, as_int, deref.
  rewrite Hsku. cbn [lookup list_lookup]. rewrite Hn, Hc, Ht. cbn [mysql.Sku.Name
    mysql.Sku.Capacity mysql.Sku.Tier].
  eexists _, _, _. split; [reflexivity|]. split; [reflexivity|].
  unfold Set_. cbn [attrs id Id]. rewrite Hint.
  split; [apply lookup_insert_eq|].
  split; [now rewrite lookup_insert_ne, lookup_insert_ne, lookup_insert_eq|].
  split; [now rewrite lookup_insert_ne, lookup_insert_eq|].
  split; [now rewrite lookup_insert_eq|].
  split; [|reflexivity].
  intros key Hk. now rewrite lookup_insert_ne.
Qed.

End SchemaProperties.

(** C3, witness: the SKU block of the test configuration. *)
Lemma sku_round_trip_witness :
  exists sku d' block',
    MySqlServer.expandMySQLServerSku Fake.declared 51200 = Ok (Some sku)
    /\ MySqlServer.flattenAndSetMySQLServerSku Fake.declared (Some sku) = Ok d'
    /\ schema.attrs d' !! "sku" = Some (schema.ASet [block'])
    /\ block' !! "name" = Some (schema.PString "MYSQLB50")
    /\ block' !! "capacity" = Some (schema.PInt 50)
    /\ block' !! "tier" = Some (schema.PString "Basic").
Proof.
  assert (Ha : Contract.skuAccepted
                 (schema.Schema_ (MySqlServer.resourceArmMySqlServer Fake.helpers Fake.servers))
                 Fake.skuBlock).
  { split; [vm_compute; eauto|]. split; [vm_compute; eauto|]. split; [vm_compute; eauto|].
    eexists. split; [reflexivity|]. vm_compute. reflexivity. }
  destruct (sku_round_trip Fake.helpers Fake.servers Fake.declared 51200 Fake.skuBlock []
              eq_refl Ha)
    as (sku & d' & block' & He & Hf & Hs & Hn & Hc & Ht & _).
  exists sku, d', block'. repeat split; assumption.
Defined.

(** C4, witness: on the test configuration with the version "8.0" the
    validation reports an error and no remote call is made. *)
Lemma schema_allow_lists_witness :
  exists errs,
    errs <> []
    /\ Host.applyCreate (MySqlServer.resourceArmMySqlServer Fake.helpers Fake.servers)
         Fake.registry
         (Fake.world (schema.Set_ Fake.declared "version" (Some (schema.AString "8.0")))
            (Fake.mkScript [] None))
       = (Ok (inl errs),
          Fake.world (schema.Set_ Fake.declared "version" (Some (schema.AString "8.0")))
            (Fake.mkScript [] None)).
Proof.
  apply schema_allow_lists.
  apply (validateResource_rejects _ _ "version"
           (validation.StringInSlice [mysql.FiveFullStopSix; mysql.FiveFullStopSeven] true)
           (schema.PString "8.0")); [reflexivity|reflexivity|].
  vm_compute. discriminate.
Defined.

(** ** Further properties of the SKU translation *)

Section SkuProperties.

Import schema.

Lemma int32_fixed (z : Z) : int32 z = z <-> is_int32 z.
Proof.
  unfold int32, is_int32. split.
  - intros H. pose proof (Z.mod_pos_bound (z + 2 ^ 31) (2 ^ 32) ltac:(lia)). lia.
  - intros H. rewrite Z.mod_small; lia.
Qed.

Lemma int32_range (z : Z) : is_int32 (int32 z).
Proof.
  unfold int32, is_int32.
  pose proof (Z.mod_pos_bound (z + 2 ^ 31) (2 ^ 32) ltac:(lia)). lia.
Qed.

Lemma int_of_int32 (z : Z) : int (int32 z) = int32 z.
Proof.
  pose proof (int32_range z) as H. unfold is_int32 in H.
  unfold int, int64. rewrite Z.mod_small; lia.
Qed.

(** X7. Expand reads the first SKU block only. The wire SKU carries the
    name and the tier as they are, the capacity converted to 32 bits and
    the storage size in decimal as its size. Flattening it restores name
    and tier always, and the capacity exactly when it fits 32 bits: a
    larger capacity comes back wrapped around. *)
Theorem sku_round_trip_needs_int32 (d : ResourceData) (storageMB : Z)
    (block : gmap string Prim) (blocks : list (gmap string Prim))
    (name tier : string) (capacity : Z) :
  attrs d !! "sku" = Some (ASet (block :: blocks)) ->
  block !! "name" = Some (PString name) ->
  block !! "capacity" = Some (PInt capacity) ->
  block !! "tier" = Some (PString tier) ->
  let sku := mysql.Sku.mk (Some name) (Some (int32 capacity)) tier (Some (Itoa storageMB)) in
  MySqlServer.expandMySQLServerSku d storageMB = Ok (Some sku)
  /\ exists d' block',
       MySqlServer.flattenAndSetMySQLServerSku d (Some sku) = Ok d'
       /\ attrs d' !! "sku" = Some (ASet [block'])
       /\ block' !! "name" = Some (PString name)
       /\ block' !! "tier" = Some (PString tier)
       /\ block' !! "capacity" = Some (PInt (int32 capacity))
       /\ (block' !! "capacity" = block !! "capacity" <-> is_int32 capacity).
Proof.
  intros Hsku Hn Hc Ht. cbv zeta.
  unfold MySqlServer.expandMySQLServerSku, MySqlServer.flattenAndSetMySQLServerSku,
    Get_set_List, index, as_string, as_int, deref.
  rewrite Hsku. cbn [lookup list_lookup]. rewrite Hn, Hc, Ht.
  split; [reflexivity|].
  cbn [mysql.Sku.Name mysql.Sku.Capacity mysql.Sku.Tier].
  eexists _, _. split; [reflexivity|].
  unfold Set_. cbn [attrs]. rewrite int_of_int32.
  split; [apply lookup_insert_eq|].
  split; [now rewrite lookup_insert_ne, lookup_insert_ne, lookup_insert_eq|].
  split; [now rewrite lookup_insert_eq|].
  assert (Hcap : (<["tier":=PString tier]> (<["capacity":=PInt (int32 capacity)]>
                    (<["name":=PString name]> (∅ : gmap string Prim)))) !! "capacity"
                 = Some (PInt (int32 capacity)))
    by now rewrite lookup_insert_ne, lookup_insert_eq.
  split; [exact Hcap|].
  rewrite Hcap. rewrite <- int32_fixed. split; congruence.
Qed.

(** X8. Flatten succeeds exactly when the wire SKU, its name and its
    capacity are not nil, and panics otherwise. When it succeeds it
    replaces the SKU set by a single block with exactly the keys name,
    capacity and tier, and leaves the identifier and every other
    attribute as they were. *)
Theorem flatten_needs_name_and_capacity (d : ResourceData) (resp : option mysql.Sku.t) :
  match MySqlServer.flattenAndSetMySQLServerSku d resp with
  | Ok d' =>
      exists sku name capacity,
        resp = Some sku
        /\ mysql.Sku.Name sku = Some name
        /\ mysql.Sku.Capacity sku = Some capacity
        /\ attrs d' !! "sku"
           = Some (ASet [ {[ "name" := PString name;
                             "capacity" := PInt (int capacity);
                             "tier" := PString (mysql.Sku.Tier sku) ]} ])
        /\ Id d' = Id d
        /\ (forall key, key <> "sku" -> attrs d' !! key = attrs d !! key)
  | Panicked _ =>
      resp = None
      \/ exists sku, resp = Some sku
                     /\ (mysql.Sku.Name sku = None \/ mysql.Sku.Capacity sku = None)
  end.
Proof.
  unfold MySqlServer.flattenAndSetMySQLServerSku, deref.
  destruct resp as [sku|]; [|left; reflexivity].
  destruct (mysql.Sku.Name sku) as [name|] eqn:En; [|right; eauto].
  destruct (mysql.Sku.Capacity sku) as [capacity|] eqn:Ec; [|right; eauto].
  exists sku, name, capacity. unfold Set_. cbn [attrs id Id].
  split; [reflexivity|]. split; [exact En|]. split; [exact Ec|].
  split; [rewrite lookup_insert_eq; reflexivity|].
  split; [reflexivity|].
  intros key Hk. now rewrite lookup_insert_ne.
Qed.

(** X9. The other way round: flattening a wire SKU with a name and a
    32-bit capacity, and expanding the data so written, gives the same
    name, capacity and tier; the size is not kept but set from the
    storage size given to expand. *)
Theorem sku_wire_round_trip (d : ResourceData) (storageMB : Z) (sku : mysql.Sku.t)
    (name : string) (capacity : Z) :
  mysql.Sku.Name sku = Some name ->
  mysql.Sku.Capacity sku = Some capacity ->
  is_int32 capacity ->
  exists d',
    MySqlServer.flattenAndSetMySQLServerSku d (Some sku) = Ok d'
    /\ MySqlServer.expandMySQLServerSku d' storageMB
       = Ok (Some (mysql.Sku.mk (Some name) (Some capacity) (mysql.Sku.Tier sku)
                     (Some (Itoa storageMB)))).
Proof.
  intros Hn Hc Hr.
  unfold MySqlServer.flattenAndSetMySQLServerSku, deref. rewrite Hn, Hc.
  eexists. split; [reflexivity|].
  unfold MySqlServer.expandMySQLServerSku, Get_set_List, Set_. cbn [attrs].
  rewrite lookup_insert_eq. cbn [index lookup list_lookup].
  rewrite lookup_insert_ne, lookup_insert_ne, lookup_insert_eq by discriminate.
  rewrite lookup_insert_ne, lookup_insert_eq by discriminate.
  rewrite lookup_insert_eq. cbn [as_string as_int].
  assert (Hi : int capacity = capacity).
  { unfold int, int64, is_int32 in *. rewrite Z.mod_small; lia. }
  rewrite Hi. apply int32_fixed in Hr. rewrite Hr. reflexivity.
Qed.

End SkuProperties.

(** ** The further properties on the test doubles *)

Lemma Fake_tags_frame (d : schema.ResourceData) (tags : option (gmap string string)) :
  schema.Id (MySqlServer.flattenAndSetTags Fake.helpers d tags) = schema.Id d
  /\ forall key, key <> "tags" ->
       schema.attrs (MySqlServer.flattenAndSetTags Fake.helpers d tags) !! key
       = schema.attrs d !! key.
Proof.
  destruct tags as [tags|]; (split; [reflexivity|]); intros key Hk; cbn.
  - apply lookup_insert_ne. congruence.
  - apply lookup_delete_ne. congruence.
Qed.

(** X1, witness. *)
Lemma delete_reports_the_operation_witness :
  MySqlServer.resourceArmMySqlServerDelete Fake.helpers Fake.servers Fake.registry
    (Fake.world (schema.SetId Fake.declared Fake.serverId) (Fake.mkScript [] None))
  = (Ok None,
     MySqlServer.mkWorld (schema.SetId Fake.declared Fake.serverId) (Fake.mkScript [] None)
       [MySqlServer.CallDelete "G" "N"] []).
Proof.
  exact (delete_reports_the_operation Fake.helpers Fake.servers Fake.registry
           (Fake.world (schema.SetId Fake.declared Fake.serverId) (Fake.mkScript [] None))
           (MySqlServer.mkResourceID "G" {[ "servers" := "N" ]}) eq_refl).
Defined.

(** X2, witness: the empty identifier does not parse. *)
Lemma unparsable_identifier_witness :
  MySqlServer.resourceArmMySqlServerRead Fake.helpers Fake.servers Fake.registry
    (Fake.world Fake.declared (Fake.mkScript [] None))
  = (Ok (Some "Cannot parse Azure Id: "), Fake.world Fake.declared (Fake.mkScript [] None)).
Proof.
  exact (proj1 (unparsable_identifier Fake.helpers Fake.servers Fake.registry
                  (Fake.world Fake.declared (Fake.mkScript [] None))
                  "Cannot parse Azure Id: " eq_refl)).
Defined.

(** X3, witness: the creation ends with the error "conflict". *)
Lemma failed_operation_is_returned_witness :
  fst (MySqlServer.resourceArmMySqlServerCreate Fake.helpers Fake.servers Fake.registry
         (Fake.world Fake.declared (Fake.mkScript [] (Some "conflict"))))
  = Ok (Some "conflict").
Proof.
  rewrite (proj1 (failed_operation_is_returned Fake.helpers Fake.servers Fake.registry
                    (Fake.world Fake.declared (Fake.mkScript [] (Some "conflict"))))
             "N" "G" _ "conflict" (Fake.mkScript [] (Some "conflict")) eq_refl eq_refl).
  reflexivity.
Defined.

(** X4, witness: a server without a location. *)
Lemma read_panics_on_missing_fields_witness :
  exists msg,
    fst (MySqlServer.resourceArmMySqlServerRead Fake.helpers Fake.servers Fake.registry
           (Fake.world (schema.SetId Fake.declared Fake.serverId)
              (Fake.mkScript [(Fake.notFound, None)] None)))
    = Panicked msg.
Proof.
  exact (read_panics_on_missing_fields Fake.helpers Fake.servers Fake.registry
           (Fake.world (schema.SetId Fake.declared Fake.serverId)
              (Fake.mkScript [(Fake.notFound, None)] None))
           (MySqlServer.mkResourceID "G" {[ "servers" := "N" ]})
           Fake.notFound (Fake.mkScript [] None) eq_refl eq_refl (or_introl eq_refl)).
Defined.

(** X5, witness: the server of the end-to-end scenario. *)
Lemma read_flattens_the_server_witness :
  exists d',
    MySqlServer.resourceArmMySqlServerRead Fake.helpers Fake.servers Fake.registry
      (Fake.world (schema.SetId Fake.declared Fake.serverId)
         (Fake.mkScript [(Fake.serverN, None)] None))
    = (Ok None,
       MySqlServer.mkWorld d' (Fake.mkScript [] None) [MySqlServer.CallGet "G" "N"] [])
    /\ schema.attrs d' !! "fqdn" = Some (schema.AString "n.mysql.database.azure.com")
    /\ schema.attrs d' !! "location" = Some (schema.AString "west europe").
Proof.
  destruct (read_flattens_the_server Fake.helpers Fake.servers Fake.registry
              (Fake.world (schema.SetId Fake.declared Fake.serverId)
                 (Fake.mkScript [(Fake.serverN, None)] None))
              (MySqlServer.mkResourceID "G" {[ "servers" := "N" ]})
              Fake.serverN (Fake.mkScript [] None) "West Europe" 51200
              (mysql.Sku.mk (Some "MYSQLB50") (Some 50) "Basic" (Some "51200"))
              "MYSQLB50" 50 eq_refl eq_refl eq_refl eq_refl eq_refl eq_refl eq_refl
              Fake_tags_frame)
    as (d' & Hr & _ & _ & _ & Hl & _ & _ & _ & _ & _ & Hf).
  exists d'. split; [exact Hr|]. split; [exact Hf | exact Hl].
Defined.

(** X6, witness: the test configuration without its SKU block. *)
Lemma no_sku_block_panics_witness :
  exists msg,
    fst (MySqlServer.resourceArmMySqlServerCreate Fake.helpers Fake.servers Fake.registry
           (Fake.world (schema.Set_ Fake.declared "sku" None) (Fake.mkScript [] None)))
    = Panicked msg.
Proof.
  exact (proj1 (no_sku_block_panics Fake.helpers Fake.servers Fake.registry
                  (Fake.world (schema.Set_ Fake.declared "sku" None) (Fake.mkScript [] None))
                  eq_refl)).
Defined.

(** X7, witness: the capacity 4294967346 comes back as 50. *)
Lemma sku_round_trip_needs_int32_witness :
  MySqlServer.expandMySQLServerSku
    (schema.mkResourceData EmptyString
       {[ "sku" := schema.ASet [ {[ "name" := schema.PString "MYSQLB50";
                                     "capacity" := schema.PInt 4294967346;
                                     "tier" := schema.PString "Basic" ]} ] ]})
    51200
  = Ok (Some (mysql.Sku.mk (Some "MYSQLB50") (Some 50) "Basic" (Some "51200"))).
Proof.
  exact (proj1 (sku_round_trip_needs_int32
                  (schema.mkResourceData EmptyString
                     {[ "sku" := schema.ASet [ {[ "name" := schema.PString "MYSQLB50";
                                                   "capacity" := schema.PInt 4294967346;
                                                   "tier" := schema.PString "Basic" ]} ] ]})
                  51200
                  {[ "name" := schema.PString "MYSQLB50";
                     "capacity" := schema.PInt 4294967346;
                     "tier" := schema.PString "Basic" ]}
                  [] "MYSQLB50" "Basic" 4294967346 eq_refl eq_refl eq_refl eq_refl)).
Defined.

(** X9, witness: the SKU of the server of the end-to-end scenario. *)
Lemma sku_wire_round_trip_witness :
  exists d',
    MySqlServer.flattenAndSetMySQLServerSku Fake.declared
      (Some (mysql.Sku.mk (Some "MYSQLB50") (Some 50) "Basic" (Some "51200"))) = Ok d'
    /\ MySqlServer.expandMySQLServerSku d' 102400
       = Ok (Some (mysql.Sku.mk (Some "MYSQLB50") (Some 50) "Basic" (Some "102400"))).
Proof.
  apply (sku_wire_round_trip Fake.declared 102400
           (mysql.Sku.mk (Some "MYSQLB50") (Some 50) "Basic" (Some "51200"))
           "MYSQLB50" 50 eq_refl eq_refl).
  unfold is_int32. lia.
Defined.

(** X10, witness: the service principals client of the test registry. *)
Lemma getArmClient_handles_configured_witness :
  autorest.UserAgent (Config.field Fake.registry "servicePrincipalsClient")
  = "HashiCorp-Terraform-v0.10.8"
  /\ autorest.Sender_ (Config.field Fake.registry "servicePrincipalsClient")
     = autorest.CreateSender [autorest.withRequestLogging].
Proof.
  assert (Hh : Config.handles Fake.registry !! "servicePrincipalsClient"
               = Some (Config.field Fake.registry "servicePrincipalsClient"))
    by (vm_compute; reflexivity).
  destruct (getArmClient_handles_configured (Fake.sdk []) (Fake.credentials "public") []
              Fake.registry None "servicePrincipalsClient" _ eq_refl Hh)
    as (env & oc & spt & graphSpt & _ & _ & _ & _ & Hua & Hs & _).
  split; [exact Hua | exact Hs].
Defined.

(** X11, witness: the test registry. *)
Lemma getArmClient_assigned_fields_witness :
  Config.handles Fake.registry !! "netUsageClient" = None
  /\ Config.clientId Fake.registry = "client".
Proof.
  destruct (getArmClient_assigned_fields (Fake.sdk []) (Fake.credentials "public") []
              Fake.registry None eq_refl) as (Hf & Hc & _).
  split; [|exact Hc].
  destruct (Config.handles Fake.registry !! "netUsageClient") as [x|] eqn:E; [|reflexivity].
  exfalso. destruct (proj1 (Hf "netUsageClient")) as [_ Hn]; [rewrite E; eauto|].
  apply Hn. reflexivity.
Defined.

(** X12, witness: the build of the test registry. *)
Lemma getArmClient_success_calls_witness :
  exists env lookups,
    snd (Config.getArmClient (Fake.sdk []) (Fake.credentials "public") [])
    = [] ++ lookups
      ++ [ Config.CallNewOAuthConfig (azure.ActiveDirectoryEndpoint env) "tenant";
           Config.CallNewServicePrincipalToken "client" "secret"
             (azure.ResourceManagerEndpoint env);
           Config.CallNewServicePrincipalToken "client" "secret" (azure.GraphEndpoint env) ].
Proof.
  destruct (getArmClient_success_calls (Fake.sdk []) (Fake.credentials "public") []
              Fake.registry None eq_refl) as (env & lookups & _ & _ & Hs).
  exists env, lookups. exact Hs.
Defined.

(** X13, witness: the management token is refused. *)
Lemma getArmClient_stops_at_first_failure_witness :
  exists made,
    snd (Config.getArmClient (Fake.sdk ["https://management.azure.com/"])
           (Fake.credentials "public") [])
    = [] ++ made.
Proof.
  destruct (getArmClient_stops_at_first_failure
              (Fake.sdk ["https://management.azure.com/"]) (Fake.credentials "public") []
              "token refused for https://management.azure.com/" eq_refl)
    as (made & Hm & _).
  exists made. exact Hm.
Defined.

(** X14, witness: the key vault callback of the test registry, asked for
    a vault audience. *)
Lemma keyVault_authorizer_exchanges_per_resource_witness :
  exists callback,
    autorest.Authorizer_ (Config.field Fake.registry "keyVaultManagementClient")
    = autorest.NewBearerAuthorizerCallback
        (autorest.CreateSender [autorest.withRequestLogging]) callback
    /\ callback "tenant" "https://vault.azure.net" = (Some "https://vault.azure.net", None).
Proof.
  destruct (keyVault_authorizer_exchanges_per_resource (Fake.sdk [])
              (Fake.credentials "public") [] Fake.registry None eq_refl)
    as (env & oc & callback & _ & _ & Hh & Hcb).
  exists callback. split.
  - unfold Config.field. rewrite Hh. reflexivity.
  - rewrite Hcb. reflexivity.
Defined.

(** X15, witness: a listing with one key. *)
Lemma helpers_build_service_clients_witness :
  Config.getBlobStorageClientForStorageAccount
    (Fake.storageSDK
       (storage.mkAccountListKeysResult 200
          (Some [storage.mkAccountKey (Some "key1") (Some "c2VjcmV0")]), None))
    Fake.registry "G" "account" (Config.mkCloud tt [])
  = (Ok (Some "blob.account.core.windows.net", true, None),
     Config.mkCloud tt [("G", "account")]).
Proof.
  pose proof (helpers_build_service_clients
                (Fake.storageSDK
                   (storage.mkAccountListKeysResult 200
                      (Some [storage.mkAccountKey (Some "key1") (Some "c2VjcmV0")]), None))
                Fake.registry "G" "account" (Config.mkCloud tt [])
                (Config.mkCloud tt [("G", "account")]) "c2VjcmV0" eq_refl) as H.
  vm_compute in H. destruct H as [H _]. exact H.
Defined.

(** X16, witness: the first key has no value, the second has one. *)
Lemma only_the_first_key_is_read_witness :
  exists msg,
    fst (Config.getKeyForStorageAccount
           (Fake.storageSDK
              (storage.mkAccountListKeysResult 200
                 (Some [storage.mkAccountKey (Some "key1") None;
                        storage.mkAccountKey (Some "key2") (Some "c2VjcmV0")]), None))
           Fake.registry "G" "account" (Config.mkCloud tt []))
    = Panicked msg.
Proof.
  destruct (only_the_first_key_is_read
              (Fake.storageSDK
                 (storage.mkAccountListKeysResult 200
                    (Some [storage.mkAccountKey (Some "key1") None;
                           storage.mkAccountKey (Some "key2") (Some "c2VjcmV0")]), None))
              Fake.registry "G" "account" (Config.mkCloud tt []) 200
              (storage.mkAccountKey (Some "key1") None)
              [storage.mkAccountKey (Some "key2") (Some "c2VjcmV0")] tt eq_refl
              ltac:(discriminate))
    as (msg & Hk & _).
  exists msg. rewrite Hk. reflexivity.
Defined.
